(** * Expense tracker: budget comparator, statistics aggregations, shade
      generator and the AI call wrapper, embedded from the TypeScript sources.

    Layout: the embedding comes first (modules [JS], [Budgeting],
    [Calendar], [Types], [Statistics], [Store], [OpenRouter], [AiTools]),
    then the sample inputs ([Samples]) and the vocabulary of the statements
    ([Spec]); the lemmas and theorems follow. *)

From Stdlib Require Import ZArith QArith Qcanon Qcabs Lqa String Ascii List Sorted.
From stdpp Require Import base tactics option list gmap strings numbers pretty.

Local Open Scope Z_scope.

(* ===================================================================== *)
(** * JavaScript numbers, values and objects                              *)
(* ===================================================================== *)

Module JS.

(** A JavaScript [number] under exact arithmetic: either [NaN] or a
    rational.  IEEE rounding and the two infinities are outside this model. *)
Inductive num : Type :=
  | NaN
  | Num (q : Qc).

Global Instance num_eq_dec : EqDecision num.
Proof. solve_decision. Defined.

Definition zero : num := Num 0%Qc.

(** [Number.isNaN] / global [isNaN] on a value of type [number]. *)
Definition isNaN (x : num) : bool :=
  match x with NaN => true | Num _ => false end.

(** Binary [+] on numbers. *)
Definition add (x y : num) : num :=
  match x, y with
  | Num a, Num b => Num (a + b)%Qc
  | _, _ => NaN
  end.

(** Binary [-] on numbers. *)
Definition sub (x y : num) : num :=
  match x, y with
  | Num a, Num b => Num (a - b)%Qc
  | _, _ => NaN
  end.

(** Binary [*] on numbers. *)
Definition mul (x y : num) : num :=
  match x, y with
  | Num a, Num b => Num (a * b)%Qc
  | _, _ => NaN
  end.

(** [Math.abs]. *)
Definition abs (x : num) : num :=
  match x with
  | Num a => Num (Qcabs a)
  | NaN => NaN
  end.

(** Binary [/].  A zero divisor gives a non-finite result in JavaScript
    (an infinity or NaN); the model has one non-finite number, [NaN]. *)
Definition div (x y : num) : num :=
  match x, y with
  | Num a, Num b => if decide (b = 0%Qc) then NaN else Num (a / b)%Qc
  | _, _ => NaN
  end.

(** [x > y]; any comparison with NaN is false. *)
Definition gt (x y : num) : bool :=
  match x, y with
  | Num a, Num b => bool_decide (b < a)%Qc
  | _, _ => false
  end.

(** The larger of two rationals. *)
Definition Qcmax (a b : Qc) : Qc := if decide (a < b)%Qc then b else a.

(** [Math.max(x, y)]; NaN if either argument is NaN. *)
Definition max (x y : num) : num :=
  match x, y with
  | Num a, Num b => Num (Qcmax a b)
  | _, _ => NaN
  end.

(** Truthiness of a number: [0] and [NaN] are falsy. *)
Definition truthy (x : num) : bool :=
  match x with
  | NaN => false
  | Num a => bool_decide (a ≠ 0%Qc)
  end.

(** ** Plain objects and [Object.prototype] *)

(** The property names that every plain object ([{}], [{ name }], the
    result of [JSON.parse]) inherits from [Object.prototype]. *)
Definition prototypeNames : list string :=
  ["constructor"; "hasOwnProperty"; "isPrototypeOf"; "propertyIsEnumerable";
   "toLocaleString"; "toString"; "valueOf"; "__proto__";
   "__defineGetter__"; "__defineSetter__"; "__lookupGetter__";
   "__lookupSetter__"]%string.

(** [k] names a property of [Object.prototype]. *)
Definition inherited (k : string) : Prop := k ∈ prototypeNames.

Global Instance inherited_dec (k : string) : Decision (inherited k).
Proof. unfold inherited. apply _. Defined.

(** The pieces of a string that [+] has built: literal characters, the
    [Number::toString] rendering of a number (never empty), and the text that
    [ToPrimitive] gives for the object inherited under a name (for the
    built-in functions a text of the form [function f() { [native code] }],
    for [__proto__] the text [[object Object]]; never empty and never the
    text of a number). *)
Inductive piece : Type :=
  | Chars (s : string)
  | Digits (x : num)
  | Native (k : string).

Global Instance piece_eq_dec : EqDecision piece.
Proof. solve_decision. Defined.

(** What a property of the [any]-typed chart entries and of the
    accumulator objects can hold, or a read of it can give: a number, a
    string, or the object that [Object.prototype] holds under an inherited
    name [k] (a built-in function; [Object.prototype] itself for
    [__proto__]). *)
Inductive value : Type :=
  | VNum (x : num)
  | VText (pieces : list piece)
  | VProto (k : string).

Global Instance value_eq_dec : EqDecision value.
Proof. solve_decision. Defined.

(** The string with text [s] followed by the numbers that [+] has appended
    to it. *)
Definition VStr (s : string) (appended : list num) : value :=
  VText (Chars s :: map Digits appended).

(** A piece that contributes no character. *)
Definition emptyPiece (p : piece) : bool :=
  match p with
  | Chars s => bool_decide (s = EmptyString)
  | _ => false
  end.

(** [o[k]] on a plain object with the own properties [o]: an own property
    wins, then [Object.prototype] is consulted; [None] is [undefined]. *)
Definition readProp (o : gmap string value) (k : string) : option value :=
  match o !! k with
  | Some v => Some v
  | None => if decide (inherited k) then Some (VProto k) else None
  end.

(** [o[k] = v] on a plain object, for a primitive [v]: an own property is
    created or updated, except that [__proto__] is an accessor of
    [Object.prototype] whose setter ignores a primitive, so that nothing is
    stored (unless the object already has an own property of that name, as
    [JSON.parse] can create). *)
Definition writeProp (k : string) (v : value) (o : gmap string value)
  : gmap string value :=
  if decide (k = "__proto__"%string /\ o !! k = None) then o else <[ k := v ]> o.

(** Truthiness of a number is [truthy]; a string is falsy when empty; an
    object is truthy. *)
Definition truthyValue (v : value) : bool :=
  match v with
  | VNum x => truthy x
  | VText ps => negb (forallb emptyPiece ps)
  | VProto _ => true
  end.

(** [x || 0] on the result [x] of a property read ([None] is
    [undefined]): [undefined], [0], [NaN] and the empty string are falsy. *)
Definition orZero (v : option value) : value :=
  match v with
  | None => VNum zero
  | Some x => if truthyValue x then x else VNum zero
  end.

(** The pieces of [ToString(ToPrimitive(v))]. *)
Definition textOf (v : value) : list piece :=
  match v with
  | VNum x => [Digits x]
  | VText ps => ps
  | VProto k => [Native k]
  end.

(** Binary [+]: numeric addition of two numbers, and string concatenation
    as soon as an operand is a string or an object. *)
Definition plusValue (a b : value) : value :=
  match a, b with
  | VNum x, VNum y => VNum (add x y)
  | _, _ => VText (textOf a ++ textOf b)
  end.

(** [v + n] with a number on the right. *)
Definition plus (v : value) (n : num) : value := plusValue v (VNum n).

Section ToNumber.
(** [StringToNumber] on a text built from characters and renderings of
    numbers, which the engine decides. *)
Variable stringToNumber : list piece -> num.

Definition isNative (p : piece) : bool :=
  match p with Native _ => true | _ => false end.

(** [ToNumber], as [Math.abs], [-], [/] and a comparison with a number apply
    it: the text of an inherited object is not the text of a number, nor is
    a string that contains it. *)
Definition toNumber (v : value) : num :=
  match v with
  | VNum x => x
  | VText ps => if existsb isNative ps then NaN else stringToNumber ps
  | VProto _ => NaN
  end.
End ToNumber.

(** [m[k] || 0] where [m] holds numbers under keys that [Object.prototype]
    does not name (the day-of-month labels of the calendar's totals): an
    absent key reads as [undefined], and [undefined], [0] and [NaN] are all
    replaced by [0]. *)
Definition getOrZero (m : gmap string num) (k : string) : num :=
  match m !! k with
  | Some x => if truthy x then x else zero
  | None => zero
  end.

(** A [Map<string, V>], in insertion order.  [Map.set] on a key already
    present replaces the value and keeps the key's position. *)
Fixpoint mapSet {V : Type} (k : string) (v : V) (m : list (string * V))
  : list (string * V) :=
  match m with
  | [] => [(k, v)]
  | (k', v') :: m' =>
      if decide (k' = k) then (k, v) :: m' else (k', v') :: mapSet k v m'
  end.

Fixpoint mapGet {V : Type} (k : string) (m : list (string * V)) : option V :=
  match m with
  | [] => None
  | (k', v') :: m' => if decide (k' = k) then Some v' else mapGet k m'
  end.

End JS.

(* ===================================================================== *)
(** * Budget comparator (Budgeting component, [renderBudgetTable])        *)
(* ===================================================================== *)

Module Budgeting.
Import JS.

Section Table.
(** The engine's [StringToNumber] on a text without native code. *)
Variable stringToNumber : list piece -> num.
(** [spendingByCategory]: signed spend per category for the current month,
    by own property. *)
Variable spendingByCategory : gmap string value.
(** [settings.categoryBudgets], by own property. *)
Variable categoryBudgets : gmap string value.

(** [categories.reduce((sum, cat) => sum + (spendingByCategory[cat] || 0), 0)] *)
Definition totalTracked (categories : list string) : value :=
  fold_left (fun sum cat => plusValue sum (orZero (readProp spendingByCategory cat)))
            categories (VNum zero).

(** [categories.reduce((sum, cat) => sum + (categoryBudgets[cat] || 0), 0)] *)
Definition totalBudget (categories : list string) : value :=
  fold_left (fun sum cat => plusValue sum (orZero (readProp categoryBudgets cat)))
            categories (VNum zero).

(** [totalBudget - Math.abs(totalTracked)] *)
Definition totalRemaining (categories : list string) : num :=
  sub (toNumber stringToNumber (totalBudget categories))
      (abs (toNumber stringToNumber (totalTracked categories))).

(** [Math.abs(totalTracked) > totalBudget], the condition that switches the
    footer to its over-budget colour. *)
Definition overBudget (categories : list string) : bool :=
  gt (abs (toNumber stringToNumber (totalTracked categories)))
     (toNumber stringToNumber (totalBudget categories)).

(** One row of the table body. *)
Record row : Type := Row {
  row_category : string;
  row_tracked : value;
  row_budget : value;
  row_percent : num
}.

(** Body of [categories.map(cat => ...)]:
    [tracked = spendingByCategory[cat] || 0],
    [budget = categoryBudgets[cat] || 0],
    [percent = budget > 0 ? (Math.abs(tracked) / budget) * 100 : 0]. *)
Definition percentOf (tracked budget : value) : num :=
  if gt (toNumber stringToNumber budget) zero
  then mul (div (abs (toNumber stringToNumber tracked))
                (toNumber stringToNumber budget))
           (Num (Qc_of_Z 100))
  else zero.

Definition renderRow (cat : string) : row :=
  let tracked := orZero (readProp spendingByCategory cat) in
  let budget := orZero (readProp categoryBudgets cat) in
  Row cat tracked budget (percentOf tracked budget).

Definition renderRows (categories : list string) : list row :=
  map renderRow categories.
End Table.

End Budgeting.

(* ===================================================================== *)
(** * Dates: the engine's [Date] and the date-fns functions in use        *)
(* ===================================================================== *)

Module Calendar.

(** A valid [Date] is its time value, milliseconds since the epoch; an
    Invalid Date (time value NaN) is the [None] of [dateParse]. *)
Definition time := Z.

(** The date functions the components import.  They belong to the engine
    and to date-fns, not to this repository, and depend on the time zone and
    the locale of the process, so the aggregations take them as an
    interface. *)
Class DateLib : Type := {
  (** [new Date(s).getTime()], [None] for NaN *)
  dateParse : string -> option time;
  (** [format(d, 'EEE')] and [format(d, 'MMM')] on a valid date *)
  formatEEE : time -> string;
  formatMMM : time -> string;
  addWeeks : time -> Z -> time;
  addMonths : time -> Z -> time;
  subMonths : time -> Z -> time;
  addYears : time -> Z -> time;
  startOfWeek : time -> time;
  endOfWeek : time -> time;
  startOfMonth : time -> time;
  endOfMonth : time -> time;
  startOfYear : time -> time;
  endOfYear : time -> time;
  (** [eachDayOfInterval({start, end})], [eachMonthOfInterval({start, end})] *)
  eachDayOfInterval : time -> time -> list time;
  eachMonthOfInterval : time -> time -> list time
}.

(** ** A concrete instance: UTC time zone, en-US locale (weeks start on Sunday) *)

Definition msPerDay : Z := 86400000.

Definition dayOf (t : time) : Z := t / msPerDay.
Definition msOfDay (t : time) : Z := t mod msPerDay.

(** Days since the epoch of a proleptic Gregorian date. *)
Definition daysFromCivil (y m d : Z) : Z :=
  let y' := if m <=? 2 then y - 1 else y in
  let era := y' / 400 in
  let yoe := y' - era * 400 in
  let doy := (153 * (if 2 <? m then m - 3 else m + 9) + 2) / 5 + d - 1 in
  let doe := yoe * 365 + yoe / 4 - yoe / 100 + doy in
  era * 146097 + doe - 719468.

(** Year, month (1..12) and day of month of a day number. *)
Definition civilFromDays (z : Z) : Z * Z * Z :=
  let z' := z + 719468 in
  let era := z' / 146097 in
  let doe := z' - era * 146097 in
  let yoe := (doe - doe / 1460 + doe / 36524 - doe / 146096) / 365 in
  let y := yoe + era * 400 in
  let doy := doe - (365 * yoe + yoe / 4 - yoe / 100) in
  let mp := (5 * doy + 2) / 153 in
  let d := doy - (153 * mp + 2) / 5 + 1 in
  let m := if mp <? 10 then mp + 3 else mp - 9 in
  (if m <=? 2 then y + 1 else y, m, d).

Definition yearOf (t : time) : Z := fst (fst (civilFromDays (dayOf t))).
Definition monthOf (t : time) : Z := snd (fst (civilFromDays (dayOf t))).
Definition dateOf (t : time) : Z := snd (civilFromDays (dayOf t)).

(** [getDay()]: 0 is Sunday; the epoch was a Thursday. *)
Definition weekdayOf (t : time) : Z := (dayOf t + 4) mod 7.

Definition isLeap (y : Z) : bool :=
  ((y mod 4 =? 0) && negb (y mod 100 =? 0)) || (y mod 400 =? 0).

Definition daysInMonth (y m : Z) : Z :=
  if m =? 2 then (if isLeap y then 29 else 28)
  else if (m =? 4) || (m =? 6) || (m =? 9) || (m =? 11) then 30
  else 31.

(** Months counted from year 0: [12 * year + (month - 1)]. *)
Definition monthIndex (t : time) : Z := 12 * yearOf t + (monthOf t - 1).
Definition firstOfMonthIndex (mi : Z) : time :=
  daysFromCivil (mi / 12) (mi mod 12 + 1) 1 * msPerDay.

Definition utc_startOfMonth (t : time) : time := firstOfMonthIndex (monthIndex t).
Definition utc_endOfMonth (t : time) : time :=
  firstOfMonthIndex (monthIndex t + 1) - 1.
Definition utc_startOfYear (t : time) : time :=
  daysFromCivil (yearOf t) 1 1 * msPerDay.
Definition utc_endOfYear (t : time) : time :=
  daysFromCivil (yearOf t + 1) 1 1 * msPerDay - 1.
Definition utc_startOfWeek (t : time) : time :=
  (dayOf t - weekdayOf t) * msPerDay.
Definition utc_endOfWeek (t : time) : time :=
  (dayOf t - weekdayOf t + 7) * msPerDay - 1.

Definition utc_addWeeks (t : time) (n : Z) : time := t + n * 7 * msPerDay.

(** date-fns [addMonths]: same day of month in the target month, clamped to
    that month's last day; the time of day is kept. *)
Definition utc_addMonths (t : time) (n : Z) : time :=
  let mi := monthIndex t + n in
  let y := mi / 12 in
  let m := mi mod 12 + 1 in
  let d := Z.min (dateOf t) (daysInMonth y m) in
  daysFromCivil y m d * msPerDay + msOfDay t.

(** date-fns [eachDayOfInterval]: midnight of every day from [s] to [e]. *)
Definition utc_eachDayOfInterval (s e : time) : list time :=
  map (fun i => (dayOf s + Z.of_nat i) * msPerDay)
      (seq 0 (Z.to_nat (dayOf e - dayOf s + 1))).

(** date-fns [eachMonthOfInterval]: first midnight of every month from the
    month of [s] to the month of [e]. *)
Definition utc_eachMonthOfInterval (s e : time) : list time :=
  map (fun i => firstOfMonthIndex (monthIndex s + Z.of_nat i))
      (seq 0 (Z.to_nat (monthIndex e - monthIndex s + 1))).

Definition weekdayNames : list string :=
  ["Sun"; "Mon"; "Tue"; "Wed"; "Thu"; "Fri"; "Sat"]%string.
Definition monthNames : list string :=
  ["Jan"; "Feb"; "Mar"; "Apr"; "May"; "Jun";
   "Jul"; "Aug"; "Sep"; "Oct"; "Nov"; "Dec"]%string.

Definition utc_formatEEE (t : time) : string :=
  nth (Z.to_nat (weekdayOf t)) weekdayNames EmptyString.
Definition utc_formatMMM (t : time) : string :=
  nth (Z.to_nat (monthOf t - 1)) monthNames EmptyString.

(** Decimal digits of the date-only ISO form [YYYY-MM-DD]. *)
Definition digitOf (c : ascii) : option Z :=
  let n := Z.of_nat (nat_of_ascii c) in
  if (48 <=? n) && (n <=? 57) then Some (n - 48) else None.

Fixpoint digitsOf (acc : Z) (cs : list ascii) : option Z :=
  match cs with
  | [] => Some acc
  | c :: cs' =>
      match digitOf c with
      | Some d => digitsOf (10 * acc + d) cs'
      | None => None
      end
  end.

(** The parser of the concrete instance reads the date-only ISO form, as
    UTC midnight; every other string is an Invalid Date for it.  (Engines
    accept further, implementation-defined forms; the general results below
    hold for any parser.) *)
Definition utc_dateParse (s : string) : option time :=
  match list_ascii_of_string s with
  | [y1; y2; y3; y4; "-"%char; m1; m2; "-"%char; d1; d2] =>
      match digitsOf 0 [y1; y2; y3; y4], digitsOf 0 [m1; m2], digitsOf 0 [d1; d2] with
      | Some y, Some m, Some d =>
          if (1 <=? m) && (m <=? 12) && (1 <=? d) && (d <=? daysInMonth y m)
          then Some (daysFromCivil y m d * msPerDay)
          else None
      | _, _, _ => None
      end
  | _ => None
  end.

Definition utc : DateLib := {|
  dateParse := utc_dateParse;
  formatEEE := utc_formatEEE;
  formatMMM := utc_formatMMM;
  addWeeks := utc_addWeeks;
  addMonths := utc_addMonths;
  subMonths := fun t n => utc_addMonths t (- n);
  addYears := fun t n => utc_addMonths t (12 * n);
  startOfWeek := utc_startOfWeek;
  endOfWeek := utc_endOfWeek;
  startOfMonth := utc_startOfMonth;
  endOfMonth := utc_endOfMonth;
  startOfYear := utc_startOfYear;
  endOfYear := utc_endOfYear;
  eachDayOfInterval := utc_eachDayOfInterval;
  eachMonthOfInterval := utc_eachMonthOfInterval
|}.

End Calendar.

(* ===================================================================== *)
(** * Shared record types                                                 *)
(* ===================================================================== *)

Module Types.
Import JS.

(** The [type] field: ['income' | 'expense' | 'investment']. *)
Inductive TxType : Type := income | expense | investment.

Global Instance TxType_eq_dec : EqDecision TxType.
Proof. solve_decision. Defined.

(** Modelled from the spec: the [Transaction] record, declared in the
    repository's types file, which is not among the sources at hand.  The
    fields are those the spec lists and the components read: [date] is the
    string handed to [new Date], [amount] a number. *)
Record Transaction : Type := mkTx {
  tx_id : string;
  tx_date : string;
  tx_amount : num;
  tx_category : string;
  tx_type : TxType;
  tx_note : option string
}.

Global Instance Transaction_eq_dec : EqDecision Transaction.
Proof. solve_decision. Defined.

End Types.

(* ===================================================================== *)
(** * Statistics component                                                *)
(* ===================================================================== *)

Module Statistics.
Import JS Calendar Types.

(** ** [generateShades] *)

(** [parseInt(s, 16)] on the characters of [s]: optional leading blanks, an
    optional sign, an optional [0x] prefix, then the longest run of
    hexadecimal digits; NaN when that run is empty. *)
Definition hexDigit (c : ascii) : option Z :=
  let n := Z.of_nat (nat_of_ascii c) in
  if (48 <=? n) && (n <=? 57) then Some (n - 48)
  else if (65 <=? n) && (n <=? 70) then Some (n - 55)
  else if (97 <=? n) && (n <=? 102) then Some (n - 87)
  else None.

Fixpoint hexRun (acc : option Z) (cs : list ascii) : option Z :=
  match cs with
  | [] => acc
  | c :: cs' =>
      match hexDigit c with
      | Some d => hexRun (Some (16 * default 0 acc + d)) cs'
      | None => acc
      end
  end.

Definition isBlank (c : ascii) : bool :=
  let n := nat_of_ascii c in
  ((9 <=? n) && (n <=? 13))%nat || (n =? 32)%nat.

Fixpoint dropBlanks (cs : list ascii) : list ascii :=
  match cs with
  | c :: cs' => if isBlank c then dropBlanks cs' else cs
  | [] => []
  end.

Definition dropHexPrefix (cs : list ascii) : list ascii :=
  match cs with
  | "0"%char :: "x"%char :: cs' => cs'
  | "0"%char :: "X"%char :: cs' => cs'
  | _ => cs
  end.

Definition parseInt16 (s : string) : num :=
  let cs := dropBlanks (list_ascii_of_string s) in
  let '(neg, cs) :=
    match cs with
    | "-"%char :: cs' => (true, cs')
    | "+"%char :: cs' => (false, cs')
    | _ => (false, cs)
    end in
  match hexRun None (dropHexPrefix cs) with
  | Some n => Num (Qc_of_Z (if neg then - n else n))
  | None => NaN
  end.

(** [s.substring(i, j)] for [0 <= i <= j]. *)
Definition substring (i j : nat) (s : string) : string :=
  String.substring i (Nat.min j (String.length s) - i) s.

(** [s.startsWith('#')] *)
Definition startsWithHash (s : string) : bool :=
  match s with
  | String "#"%char _ => true
  | _ => false
  end.

(** The template literal [`rgba(${r}, ${g}, ${b}, ${a})`], kept as its four
    interpolated numbers. *)
Record rgba : Type := Rgba {
  red : num;
  green : num;
  blue : num;
  alpha : num
}.

(** The loop [for (let i = 0; i < count; i++)], run from [i] with [n]
    iterations left; each iteration pushes one shade. *)
Fixpoint shadesFrom (r g b : num) (i : Z) (n : nat) (shades : list rgba)
  : list rgba :=
  match n with
  | O => shades
  | S n' =>
      let factor := sub (Num 1%Qc) (mul (Num (Qc_of_Z i)) (Num (Q2Qc (1 # 10)))) in
      shadesFrom r g b (i + 1) n'
        (shades ++ [Rgba r g b (JS.max (Num (Q2Qc (2 # 10))) factor)])
  end.

(** [generateShades(hexColor, count)] for an integer [count]: the three
    channels are read off the colour, then the loop body runs [count] times,
    not at all when [count <= 0]. *)
Definition hexChannels (hexColor : string) : num * num * num :=
  let color :=
    if startsWithHash hexColor
    then substring 1 (String.length hexColor) hexColor
    else hexColor in
  let r := parseInt16 (substring 0 2 color) in
  let g := parseInt16 (substring 2 4 color) in
  let b := parseInt16 (substring 4 6 color) in
  (r, g, b).

Definition generateShades (hexColor : string) (count : Z) : list rgba :=
  let '(r, g, b) := hexChannels hexColor in
  shadesFrom r g b 0 (Z.to_nat count) [].

Section WithDates.
Context {lib : DateLib}.

(** ** [sortedTransactions] *)

(** The comparator [(a, b) => new Date(a.date).getTime() -
    new Date(b.date).getTime()]; the difference is NaN ([None]) when either
    date is invalid. *)
Definition compareByDate (a b : Transaction) : option Z :=
  match dateParse (tx_date a), dateParse (tx_date b) with
  | Some ta, Some tb => Some (ta - tb)
  | _, _ => None
  end.

(** [Array.prototype.sort] places [a] after [b] when the comparator is
    positive; a NaN result counts as [+0]. *)
Definition sortsAfter (a b : Transaction) : bool :=
  match compareByDate a b with
  | Some v => 0 <? v
  | None => false
  end.

(** The order that ECMAScript fixes when the comparator is a consistent
    order on the elements: the sort is then stable, so an element moves
    right past exactly the elements it sorts after. *)
Fixpoint sortInsert (x : Transaction) (l : list Transaction)
  : list Transaction :=
  match l with
  | [] => [x]
  | y :: l' => if sortsAfter x y then y :: sortInsert x l' else x :: l
  end.

Fixpoint sortByDate (l : list Transaction) : list Transaction :=
  match l with
  | [] => []
  | x :: l' => sortInsert x (sortByDate l')
  end.

(** Every date of the array is valid: the comparator then never returns
    NaN and compares by time, which is ECMAScript's condition for a
    consistent comparator. *)
Definition datesParse (l : list Transaction) : Prop :=
  Forall (fun tx => is_Some (dateParse (tx_date tx))) l.

(** [Array.prototype.sort] with this comparator, as the engine at hand
    implements it.  ECMAScript fixes its result only for a consistent
    comparator, where it is the stable ascending order; with an invalid date
    in the array the comparator returns NaN, the order is left to the
    implementation, and all that is known of the result is that it holds
    the same elements. *)
Class SortEngine : Type := {
  engineSort : list Transaction -> list Transaction;
  engineSort_perm : forall l, engineSort l ≡ₚ l;
  engineSort_consistent : forall l, datesParse l -> engineSort l = sortByDate l
}.

(** [[...transactions].sort(...)], as a function of the array's contents
    (the copy itself is modelled in [Store]). *)
Definition sortedTransactions {engine : SortEngine}
  (transactions : list Transaction) : list Transaction :=
  engineSort transactions.

(** ** [netAssetData] *)

Record point : Type := Point {
  pt_date : string;
  balance : num
}.

Global Instance point_eq_dec : EqDecision point.
Proof. solve_decision. Defined.

Record netAssetState : Type := NetAssetState {
  wealthBalance : num;
  investmentBalance : num;
  wealthData : list point;
  investmentData : list point
}.

(** The callback of [sortedTransactions.forEach].  In [tx && ...] the
    first conjunct always holds for an element of a [Transaction[]]. *)
Definition netAssetStep (st : netAssetState) (tx : Transaction)
  : netAssetState :=
  if negb (isNaN (tx_amount tx)) then
    let wb :=
      if bool_decide (tx_type tx = income) || bool_decide (tx_type tx = expense)
      then add (wealthBalance st) (tx_amount tx)
      else wealthBalance st in
    let ib :=
      if bool_decide (tx_type tx = investment)
      then add (investmentBalance st) (abs (tx_amount tx))
      else investmentBalance st in
    NetAssetState wb ib
      (wealthData st ++ [Point (tx_date tx) wb])
      (investmentData st ++ [Point (tx_date tx) ib])
  else st.

Definition netAssetData (sorted : list Transaction)
  : list point * list point :=
  let st := fold_left netAssetStep sorted (NetAssetState zero zero [] []) in
  (wealthData st, investmentData st).

(** ** [spendingChartData] *)

(** The [period] state: ['W' | 'M' | '6M' | 'Y']. *)
Inductive Period : Type := W | M | SixM | Y.

(** The [switch (period)]: interval start and end, the data points and the
    label format; [None] is the [default: return []] branch. *)
Definition resolvePeriod (period : Period) (baseDate : time) (dateOffset : Z)
  : option (time * time * list time * (time -> string)) :=
  match period with
  | W =>
      let weekDate := addWeeks baseDate dateOffset in
      let s := startOfWeek weekDate in
      let e := endOfWeek weekDate in
      Some (s, e, eachDayOfInterval s e, formatEEE)
  | SixM =>
      let sixMonthsDate := addMonths baseDate (dateOffset * 6) in
      let s := startOfMonth (subMonths sixMonthsDate 5) in
      let e := endOfMonth sixMonthsDate in
      Some (s, e, eachMonthOfInterval s e, formatMMM)
  | Y =>
      let yearDate := addYears baseDate dateOffset in
      let s := startOfYear yearDate in
      let e := endOfYear yearDate in
      Some (s, e, eachMonthOfInterval s e, formatMMM)
  | M => None
  end.

(** The predicate of [sortedTransactions.filter]: a non-empty date string
    that parses to a time inside the interval, and type ['expense']. *)
Definition isRelevant (s e : time) (tx : Transaction) : bool :=
  if decide (tx_date tx = EmptyString) then false
  else match dateParse (tx_date tx) with
       | None => false
       | Some txDate =>
           (s <=? txDate) && (txDate <=? e) && bool_decide (tx_type tx = expense)
       end.

(** A chart entry: the object [{ name: label }] and the fields added to it
    later, by own property name. *)
Definition newEntry (label : string) : gmap string value :=
  {[ "name"%string := VStr label [] ]}.

(** [e[k] = (e[k] || 0) + n] *)
Definition addTo (k : string) (n : num) (e : gmap string value)
  : gmap string value :=
  writeProp k (plus (orZero (readProp e k)) n) e.

(** The two assignments on a found entry, in program order:
    [entry[tx.category] = (entry[tx.category] || 0) + Math.abs(tx.amount)]
    then [entry.total = (entry.total || 0) + Math.abs(tx.amount)]. *)
Definition bumpEntry (tx : Transaction) (e : gmap string value)
  : gmap string value :=
  addTo "total" (abs (tx_amount tx))
    (addTo (tx_category tx) (abs (tx_amount tx)) e).

(** The callback of [relevantTxs.forEach].  The entry is an object held by
    the map, so assigning to its fields updates the map's value for that
    key; an entry, once found, is always truthy. *)
Definition spendingStep (formatLabel : time -> string)
  (dataMap : list (string * gmap string value)) (tx : Transaction)
  : list (string * gmap string value) :=
  match dateParse (tx_date tx) with
  | None => dataMap (* not reached: relevant transactions have valid dates *)
  | Some d =>
      let key := formatLabel d in
      match mapGet key dataMap with
      | Some entry => mapSet key (bumpEntry tx entry) dataMap
      | None => dataMap
      end
  end.

(** [dataPoints.forEach(point => dataMap.set(formatLabel(point),
    { name: formatLabel(point) }))] *)
Definition seedDataMap (formatLabel : time -> string) (dataPoints : list time)
  : list (string * gmap string value) :=
  fold_left (fun m p => mapSet (formatLabel p) (newEntry (formatLabel p)) m)
            dataPoints [].

Definition spendingChartData (period : Period) (baseDate : time)
  (dateOffset : Z) (sorted : list Transaction) : list (gmap string value) :=
  match resolvePeriod period baseDate dateOffset with
  | None => []
  | Some (s, e, dataPoints, formatLabel) =>
      let relevantTxs := filter (fun tx => isRelevant s e tx = true) sorted in
      let dataMap := seedDataMap formatLabel dataPoints in
      map snd (fold_left (spendingStep formatLabel) relevantTxs dataMap)
  end.

(** ** [flowOverTimeData] *)

Record flowEntry : Type := FlowEntry {
  flow_name : string;
  flow_income : num;
  flow_expense : num;
  flow_investment : num
}.

Global Instance flowEntry_eq_dec : EqDecision flowEntry.
Proof. solve_decision. Defined.

(** [yearMonths.forEach(m => monthlyDataMap.set(format(m, 'MMM'),
    { name: format(m, 'MMM'), income: 0, expense: 0, investment: 0 }))] *)
Definition seedFlowMap (now : time) : list (string * flowEntry) :=
  let yearStart := startOfYear now in
  let yearMonths := eachMonthOfInterval yearStart (endOfYear now) in
  fold_left (fun m p => mapSet (formatMMM p)
                          (FlowEntry (formatMMM p) zero zero zero) m)
            yearMonths [].

(** The [if / else if / else if] on [curr.type]. *)
Definition bumpFlow (curr : Transaction) (monthEntry : flowEntry) : flowEntry :=
  match tx_type curr with
  | income =>
      FlowEntry (flow_name monthEntry)
        (add (flow_income monthEntry) (tx_amount curr))
        (flow_expense monthEntry) (flow_investment monthEntry)
  | expense =>
      FlowEntry (flow_name monthEntry) (flow_income monthEntry)
        (add (flow_expense monthEntry) (abs (tx_amount curr)))
        (flow_investment monthEntry)
  | investment =>
      FlowEntry (flow_name monthEntry) (flow_income monthEntry)
        (flow_expense monthEntry)
        (add (flow_investment monthEntry) (abs (tx_amount curr)))
  end.

(** The callback of [sortedTransactions.forEach] in [flowOverTimeData].
    date-fns [format] throws a RangeError on an Invalid Date; [None] is
    that exception, which nothing in the component catches. *)
Definition flowStep (m : option (list (string * flowEntry)))
  (curr : Transaction) : option (list (string * flowEntry)) :=
  match m with
  | None => None
  | Some monthlyDataMap =>
      match dateParse (tx_date curr) with
      | None => None
      | Some d =>
          let month := formatMMM d in
          match mapGet month monthlyDataMap with
          | Some monthEntry =>
              Some (mapSet month (bumpFlow curr monthEntry) monthlyDataMap)
          | None => Some monthlyDataMap
          end
      end
  end.

Definition flowOverTimeData (now : time) (sorted : list Transaction)
  : option (list flowEntry) :=
  option_map (map snd) (fold_left flowStep sorted (Some (seedFlowMap now))).
End WithDates.

End Statistics.

(* ===================================================================== *)
(** * The caller's array and the copy that is sorted                      *)
(* ===================================================================== *)

Module Store.
Import JS Calendar Types Statistics.

(** Arrays are objects with identity: a store maps each array reference to
    its current contents.  The [transactions] prop is such a reference,
    shared with the parent component. *)
Definition ref := nat.
Abbreviation store := (gmap nat (list Transaction)).

(** Computations that read and write the store. *)
Definition M (A : Type) : Type := store -> A * store.

Definition ret {A : Type} (a : A) : M A := fun h => (a, h).
Definition bind {A B : Type} (m : M A) (k : A -> M B) : M B :=
  fun h => let '(a, h') := m h in k a h'.

Notation "x <- m ;; k" := (bind m (fun x => k))
  (at level 100, m at next level, right associativity).

(** [[...a]]: a new array with the elements of [a]. *)
Definition spread (a : ref) : M ref :=
  fun h => let r := fresh (dom h) in (r, <[ r := default [] (h !! a) ]> h).

(** [a.sort(compare)]: sorts [a] in place and returns [a] itself. *)
Definition sortInPlace {lib : DateLib} {engine : SortEngine} (a : ref) : M ref :=
  fun h => (a, alter engineSort a h).

(** Reading an array, as [forEach] and [filter] do. *)
Definition contents (a : ref) : M (list Transaction) :=
  fun h => (default [] (h !! a), h).

(** [useMemo(() => [...transactions].sort(...), [transactions])] *)
Definition sortedTransactionsRef {lib : DateLib} {engine : SortEngine}
  (transactions : ref) : M ref :=
  copy <- spread transactions ;;
  sortInPlace copy.

(** The three series of one render of the component, computed from the
    sorted copy. *)
Record series : Type := Series {
  netAsset : list point * list point;
  spending : list (gmap string value);
  flow : option (list flowEntry)
}.

Definition computeSeries {lib : DateLib} {engine : SortEngine}
  (transactions : ref) (period : Period) (dateOffset : Z) (now : time)
  : M series :=
  sorted <- sortedTransactionsRef transactions ;;
  arr <- contents sorted ;;
  ret (Series (netAssetData arr)
              (spendingChartData period now dateOffset arr)
              (flowOverTimeData now arr)).

(** For contrast: the same sort without the spread. *)
Definition sortedWithoutCopy {lib : DateLib} {engine : SortEngine}
  (transactions : ref) : M ref :=
  sortInPlace transactions.

End Store.

(* ===================================================================== *)
(** * The chat-completion call ([callOpenRouter] and its two helpers)      *)
(* ===================================================================== *)

Module OpenRouter.
Import JS Types.

Inductive Role : Type := user | assistant | system.

(** A message's [content].  The helpers build it with template literals;
    a built prompt is kept as the values interpolated into its template. *)
Inductive Content : Type :=
  | Text (s : string)
  | AnalysisPrompt (transactionsText : list Transaction)
      (incomeCategories expenseCategories investmentCategories : list string)
  | StatementPrompt (context statementText : string)
  | QuestionPrompt (count : nat) (aiQuery : string).

Record OpenRouterMessage : Type := Message {
  role : Role;
  content : Content
}.

(** The [options] argument; every field is optional. *)
Record Options : Type := mkOptions {
  opt_model : option string;
  opt_max_tokens : option num;
  opt_temperature : option num;
  opt_stream : option bool
}.

(** The default [= {}]. *)
Definition noOptions : Options := mkOptions None None None None.

Record OpenRouterRequest : Type := Request {
  model : string;
  messages : list OpenRouterMessage;
  max_tokens : num;
  temperature : num;
  stream : bool
}.

(** [OpenRouterResponse], reduced to [choices[i].message.content]. *)
Record OpenRouterResponse : Type := Response {
  choices : list string
}.

(** What can be thrown. *)
Inductive Error : Type :=
  (** [new Error('OpenRouter API key is not configured')] *)
  | KeyNotConfigured
  (** [new Error(`OpenRouter API error: ${response.status} - ${errorText}`)] *)
  | ApiError (status : Z) (errorText : string)
  (** the reason a promise of [fetch], [text()] or [json()] rejected with *)
  | Rejected (reason : string)
  (** a property read on [undefined] or [null] *)
  | TypeError
  (** [JSON.parse] on malformed text *)
  | SyntaxError.

Inductive outcome (A : Type) : Type :=
  | Throws (e : Error)
  | Returns (a : A).
Arguments Throws {A} e.
Arguments Returns {A} a.

(** One [fetch] call: the endpoint, the bearer key, the referer header and
    the JSON body. *)
Record FetchCall : Type := Fetch {
  url : string;
  bearer : string;
  referer : string;
  body : OpenRouterRequest
}.

(** What [fetch] resolved to: the status, and what reading the body as text
    or as JSON gives. *)
Record HttpResponse : Type := Http {
  status : Z;
  text : outcome string;
  json : outcome OpenRouterResponse
}.

(** [response.ok]: a status in the range 200-299. *)
Definition ok (r : HttpResponse) : bool :=
  (200 <=? status r) && (status r <=? 299).

(** The process and the network around the call. *)
Record World : Type := mkWorld {
  (** [process.env.OPENROUTER_API_KEY] *)
  apiKey : option string;
  (** [window.location.href] *)
  href : string;
  (** the promise returned by [fetch]: rejected, or resolved to a response *)
  fetch : FetchCall -> outcome HttpResponse
}.

Inductive Event : Type :=
  | Fetched (call : FetchCall)
  | ConsoleError (label : string) (e : Error).

(** [x || d] on strings, numbers and booleans. *)
Definition strOr (x : option string) (d : string) : string :=
  match x with
  | Some s => if decide (s = EmptyString) then d else s
  | None => d
  end.
Definition numOr (x : option num) (d : num) : num :=
  match x with
  | Some n => if truthy n then n else d
  | None => d
  end.

(** [!apiKey]: the variable is unset, or set to the empty string. *)
Definition keyMissing (k : option string) : bool :=
  match k with
  | None => true
  | Some s => bool_decide (s = EmptyString)
  end.

(** [callOpenRouter(messages, options)]: the events it causes, in order, and
    how its promise settles. *)
Definition callOpenRouter (w : World) (msgs : list OpenRouterMessage)
  (options : Options) : list Event * outcome OpenRouterResponse :=
  if keyMissing (apiKey w)
  then ([], Throws KeyNotConfigured)
  else
    let payload := Request
      (strOr (opt_model options) "amazon/nova-2-lite-v1:free")
      msgs
      (numOr (opt_max_tokens options) (Num (Qc_of_Z 4000)))
      (numOr (opt_temperature options) (Num (Q2Qc (7 # 10))))
      (default false (opt_stream options)) in
    let call := Fetch "https://openrouter.ai/api/v1/chat/completions"
      (default EmptyString (apiKey w))
      (strOr (Some (href w)) "http://localhost:3000")
      payload in
    let failed e :=
      ([Fetched call; ConsoleError "OpenRouter API call failed:" e], Throws e) in
    match fetch w call with
    | Throws e => failed e
    | Returns response =>
        if negb (ok response) then
          match text response with
          | Throws e => failed e
          | Returns errorText => failed (ApiError (status response) errorText)
          end
        else
          match json response with
          | Throws e => failed e
          | Returns r => ([Fetched call], Returns r)
          end
    end.

(** [response.choices[0].message.content] *)
Definition firstContent (r : OpenRouterResponse) : outcome string :=
  match choices r with
  | c :: _ => Returns c
  | [] => Throws TypeError
  end.

Definition andThenContent (res : list Event * outcome OpenRouterResponse)
  : list Event * outcome string :=
  match snd res with
  | Throws e => (fst res, Throws e)
  | Returns r => (fst res, firstContent r)
  end.

(** [analyzeTransactionsWithAI(transactionsText, categories)] *)
Definition analyzeTransactionsWithAI (w : World)
  (transactionsText : list Transaction)
  (incomeCategories expenseCategories investmentCategories : list string)
  : list Event * outcome string :=
  andThenContent
    (callOpenRouter w
       [Message system (Text "You are a helpful financial analyst.");
        Message user (AnalysisPrompt transactionsText incomeCategories
                        expenseCategories investmentCategories)]
       noOptions).

(** [parseStatementWithAI(statementText, context = 'bank statement')] *)
Definition parseStatementWithAI (w : World) (statementText context : string)
  : list Event * outcome string :=
  andThenContent
    (callOpenRouter w
       [Message system (Text "You are a data extraction specialist. Return only JSON.");
        Message user (StatementPrompt context statementText)]
       noOptions).

End OpenRouter.

(* ===================================================================== *)
(** * AI tools component: the three handlers                              *)
(* ===================================================================== *)

Module AiTools.
Import JS Calendar Types OpenRouter.

(** The result of [JSON.parse]. *)
Local Unset Elimination Schemes.
Inductive Json : Type :=
  | JNull
  | JBool (b : bool)
  | JNumber (x : num)
  | JString (s : string)
  | JArray (items : list Json)
  | JObject (fields : list (string * Json)).
Local Set Elimination Schemes.

(** [v.k] on a parsed value: a TypeError on [null], [undefined] ([None]) on
    a missing field and on values that are not plain objects. *)
Definition getField (k : string) (v : Json) : outcome (option Json) :=
  match v with
  | JNull => Throws TypeError
  | JObject fields => Returns (mapGet k fields)
  | _ => Returns None
  end.

(** An extracted item; [id] is the template [`ai-${Date.now()}-${index}`],
    kept as its two interpolated numbers. *)
Record FoundItem : Type := mkFound {
  found_id : time * nat;
  found_date : option Json;
  found_amount : option Json;
  found_category : option Json;
  found_note : option Json;
  found_type : option Json;
  found_source : string
}.

(** The component's state hooks, and what its callbacks have been handed. *)
Record State : Type := mkState {
  aiQuery : string;
  isProcessing : bool;
  aiInsights : string;
  statementText : string;
  (** argument of the last [setFoundTransactions] *)
  foundTransactions : list FoundItem;
  (** arguments of [onShowNotification], oldest first *)
  notifications : list string;
  (** network and console events, oldest first *)
  events : list Event
}.

(** What surrounds the component: the process and network, [JSON.parse]
    ([None] is its SyntaxError) and the clock read by [Date.now()] for the
    item of each index. *)
Record Env : Type := mkEnv {
  world : World;
  jsonParse : string -> option Json;
  dateNow : nat -> time
}.

(** Handlers run in a state monad with exceptions. *)
Definition M (A : Type) : Type := State -> outcome A * State.

Definition ret {A : Type} (a : A) : M A := fun s => (Returns a, s).
Definition throw {A : Type} (e : Error) : M A := fun s => (Throws e, s).
Definition bind {A B : Type} (m : M A) (k : A -> M B) : M B :=
  fun s =>
    match m s with
    | (Returns a, s') => k a s'
    | (Throws e, s') => (Throws e, s')
    end.

Notation "x <- m ;; k" := (bind m (fun x => k))
  (at level 100, m at next level, right associativity).
Notation "m ;;; k" := (bind m (fun _ => k))
  (at level 100, right associativity).

(** [try { body } catch (error) { handler } finally { fin }]: the [finally]
    block runs on every exit of [body] and of [handler]; if it throws, its
    exception replaces the pending result. *)
Definition tryCatchFinally {A : Type} (body : M A) (handler : Error -> M A)
  (fin : M unit) : M A :=
  fun s =>
    let '(r, s1) :=
      match body s with
      | (Returns a, s') => (Returns a, s')
      | (Throws e, s') => handler e s'
      end in
    match fin s1 with
    | (Returns _, s2) => (r, s2)
    | (Throws e, s2) => (Throws e, s2)
    end.

Definition setIsProcessing (b : bool) : M unit :=
  fun s => (Returns tt,
            mkState (aiQuery s) b (aiInsights s) (statementText s)
                    (foundTransactions s) (notifications s) (events s)).
Definition setAiInsights (v : string) : M unit :=
  fun s => (Returns tt,
            mkState (aiQuery s) (isProcessing s) v (statementText s)
                    (foundTransactions s) (notifications s) (events s)).
Definition setAiQuery (v : string) : M unit :=
  fun s => (Returns tt,
            mkState v (isProcessing s) (aiInsights s) (statementText s)
                    (foundTransactions s) (notifications s) (events s)).
Definition setStatementText (v : string) : M unit :=
  fun s => (Returns tt,
            mkState (aiQuery s) (isProcessing s) (aiInsights s) v
                    (foundTransactions s) (notifications s) (events s)).
Definition setFoundTransactions (v : list FoundItem) : M unit :=
  fun s => (Returns tt,
            mkState (aiQuery s) (isProcessing s) (aiInsights s) (statementText s)
                    v (notifications s) (events s)).
Definition onShowNotification (msg : string) : M unit :=
  fun s => (Returns tt,
            mkState (aiQuery s) (isProcessing s) (aiInsights s) (statementText s)
                    (foundTransactions s) (notifications s ++ [msg]) (events s)).
Definition consoleError (label : string) (e : Error) : M unit :=
  fun s => (Returns tt,
            mkState (aiQuery s) (isProcessing s) (aiInsights s) (statementText s)
                    (foundTransactions s) (notifications s)
                    (events s ++ [ConsoleError label e])).
Definition get {A : Type} (f : State -> A) : M A := fun s => (Returns (f s), s).

(** [await call]: the call's events are appended, its outcome is returned
    or thrown. *)
Definition await {A : Type} (call : list Event * outcome A) : M A :=
  fun s => (snd call,
            mkState (aiQuery s) (isProcessing s) (aiInsights s) (statementText s)
                    (foundTransactions s) (notifications s)
                    (events s ++ fst call)).

Definition liftOutcome {A : Type} (o : outcome A) : M A := fun s => (o, s).

(** [s.trim()] is empty: only blanks. *)
Definition blank (s : string) : bool :=
  forallb Statistics.isBlank (list_ascii_of_string s).

(** [`Found ${n} transactions`], kept as a text and the interpolated count
    rendered in decimal. *)
Definition foundMessage (n : nat) : string :=
  ("Found " ++ pretty n ++ " transactions")%string.

Section Handlers.
Variable env : Env.
Variable transactions : list Transaction.
Variables incomeCategories expenseCategories investmentCategories : list string.

(** [handleAnalyzeTransactions] *)
Definition handleAnalyzeTransactions : M unit :=
  if decide (length transactions = 0%nat) then
    onShowNotification "No transactions to analyze"
  else
    setIsProcessing true ;;;
    tryCatchFinally
      (let transactionsText := take 50 transactions in
       insights <- await (analyzeTransactionsWithAI (world env) transactionsText
                            incomeCategories expenseCategories
                            investmentCategories) ;;
       setAiInsights insights ;;;
       onShowNotification "Analysis complete")
      (fun error =>
         consoleError "AI analysis failed:" error ;;;
         onShowNotification "AI analysis failed")
      (setIsProcessing false).

(** The callback of [parsed.transactions.map((tx, index) => ...)]; reading
    a field of a [null] element throws. *)
Definition toFoundItem (index : nat) (tx : Json) : outcome FoundItem :=
  match getField "date" tx, getField "amount" tx, getField "category" tx,
        getField "note" tx, getField "type" tx with
  | Returns d, Returns a, Returns c, Returns n, Returns t =>
      Returns (mkFound (dateNow env index, index) d a c n t "PDF file")
  | _, _, _, _, _ => Throws TypeError
  end.

Fixpoint toFoundItems (index : nat) (items : list Json)
  : outcome (list FoundItem) :=
  match items with
  | [] => Returns []
  | tx :: rest =>
      match toFoundItem index tx with
      | Throws e => Throws e
      | Returns item =>
          match toFoundItems (S index) rest with
          | Throws e => Throws e
          | Returns l => Returns (item :: l)
          end
      end
  end.

(** [handleParseStatement] *)
Definition handleParseStatement : M unit :=
  text <- get statementText ;;
  if blank text then
    onShowNotification "Please paste statement text"
  else
    setIsProcessing true ;;;
    tryCatchFinally
      (response <- await (parseStatementWithAI (world env) text "bank statement") ;;
       parsed <- liftOutcome (match jsonParse env response with
                              | Some v => Returns v
                              | None => Throws SyntaxError
                              end) ;;
       txs <- liftOutcome (getField "transactions" parsed) ;;
       match txs with
       | Some (JArray items) =>
           foundItems <- liftOutcome (toFoundItems 0 items) ;;
           setFoundTransactions foundItems ;;;
           onShowNotification (foundMessage (length foundItems)) ;;;
           setStatementText EmptyString
       | _ => ret tt
       end)
      (fun error =>
         consoleError "Statement parsing failed:" error ;;;
         onShowNotification "Failed to parse statement")
      (setIsProcessing false).

(** [handleAskQuestion] *)
Definition handleAskQuestion : M unit :=
  query <- get aiQuery ;;
  if blank query then
    onShowNotification "Please enter a question"
  else
    setIsProcessing true ;;;
    tryCatchFinally
      (response <- await (callOpenRouter (world env)
          [Message system
             (Text "You are a financial advisor helping with expense tracking.");
           Message user (QuestionPrompt (length transactions) query)]
          noOptions) ;;
       answer <- liftOutcome (firstContent response) ;;
       setAiInsights answer ;;;
       onShowNotification "Answer received" ;;;
       setAiQuery EmptyString)
      (fun error =>
         consoleError "AI query failed:" error ;;;
         onShowNotification "Failed to get answer")
      (setIsProcessing false).
End Handlers.

End AiTools.


(* ===================================================================== *)
(** * Calendar fields of a date                                           *)
(* ===================================================================== *)

Module CalendarFields.
Import Calendar.

(** Further date functions the components use: the engine's [getMonth],
    [getFullYear] and date-fns [getDay], [isSameMonth], [format(d, 'd')],
    all on valid dates and in the time zone of the process. *)
Class DateFields : Type := {
  getMonth : time -> Z;
  getFullYear : time -> Z;
  getDay : time -> Z;
  isSameMonth : time -> time -> bool;
  formatD : time -> string
}.

(** The UTC instance; [format(d, 'd')] is the day of the month in decimal. *)
Definition utcFields : DateFields := {|
  getMonth := fun t => monthOf t - 1;
  getFullYear := yearOf;
  getDay := weekdayOf;
  isSameMonth := fun a b => (yearOf a =? yearOf b) && (monthOf a =? monthOf b);
  formatD := fun t => pretty (dateOf t)
|}.

End CalendarFields.

(* ===================================================================== *)
(** * Budgeting component: the month's spend and the section toggles      *)
(* ===================================================================== *)

Module MonthlySpend.
Import JS Calendar CalendarFields Types.

Section WithDates.
Context {lib : DateLib} {fields : DateFields}.

(** The reducer of [transactions.reduce(..., {})]: a transaction dated in
    the month and year of [now] adds its signed amount to its category,
    [acc[t.category] = (acc[t.category] || 0) + t.amount] on the plain
    object [acc].  An Invalid Date has NaN fields, which equal nothing. *)
Definition spendingStep (now : time) (acc : gmap string value) (t : Transaction)
  : gmap string value :=
  match dateParse (tx_date t) with
  | Some d =>
      if (getMonth d =? getMonth now) && (getFullYear d =? getFullYear now)
      then writeProp (tx_category t)
             (plus (orZero (readProp acc (tx_category t))) (tx_amount t)) acc
      else acc
  | None => acc
  end.

(** [spendingByCategory] *)
Definition spendingByCategory (now : time) (transactions : list Transaction)
  : gmap string value :=
  fold_left (spendingStep now) transactions ∅.

End WithDates.

(** The [visibleSections] state. *)
Record Sections : Type := mkSections {
  sec_income : bool;
  sec_expenses : bool;
  sec_savings : bool
}.

Inductive SectionKey : Type := KIncome | KExpenses | KSavings.

(** [type === 'investment' ? 'savings' : type === 'expense' ? 'expenses' : type] *)
Definition sectionKey (type : TxType) : SectionKey :=
  match type with
  | investment => KSavings
  | expense => KExpenses
  | income => KIncome
  end.

(** [prev => ({ ...prev, [section]: !prev[section] })] *)
Definition toggleSection (section : SectionKey) (prev : Sections) : Sections :=
  match section with
  | KIncome => mkSections (negb (sec_income prev)) (sec_expenses prev) (sec_savings prev)
  | KExpenses => mkSections (sec_income prev) (negb (sec_expenses prev)) (sec_savings prev)
  | KSavings => mkSections (sec_income prev) (sec_expenses prev) (negb (sec_savings prev))
  end.

(** [const isVisible = visibleSections[sectionKey]] *)
Definition isVisible (section : SectionKey) (visibleSections : Sections) : bool :=
  match section with
  | KIncome => sec_income visibleSections
  | KExpenses => sec_expenses visibleSections
  | KSavings => sec_savings visibleSections
  end.

End MonthlySpend.

(* ===================================================================== *)
(** * Statistics component: colours, tooltip and calendar view            *)
(* ===================================================================== *)

Module Charts.
Import JS Calendar CalendarFields Types Statistics.

Global Instance rgba_eq_dec : EqDecision rgba.
Proof. solve_decision. Defined.

(** ** [expenseColors] *)

(** [expenseCategories.forEach((cat, i) => colorMap[cat] = colors[i])], from
    index [i], on the plain object [colorMap], kept by own property: a
    property holds a colour, or [undefined] ([None]) for an index past the
    shades (here [colors[i]] is always defined, since there are as many
    shades as categories).  Assigning to [__proto__] stores nothing, the
    setter of [Object.prototype] ignoring a string and [undefined]. *)
Fixpoint assignColors (colors : list rgba) (i : nat) (cats : list string)
  (colorMap : gmap string (option rgba)) : gmap string (option rgba) :=
  match cats with
  | [] => colorMap
  | cat :: cats' =>
      assignColors colors (S i) cats'
        (if decide (cat = "__proto__"%string) then colorMap
         else <[ cat := colors !! i ]> colorMap)
  end.

Definition expenseColors (expenseCategories : list string)
  : gmap string (option rgba) :=
  let colors := generateShades "#EF4444" (Z.of_nat (length expenseCategories)) in
  assignColors colors 0 expenseCategories ∅.

(** The [fill] of a bar, [expenseColors[cat] || '#ccc']: a shade, the grey
    default, or for a name that the colour map only inherits the object
    that [Object.prototype] holds under it, which is truthy. *)
Inductive Fill : Type :=
  | Shade (c : rgba)
  | Grey
  | Builtin (k : string).

Definition barFill (expenseCategories : list string) (cat : string) : Fill :=
  match expenseColors expenseCategories !! cat with
  | Some (Some c) => Shade c
  | Some None => Grey
  | None => if decide (inherited cat) then Builtin cat else Grey
  end.

(** ** [Array.prototype.sort] with a comparator *)

(** Stable insertion: an element moves right past exactly the elements it
    sorts after. *)
Fixpoint insertBy {A : Type} (after : A -> A -> bool) (x : A) (l : list A)
  : list A :=
  match l with
  | [] => [x]
  | y :: l' => if after x y then y :: insertBy after x l' else x :: l
  end.

Fixpoint sortBy {A : Type} (after : A -> A -> bool) (l : list A) : list A :=
  match l with
  | [] => []
  | x :: l' => insertBy after x (sortBy after l')
  end.

(** ** [CustomTooltip] *)

Record TooltipItem : Type := Item {
  item_name : string;
  item_value : value
}.

Section Tooltip.
(** The engine's conversion of a string to a number. *)
Variable stringToNumber : list piece -> num.

(** [ToNumber] of a stored value, as [>] and [-] apply it. *)
Definition toNumber (v : value) : num := JS.toNumber stringToNumber v.

(** The comparator [(a, b) => b.value - a.value]: [a] sorts after [b] when
    the difference is positive. *)
Definition sortsBelow (a b : TooltipItem) : bool :=
  gt (sub (toNumber (item_value b)) (toNumber (item_value a))) zero.

(** The [breakdown] of the hovered entry:
    [expenseCategories.map(cat => ({ name: cat, value: entry[cat] || 0 }))
       .filter(p => p.value > 0).sort((a, b) => b.value - a.value)]. *)
Definition breakdown (expenseCategories : list string) (entry : gmap string value)
  : list TooltipItem :=
  sortBy sortsBelow
    (filter (fun p => gt (toNumber (item_value p)) zero = true)
       (map (fun cat => Item cat (orZero (entry !! cat))) expenseCategories)).

(** What the tooltip lists: nothing unless it is active with a non-empty
    payload, else the label and [breakdown.slice(0, 5)] of the first payload
    item's entry. *)
Definition CustomTooltip (active : bool) (payload : option (list (gmap string value)))
  (label : string) (expenseCategories : list string)
  : option (string * list TooltipItem) :=
  match active, payload with
  | true, Some (entry :: _) => Some (label, take 5 (breakdown expenseCategories entry))
  | _, _ => None
  end.
End Tooltip.

(** ** [CalendarView] *)

Section Calendar.
Context {lib : DateLib} {fields : DateFields}.

(** [eachDayOfInterval({ start: startOfMonth(baseDate), end: endOfMonth(baseDate) })] *)
Definition daysInMonth (baseDate : time) : list time :=
  eachDayOfInterval (startOfMonth baseDate) (endOfMonth baseDate).

(** [getDay(start) === 0 ? 6 : getDay(start) - 1]: the number of blank cells
    before the first day, in a grid whose weeks start on Monday. *)
Definition startingDayIndex (baseDate : time) : Z :=
  let g := getDay (startOfMonth baseDate) in
  if g =? 0 then 6 else g - 1.

(** The predicate of [transactions.filter]: dated in the month of
    [baseDate] (never so for an Invalid Date) and an expense. *)
Definition inCalendarMonth (baseDate : time) (tx : Transaction) : bool :=
  match dateParse (tx_date tx) with
  | Some d => isSameMonth d baseDate && bool_decide (tx_type tx = expense)
  | None => false
  end.

(** The callback of [forEach]:
    [totals[day] = (totals[day] || 0) + Math.abs(tx.amount)].  The key is
    [format(date, 'd')], a day of the month in decimal digits, so the read
    never reaches [Object.prototype] and the totals stay numbers. *)
Definition dailyStep (totals : gmap string num) (tx : Transaction)
  : gmap string num :=
  match dateParse (tx_date tx) with
  | Some d =>
      let day := formatD d in
      <[ day := add (getOrZero totals day) (abs (tx_amount tx)) ]> totals
  | None => totals (* not reached: the filter keeps valid dates only *)
  end.

(** [dailyTotals] *)
Definition dailyTotals (transactions : list Transaction) (baseDate : time)
  : gmap string num :=
  fold_left dailyStep
    (filter (fun tx => inCalendarMonth baseDate tx = true) transactions) ∅.

(** The grid: [startingDayIndex] blank cells, then one cell per day with
    its key and [dailyTotals[dayKey]]. *)
Definition calendarCells (transactions : list Transaction) (baseDate : time)
  : list (option (string * option num)) :=
  replicate (Z.to_nat (startingDayIndex baseDate)) None
  ++ map (fun day => Some (formatD day,
                           dailyTotals transactions baseDate !! formatD day))
         (daysInMonth baseDate).
End Calendar.

End Charts.

(* ===================================================================== *)
(** * AI tools component: the extracted items and their buttons           *)
(* ===================================================================== *)

Module Tracker.
Import JS Calendar Types OpenRouter AiTools.

(** Truthiness of a field read off a parsed item; [None] is [undefined]. *)
Definition jsonTruthy (v : option Json) : bool :=
  match v with
  | None | Some JNull => false
  | Some (JBool b) => b
  | Some (JNumber x) => truthy x
  | Some (JString s) => negb (bool_decide (s = EmptyString))
  | Some (JArray _) | Some (JObject _) => true
  end.

(** The argument of [onAddTransaction]; [id] is the template
    [`manual-${Date.now()}`], kept as its interpolated number. *)
Record NewTransaction : Type := mkNew {
  new_id : time;
  new_date : option Json;
  new_amount : option Json;
  new_category : option Json;
  new_note : option Json;
  new_type : option Json
}.

(** The click handler of "Add to Tracker" on [item]: what it hands to
    [onAddTransaction], [setFoundTransactions] and [onShowNotification], or
    [None] when the condition fails and nothing is called. *)
Definition addToTracker (now : time) (foundTransactions : list FoundItem)
  (item : FoundItem) : option (NewTransaction * list FoundItem * string) :=
  if jsonTruthy (found_date item) && jsonTruthy (found_amount item)
     && jsonTruthy (found_category item)
  then Some (mkNew now (found_date item) (found_amount item)
                   (found_category item) (found_note item) (found_type item),
             filter (fun f => found_id f <> found_id item) foundTransactions,
             "Transaction added"%string)
  else None.

(** The [disabled] attribute of the three buttons. *)
Definition analyzeDisabled (isProcessing : bool) (transactions : list Transaction)
  : bool :=
  isProcessing || bool_decide (length transactions = 0%nat).
Definition askDisabled (isProcessing : bool) : bool := isProcessing.
Definition parseDisabled (isProcessing : bool) (statementText : string) : bool :=
  isProcessing || blank statementText.

End Tracker.

(* ===================================================================== *)
(** * Statistics component: the calendar's month navigation               *)
(* ===================================================================== *)

Module Navigation.
Import Calendar CalendarFields.

Section WithDates.
Context {lib : DateLib} {fields : DateFields}.

(** [baseDate={addMonths(new Date(), dateOffset)}], with [render] the clock
    read when the calendar is rendered. *)
Definition baseDate (render : time) (dateOffset : Z) : time :=
  addMonths render dateOffset.

(** [setBaseDate]: the argument it hands to [setDateOffset], with [click]
    the clock read by its two [new Date()]. *)
Definition setBaseDate (click : time) (d : time) : Z :=
  getMonth d - getMonth click + (getFullYear d - getFullYear click) * 12.

(** The calendar's [<] and [>] buttons: the new [dateOffset]. *)
Definition previousMonth (render click : time) (dateOffset : Z) : Z :=
  setBaseDate click (subMonths (baseDate render dateOffset) 1).
Definition nextMonth (render click : time) (dateOffset : Z) : Z :=
  setBaseDate click (addMonths (baseDate render dateOffset) 1).

End WithDates.

End Navigation.

(* ===================================================================== *)
(** * Sample inputs                                                       *)
(* ===================================================================== *)

Module Samples.
Import JS Calendar Types.

(** An integer amount. *)
Definition amt (z : Z) : num := Num (Qc_of_Z z).

(** The current date of the samples: 2024-06-12T00:00:00Z, a Wednesday. *)
Definition now0 : time := 1718150400000.

(** An expense whose amount is NaN. *)
Definition txNaN : Transaction :=
  mkTx "t0" "2024-06-10" NaN "Food" expense None.

(** An expense of 50 in a category that the user named [total]. *)
Definition txTotal : Transaction :=
  mkTx "t1" "2024-06-12" (amt (-50)) "total" expense None.

(** An expense of 30 on food, the same day. *)
Definition txFood : Transaction :=
  mkTx "t2" "2024-06-12" (amt (-30)) "Food" expense None.

(** An income of 100 dated 2020-03-15, four years before [now0]. *)
Definition txOldSalary : Transaction :=
  mkTx "t3" "2020-03-15" (amt 100) "Salary" income None.

(** An income of 2000 and an investment of 500 in June 2024. *)
Definition txSalary : Transaction :=
  mkTx "t4" "2024-06-03" (amt 2000) "Salary" income None.
Definition txFund : Transaction :=
  mkTx "t5" "2024-06-05" (amt (-500)) "Index fund" investment None.

(** The spec's budget scenario: spend by category and the budgets. *)
Definition spending0 : gmap string value :=
  {[ "Food"%string := VNum (amt (-50)); "Salary"%string := VNum (amt 2000) ]}.
Definition budgets0 : gmap string value := {[ "Food"%string := VNum (amt 200) ]}.

(** A store in which the caller's array, at reference 0, is out of date
    order. *)
Definition store0 : gmap nat (list Transaction) :=
  {[ 0%nat := [txFood; txSalary] ]}.

(** A process without an API key; its network would answer 200. *)
Definition worldNoKey : OpenRouter.World :=
  OpenRouter.mkWorld None "http://localhost:3000/"
    (fun _ => OpenRouter.Returns
       (OpenRouter.Http 200 (OpenRouter.Returns "{}")
          (OpenRouter.Returns (OpenRouter.Response ["Spend less."])))).

(** A process with a key that the API rejects with status 401. *)
Definition world401 : OpenRouter.World :=
  OpenRouter.mkWorld (Some "sk-or-test") "http://localhost:3000/"
    (fun _ => OpenRouter.Returns
       (OpenRouter.Http 401 (OpenRouter.Returns "Unauthorized")
          (OpenRouter.Throws (OpenRouter.Rejected "Unexpected token")))).

(** A process with a key and an API that answers 200 with one choice. *)
Definition worldOk (answer : string) : OpenRouter.World :=
  OpenRouter.mkWorld (Some "sk-or-test") "http://localhost:3000/"
    (fun _ => OpenRouter.Returns
       (OpenRouter.Http 200 (OpenRouter.Returns answer)
          (OpenRouter.Returns (OpenRouter.Response [answer])))).

(** A [JSON.parse] that knows one text: the statement scenario of the spec. *)
Definition parse0 (s : string) : option AiTools.Json :=
  if decide (s = "one-dining-transaction"%string) then
    Some (AiTools.JObject
      [("transactions"%string,
        AiTools.JArray
          [AiTools.JObject
             [("date"%string, AiTools.JString "2024-01-05");
              ("amount"%string, AiTools.JNumber (Num (Q2Qc (-25 # 2))));
              ("category"%string, AiTools.JString "Dining");
              ("note"%string, AiTools.JString "Cafe");
              ("type"%string, AiTools.JString "expense")]])])
  else None.

Definition envOf (w : OpenRouter.World) : AiTools.Env :=
  AiTools.mkEnv w parse0 (fun _ => now0).

(** The component at rest, with a question and a statement typed in. *)
Definition state0 : AiTools.State :=
  AiTools.mkState "How much did I spend?" false "" "05/01 CAFE 12.50" [] [] [].

End Samples.

(* ===================================================================== *)
(** * Vocabulary of the statements                                        *)
(* ===================================================================== *)

(** Definitions that the results below are stated with: sums, prefix sums,
    axis labels and the closed forms of the aggregations.  None of them is
    part of the program. *)
Module Spec.
Import JS Calendar Types Statistics.

(** The rational an entry counts for: its stored value, and [0] when the key
    is missing (or holds NaN). *)
Definition entryQ (m : gmap string num) (k : string) : Qc :=
  match m !! k with
  | Some (Num q) => q
  | _ => 0%Qc
  end.

(** Sum of a list of rationals. *)
Definition sumQc (l : list Qc) : Qc := foldr Qcplus 0%Qc l.

(** Alpha of shade [i]: [max(0.2, 1 - i * 0.1)]. *)
Definition shadeAlpha (i : Z) : Qc :=
  Qcmax (Q2Qc (2 # 10)) (1 - Qc_of_Z i * Q2Qc (1 # 10))%Qc.

(** A transaction that passes the guard [!isNaN(tx.amount)]. *)
Definition hasAmount (tx : Transaction) : Prop := isNaN (tx_amount tx) = false.

Global Instance hasAmount_dec (tx : Transaction) : Decision (hasAmount tx).
Proof. unfold hasAmount. apply _. Defined.

(** The rational amount of a transaction (0 for NaN). *)
Definition amountQ (tx : Transaction) : Qc :=
  match tx_amount tx with
  | Num q => q
  | NaN => 0%Qc
  end.

(** What a transaction adds to the wealth balance: its signed amount for an
    income or an expense, nothing for an investment. *)
Definition wealthDelta (tx : Transaction) : Qc :=
  match tx_type tx with
  | income | expense => amountQ tx
  | investment => 0%Qc
  end.

(** What a transaction adds to the investment balance: the absolute amount
    of an investment, nothing otherwise. *)
Definition investmentDelta (tx : Transaction) : Qc :=
  match tx_type tx with
  | investment => Qcabs (amountQ tx)
  | _ => 0%Qc
  end.

(** The balances after a list of transactions: prefix sums. *)
Definition wealthAfter (l : list Transaction) : Qc := sumQc (map wealthDelta l).
Definition investmentAfter (l : list Transaction) : Qc :=
  sumQc (map investmentDelta l).

(** The points of a series over [l], starting from balance [b0]. *)
Fixpoint runningPoints (delta : Transaction -> Qc) (b0 : Qc)
  (l : list Transaction) : list point :=
  match l with
  | [] => []
  | tx :: l' =>
      Point (tx_date tx) (Num (b0 + delta tx)%Qc)
        :: runningPoints delta (b0 + delta tx)%Qc l'
  end.

(** The labels of the axis, each once, in order of first occurrence. *)
Definition axisLabels (labels : list string) : list string :=
  fold_left (fun ks k => if decide (k ∈ ks) then ks else ks ++ [k]) labels [].

(** A map that holds [g k] under each key [k] of [ks]. *)
Definition tabulate {V : Type} (g : string -> V) (ks : list string)
  : list (string * V) :=
  map (fun k => (k, g k)) ks.

(** The number a stored field counts for; a string is not a number. *)
Definition valueNum (v : value) : num :=
  match v with
  | VNum x => x
  | _ => NaN
  end.

(** The per-category fields of an entry: all but [name] and [total]. *)
Definition categoryFields (e : gmap string value) : gmap string value :=
  delete "name"%string (delete "total"%string e).

(** The sum of the per-category totals stored in an entry. *)
Definition categorySum (e : gmap string value) : num :=
  map_fold (fun _ v acc => add (valueNum v) acc) zero (categoryFields e).

(** The sum of the numbers stored in a set of fields. *)
Definition fieldSum (m : gmap string value) : num :=
  map_fold (fun _ v acc => add (valueNum v) acc) zero m.

(** The entry's total, read with the [|| 0] default, is the sum of its
    per-category fields. *)
Definition sumMatchesTotal (e : gmap string value) : Prop :=
  exists t : Qc,
    categorySum e = Num t /\ orZero (e !! "total"%string) = VNum (Num t).

(** A transaction whose category is neither of the entry's own field names
    nor a name that the entry inherits from [Object.prototype], and whose
    amount is a number. *)
Definition plainTx (tx : Transaction) : Prop :=
  tx_category tx <> "name"%string /\ tx_category tx <> "total"%string /\
  ~ inherited (tx_category tx) /\
  isNaN (tx_amount tx) = false.

Section WithDates.
Context {lib : DateLib}.

(** The bucket label of a transaction: the label format applied to its date. *)
Definition labelOf (formatLabel : time -> string) (tx : Transaction)
  : option string :=
  formatLabel <$> dateParse (tx_date tx).

(** The entry of bucket [k] after the transactions [txs]: the fresh entry,
    updated by those transactions that carry label [k], in order. *)
Definition entryOf (formatLabel : time -> string) (txs : list Transaction)
  (k : string) : gmap string value :=
  fold_left (fun e tx => if decide (labelOf formatLabel tx = Some k)
                         then bumpEntry tx e else e)
            txs (newEntry k).

(** [a] is dated no later than [b] (both dates valid). *)
Definition notLater (a b : Transaction) : Prop :=
  match dateParse (tx_date a), dateParse (tx_date b) with
  | Some ta, Some tb => ta <= tb
  | _, _ => False
  end.

(** The flow entry of month label [k] after the transactions [txs]: the
    zeroed entry, updated by the transactions whose date formats to [k]. *)
Definition flowEntryOf (txs : list Transaction) (k : string) : flowEntry :=
  fold_left (fun e tx => if decide (labelOf formatMMM tx = Some k)
                         then bumpFlow tx e else e)
            txs (FlowEntry k zero zero zero).

End WithDates.

End Spec.

(* ===================================================================== *)
(** * Results                                                             *)
(* ===================================================================== *)

Import JS Calendar Types Spec.

(** ** Numbers *)

Lemma add_Num (a b : Qc) : add (Num a) (Num b) = Num (a + b)%Qc.
Proof. reflexivity. Qed.

Lemma getOrZero_finite (m : gmap string num) (k : string) :
  exists q : Qc, getOrZero m k = Num q.
Proof.
  unfold getOrZero. destruct (m !! k) as [[|q]|]; simpl; eauto.
  destruct (bool_decide (q ≠ 0%Qc)); eauto.
Qed.

Lemma getOrZero_entryQ (m : gmap string num) (k : string) :
  getOrZero m k = Num (entryQ m k).
Proof.
  unfold getOrZero, entryQ. destruct (m !! k) as [[|q]|]; simpl; try reflexivity.
  destruct (decide (q = 0%Qc)) as [->|Hq].
  - by rewrite bool_decide_eq_false_2 by (intros H; by apply H).
  - by rewrite bool_decide_eq_true_2.
Qed.

(** ** Plain objects *)

Lemma not_inherited_total : ~ inherited "total".
Proof.
  unfold inherited, prototypeNames. intros H.
  repeat (apply elem_of_cons in H as [H|H]; [discriminate H|]).
  by apply elem_of_nil in H.
Qed.

Lemma not_inherited_name : ~ inherited "name".
Proof.
  unfold inherited, prototypeNames. intros H.
  repeat (apply elem_of_cons in H as [H|H]; [discriminate H|]).
  by apply elem_of_nil in H.
Qed.

(** Decides that a given name is not one of [Object.prototype]. *)
Ltac not_inherited :=
  lazymatch goal with
  | |- ~ inherited ?k =>
      apply (bool_decide_eq_false_1 (inherited k)); vm_compute; reflexivity
  end.

Lemma inherited_proto : inherited "__proto__".
Proof. unfold inherited, prototypeNames. set_solver. Qed.

Lemma readProp_own (o : gmap string value) (k : string) :
  ~ inherited k -> readProp o k = o !! k.
Proof.
  intros Hk. unfold readProp. destruct (o !! k); [done|]. by rewrite decide_False.
Qed.

Lemma writeProp_insert (k : string) (v : value) (o : gmap string value) :
  ~ inherited k -> writeProp k v o = <[ k := v ]> o.
Proof.
  intros Hk. unfold writeProp. rewrite decide_False; [done|].
  intros [-> _]. apply Hk, inherited_proto.
Qed.

Lemma addTo_own (k : string) (n : num) (e : gmap string value) :
  ~ inherited k ->
  Statistics.addTo k n e = <[ k := plus (orZero (e !! k)) n ]> e.
Proof.
  intros Hk. unfold Statistics.addTo. by rewrite readProp_own, writeProp_insert.
Qed.

(** ** Budget comparator *)

Section BudgetFacts.
Import Budgeting.
Variable stringToNumber : list piece -> num.
Variables spendingByCategory categoryBudgets : gmap string value.

(** The rational that a property counts for: its own number, and [0] when
    it is missing (or holds NaN). *)
Definition heldQ (m : gmap string value) (k : string) : Qc :=
  match m !! k with
  | Some (VNum (Num q)) => q
  | _ => 0%Qc
  end.

(** [k] is not a name of [Object.prototype], and [m] holds a number under
    it or nothing. *)
Definition numericAt (m : gmap string value) (k : string) : Prop :=
  ~ inherited k /\ forall v, m !! k = Some v -> exists x, v = VNum x.

Lemma read_numeric (m : gmap string value) (k : string) :
  numericAt m k -> orZero (readProp m k) = VNum (Num (heldQ m k)).
Proof.
  intros [Hk Hv]. unfold readProp, heldQ.
  destruct (m !! k) as [v|] eqn:Hm.
  - destruct (Hv v eq_refl) as [[|q] ->]; cbn; [done|].
    destruct (decide (q = 0%Qc)) as [->|Hq].
    + by rewrite bool_decide_eq_false_2 by (intros H; by apply H).
    + by rewrite bool_decide_eq_true_2.
  - by rewrite decide_False.
Qed.

Lemma fold_plusValue_sumQc (m : gmap string value) (cats : list string) (acc : Qc) :
  Forall (numericAt m) cats ->
  fold_left (fun sum cat => plusValue sum (orZero (readProp m cat))) cats
            (VNum (Num acc))
  = VNum (Num (acc + sumQc (map (heldQ m) cats))%Qc).
Proof.
  intros Hn. revert acc. induction Hn as [|c cats Hc Hn IH]; intros acc; simpl.
  - by rewrite Qcplus_0_r.
  - rewrite (read_numeric _ _ Hc). cbn [plusValue add]. rewrite IH.
    do 2 f_equal. ring.
Qed.

Lemma totalTracked_sum (cats : list string) :
  Forall (numericAt spendingByCategory) cats ->
  totalTracked spendingByCategory cats
  = VNum (Num (sumQc (map (heldQ spendingByCategory) cats))).
Proof.
  intros Hn. unfold totalTracked, zero.
  rewrite fold_plusValue_sumQc by done. by rewrite Qcplus_0_l.
Qed.

Lemma totalBudget_sum (cats : list string) :
  Forall (numericAt categoryBudgets) cats ->
  totalBudget categoryBudgets cats
  = VNum (Num (sumQc (map (heldQ categoryBudgets) cats))).
Proof.
  intros Hn. unfold totalBudget, zero.
  rewrite fold_plusValue_sumQc by done. by rewrite Qcplus_0_l.
Qed.

(** For a category that [Object.prototype] does not name and maps that hold
    numbers: tracked and budget are the two maps' entries with [|| 0]
    applied, and percentUsed is [|tracked| / budget * 100] when
    [budget > 0] and exactly [0] otherwise, never NaN and never negative. *)
Lemma percent_used_of_numbers (cat : string) :
  numericAt spendingByCategory cat -> numericAt categoryBudgets cat ->
  let r := renderRow stringToNumber spendingByCategory categoryBudgets cat in
  let tracked := heldQ spendingByCategory cat in
  let budget := heldQ categoryBudgets cat in
  row_tracked r = VNum (Num tracked) /\ row_budget r = VNum (Num budget) /\
  exists p : Qc,
    row_percent r = Num p /\
    ((0 < budget)%Qc -> p = (Qcabs tracked / budget * Qc_of_Z 100)%Qc) /\
    (~ (0 < budget)%Qc -> p = 0%Qc) /\
    (0 <= p)%Qc.
Proof.
  intros Hs Hb. cbv zeta. unfold renderRow. cbn [row_tracked row_budget row_percent].
  rewrite (read_numeric _ _ Hs), (read_numeric _ _ Hb).
  set (t := heldQ spendingByCategory cat). set (b := heldQ categoryBudgets cat).
  split; [done|]. split; [done|].
  unfold percentOf, zero. cbn [toNumber gt abs].
  destruct (decide (0 < b)%Qc) as [Hpos|Hpos].
  - rewrite bool_decide_eq_true_2 by done.
    destruct (decide (b = 0%Qc)) as [Hb0|Hb0];
      [rewrite Hb0 in Hpos; by apply Qclt_not_eq in Hpos|].
    cbn [div]. rewrite decide_False by done. cbn [mul].
    exists (Qcabs t / b * Qc_of_Z 100)%Qc.
    split_and!; try done.
    apply Qcmult_nonneg_nonneg; [|by apply (Z2Qc_inj_le 0 100)].
    unfold Qcdiv. apply Qcmult_nonneg_nonneg; [apply Qcabs_nonneg|].
    apply Qclt_le_weak, Qcinv_pos. done.
  - rewrite bool_decide_eq_false_2 by done.
    exists 0%Qc. split_and!; done.
Qed.

Lemma sumQc_agree (m m' : gmap string value) (cats : list string) :
  (forall c, c ∈ cats -> m' !! c = m !! c) ->
  sumQc (map (heldQ m') cats) = sumQc (map (heldQ m) cats).
Proof.
  induction cats as [|c cats IH]; intros H; simpl; [done|].
  rewrite IH by (intros c' Hc'; apply H; by right).
  unfold heldQ at 1 3. rewrite H by left. done.
Qed.

(** For a list of categories that [Object.prototype] does not name and maps
    that hold numbers under them: totalTracked and totalBudget are the sums,
    over the supplied list, of each category's tracked and budget value, a
    missing entry counting for 0; totalRemaining is
    totalBudget - |totalTracked|; and the over-budget condition holds exactly
    when |totalTracked| > totalBudget. *)
Lemma totals_of_numbers (cats : list string) :
  Forall (numericAt spendingByCategory) cats ->
  Forall (numericAt categoryBudgets) cats ->
  let T := sumQc (map (heldQ spendingByCategory) cats) in
  let B := sumQc (map (heldQ categoryBudgets) cats) in
  totalTracked spendingByCategory cats = VNum (Num T) /\
  totalBudget categoryBudgets cats = VNum (Num B) /\
  totalRemaining stringToNumber spendingByCategory categoryBudgets cats
    = Num (B - Qcabs T)%Qc /\
  (overBudget stringToNumber spendingByCategory categoryBudgets cats = true
   <-> (B < Qcabs T)%Qc).
Proof.
  intros Hs Hb T B. split_and!.
  - by apply totalTracked_sum.
  - by apply totalBudget_sum.
  - unfold totalRemaining. by rewrite totalTracked_sum, totalBudget_sum.
  - unfold overBudget. rewrite totalTracked_sum, totalBudget_sum by done. simpl.
    apply bool_decide_eq_true.
Qed.

(** C5, where the code departs from it: a category named like a property of
    [Object.prototype].  With a budget of 200 stored for [constructor] and
    nothing spent on it this month, [spendingByCategory[cat] || 0] is the
    inherited function, [Math.abs] of it is NaN, and percentUsed is NaN,
    neither [|tracked| / budget * 100] for a tracked amount nor a number of
    [[0, ∞)]. *)
Theorem percent_is_NaN_for_inherited_category :
  let budgets : gmap string value :=
    {[ "constructor"%string := VNum (Num (Qc_of_Z 200)) ]} in
  let r := renderRow stringToNumber ∅ budgets "constructor" in
  row_tracked r = VProto "constructor" /\
  row_budget r = VNum (Num (Qc_of_Z 200)) /\
  row_percent r = NaN.
Proof. cbv zeta. split_and!; reflexivity. Qed.

(** C6, where the code departs from it: a listed category named like a
    property of [Object.prototype].  For the list [Food, constructor], with
    -50 tracked and 200 budgeted for Food and no entry for [constructor],
    the missing entries do not count as 0: they read as the inherited
    function, [+] turns to string concatenation, both totals are strings and
    totalRemaining is NaN; over the list [Food] alone they are -50, 200 and
    150. *)
Theorem totals_break_on_inherited_category :
  let spending : gmap string value :=
    {[ "Food"%string := VNum (Num (Qc_of_Z (-50))) ]} in
  let budgets : gmap string value :=
    {[ "Food"%string := VNum (Num (Qc_of_Z 200)) ]} in
  let cats := ["Food"; "constructor"]%string in
  totalTracked spending cats
    = VText [Digits (Num (Qc_of_Z (-50))); Native "constructor"] /\
  totalBudget budgets cats
    = VText [Digits (Num (Qc_of_Z 200)); Native "constructor"] /\
  totalRemaining stringToNumber spending budgets cats = NaN /\
  overBudget stringToNumber spending budgets cats = false /\
  totalTracked spending ["Food"%string] = VNum (Num (Qc_of_Z (-50))) /\
  totalBudget budgets ["Food"%string] = VNum (Num (Qc_of_Z 200)) /\
  totalRemaining stringToNumber spending budgets ["Food"%string]
    = Num (Qc_of_Z 150).
Proof. cbv zeta. split_and!; compute_done. Qed.

End BudgetFacts.

(** The spec's budget scenario: Food tracked -50 against a budget of 200 is
    25 percent used; an unbudgeted category is 0 percent used. *)
Example percent_used_food (stringToNumber : list piece -> num) :
  let spending : gmap string value :=
    {[ "Food"%string := VNum (Num (Qc_of_Z (-50)));
       "Salary"%string := VNum (Num (Qc_of_Z 2000)) ]} in
  let budgets : gmap string value :=
    {[ "Food"%string := VNum (Num (Qc_of_Z 200)) ]} in
  Budgeting.row_percent (Budgeting.renderRow stringToNumber spending budgets "Food")
    = Num (Qc_of_Z 25) /\
  Budgeting.row_percent (Budgeting.renderRow stringToNumber spending budgets "Salary")
    = Num (Qc_of_Z 0) /\
  Budgeting.totalRemaining stringToNumber spending budgets ["Food"%string]
    = Num (Qc_of_Z 150) /\
  Budgeting.overBudget stringToNumber spending budgets ["Food"%string] = false.
Proof. split_and!; compute_done. Qed.

(** ** Shade generator *)

Section ShadeFacts.
Import Statistics.

Lemma shadesFrom_closed (r g b : num) (n : nat) (i : Z) (acc : list rgba) :
  shadesFrom r g b i n acc
  = acc ++ map (fun k => Rgba r g b (Num (shadeAlpha (i + Z.of_nat k)))) (seq 0 n).
Proof.
  revert i acc. induction n as [|n IH]; intros i acc.
  - simpl. by rewrite app_nil_r.
  - cbn [shadesFrom]. rewrite IH. cbn [seq map]. rewrite <- app_assoc.
    f_equal. cbn [app]. f_equal.
    + f_equal. rewrite Z.add_0_r. reflexivity.
    + rewrite <- seq_shift, map_map. apply map_ext. intros k.
      do 3 f_equal. lia.
Qed.





(** The characters [hexDigit] accepts. *)
Definition hexChars : list ascii :=
  list_ascii_of_string "0123456789ABCDEFabcdef".

Lemma hexDigit_chars (c : ascii) (d : Z) :
  hexDigit c = Some d -> In c hexChars /\ 0 <= d <= 15.
Proof.
  destruct c as [[] [] [] [] [] [] [] []]; intros H; vm_compute in H;
    try discriminate H; injection H as <-;
    (split; [vm_compute; tauto|lia]).
Qed.

Lemma parseInt16_two_digits (c1 c2 : ascii) (d1 d2 : Z) :
  hexDigit c1 = Some d1 -> hexDigit c2 = Some d2 ->
  parseInt16 (String c1 (String c2 EmptyString)) = Num (Qc_of_Z (16 * d1 + d2)).
Proof.
  intros H1 H2.
  destruct (hexDigit_chars _ _ H1) as [Hc1 _].
  destruct (hexDigit_chars _ _ H2) as [Hc2 _].
  unfold hexChars in Hc1, Hc2. cbn [list_ascii_of_string In] in Hc1, Hc2.
  repeat (destruct Hc1 as [<-|Hc1]);
    try (exfalso; exact Hc1);
    vm_compute in H1; injection H1 as <-;
    repeat (destruct Hc2 as [<-|Hc2]);
    try (exfalso; exact Hc2);
    vm_compute in H2; injection H2 as <-; reflexivity.
Qed.





(** The palette the component asks for, ten shades of [#EF4444]: the ninth
    and the tenth have the same alpha. *)
Example generateShades_EF4444 :
  map alpha (generateShades "#EF4444" 10)
  = map (fun q => Num (Q2Qc q))
        [1; 9 # 10; 8 # 10; 7 # 10; 6 # 10; 5 # 10; 4 # 10; 3 # 10; 2 # 10; 2 # 10]%Q
  /\ hexChannels "#EF4444" = (Num (Qc_of_Z 239), Num (Qc_of_Z 68), Num (Qc_of_Z 68)).
Proof. split; compute_done. Qed.

End ShadeFacts.

(** ** Sorted copy and running balances *)

Section SortFacts.
Import Statistics.
Context {lib : DateLib}.

Lemma sortInsert_perm (x : Transaction) (l : list Transaction) :
  sortInsert x l ≡ₚ x :: l.
Proof.
  induction l as [|y l IH]; simpl; [done|].
  destruct (sortsAfter x y); [|done].
  rewrite IH. apply Permutation_swap.
Qed.

Lemma sortByDate_perm (l : list Transaction) : sortByDate l ≡ₚ l.
Proof.
  induction l as [|x l IH]; simpl; [done|].
  by rewrite sortInsert_perm, IH.
Qed.

(** With valid dates the sorted copy is in ascending date order. *)
Lemma sortInsert_sorted (x : Transaction) (l : list Transaction) :
  is_Some (dateParse (tx_date x)) ->
  Forall (fun tx => is_Some (dateParse (tx_date tx))) l ->
  StronglySorted notLater l -> StronglySorted notLater (sortInsert x l).
Proof.
  intros [tx Hx] Hv Hs. induction Hs as [|y l Hs IH Hy]; cbn [sortInsert].
  - repeat constructor.
  - apply Forall_cons in Hv as [[ty Hty] Hv].
    unfold sortsAfter, compareByDate. rewrite Hx, Hty.
    destruct (0 <? tx - ty) eqn:Hc.
    + apply Z.ltb_lt in Hc. constructor; [by apply IH|].
      eapply Forall_forall. intros z Hz.
      rewrite sortInsert_perm in Hz. apply elem_of_cons in Hz as [->|Hz].
      * unfold notLater. rewrite Hty, Hx. lia.
      * by apply (proj1 (Forall_forall _ _) Hy).
    + apply Z.ltb_ge in Hc. constructor; [by constructor|].
      constructor; [unfold notLater; rewrite Hx, Hty; lia|].
      eapply Forall_impl; [exact Hy|]. intros z Hz. unfold notLater in *.
      rewrite Hx. rewrite Hty in Hz. destruct (dateParse (tx_date z)); [lia|done].
Qed.

Lemma sortByDate_sorted (l : list Transaction) :
  Forall (fun tx => is_Some (dateParse (tx_date tx))) l ->
  StronglySorted notLater (sortByDate l).
Proof.
  induction 1 as [|x l Hx Hv IH]; cbn [sortByDate]; [constructor|].
  apply sortInsert_sorted; [done| |done].
  eapply Forall_forall. intros z Hz.
  rewrite sortByDate_perm in Hz.
  by apply (proj1 (Forall_forall _ _) Hv).
Qed.

(** The reference engine: stable insertion on every array.  Every engine
    agrees with it on the arrays whose dates are all valid; the sample runs
    below use it. *)
Global Instance stableEngine : SortEngine := {|
  engineSort := sortByDate;
  engineSort_perm := sortByDate_perm;
  engineSort_consistent := fun _ _ => eq_refl
|}.

(** An engine that leaves an array with an invalid date as it is: on such
    arrays engines differ. *)
Definition lazyEngine : SortEngine.
Proof.
  refine {| engineSort := fun l => if decide (datesParse l) then sortByDate l else l |}.
  - intros l. destruct (decide (datesParse l)); [apply sortByDate_perm|done].
  - intros l Hl. by rewrite decide_True.
Defined.

End SortFacts.

Section NetAssetFacts.
Import Statistics.
Context {lib : DateLib} {engine : SortEngine}.

Lemma sortedTransactions_perm (l : list Transaction) :
  sortedTransactions l ≡ₚ l.
Proof. apply engineSort_perm. Qed.

(** On arrays whose dates are all valid the engines agree. *)
Lemma sortedTransactions_reference (l : list Transaction) :
  datesParse l ->
  sortedTransactions l = sortedTransactions (engine:=stableEngine) l.
Proof. intros Hl. unfold sortedTransactions. by rewrite engineSort_consistent. Qed.

Lemma sortedTransactions_sorted (l : list Transaction) :
  Forall (fun tx => is_Some (dateParse (tx_date tx))) l ->
  StronglySorted notLater (sortedTransactions l).
Proof.
  intros Hl. unfold sortedTransactions.
  rewrite (engineSort_consistent l Hl). by apply sortByDate_sorted.
Qed.

Lemma netAssetStep_fold (l : list Transaction) (w i : Qc) (wd id : list point) :
  let kept := filter hasAmount l in
  fold_left netAssetStep l (NetAssetState (Num w) (Num i) wd id)
  = NetAssetState (Num (w + wealthAfter kept)%Qc) (Num (i + investmentAfter kept)%Qc)
      (wd ++ runningPoints wealthDelta w kept)
      (id ++ runningPoints investmentDelta i kept).
Proof.
  revert w i wd id. induction l as [|tx l IH]; intros w i wd id; simpl.
  - unfold wealthAfter, investmentAfter. simpl.
    by rewrite !Qcplus_0_r, !app_nil_r.
  - unfold netAssetStep at 2. rewrite filter_cons.
    destruct (decide (hasAmount tx)) as [Hv|Hv].
    + unfold hasAmount in Hv. rewrite Hv. cbn [negb].
      destruct (tx_amount tx) as [|q] eqn:Ha; [done|].
      assert (HwD : (if bool_decide (tx_type tx = income) || bool_decide (tx_type tx = expense)
                     then add (Num w) (Num q) else Num w) = Num (w + wealthDelta tx)%Qc).
      { unfold wealthDelta, amountQ. rewrite Ha.
        destruct (tx_type tx); simpl; try done. by rewrite Qcplus_0_r. }
      assert (HiD : (if bool_decide (tx_type tx = investment)
                     then add (Num i) (abs (Num q)) else Num i)
                    = Num (i + investmentDelta tx)%Qc).
      { unfold investmentDelta, amountQ. rewrite Ha.
        destruct (tx_type tx); simpl; try done; by rewrite Qcplus_0_r. }
      cbn [wealthBalance investmentBalance wealthData investmentData].
      rewrite HwD, HiD, IH.
      unfold wealthAfter, investmentAfter. cbn [map sumQc foldr runningPoints].
      rewrite <- !app_assoc. cbn [app]. by rewrite !Qcplus_assoc.
    + unfold hasAmount in Hv. apply not_false_is_true in Hv. rewrite Hv.
      cbn [negb]. apply IH.
Qed.

Lemma runningPoints_length (delta : Transaction -> Qc) (b0 : Qc) (l : list Transaction) :
  length (runningPoints delta b0 l) = length l.
Proof. revert b0. induction l; intros; simpl; auto. Qed.

Lemma runningPoints_lookup (delta : Transaction -> Qc) (l : list Transaction)
  (b0 : Qc) (k : nat) (tx : Transaction) :
  l !! k = Some tx ->
  runningPoints delta b0 l !! k
  = Some (Point (tx_date tx) (Num (b0 + sumQc (map delta (take (S k) l)))%Qc)).
Proof.
  revert b0 k. induction l as [|x l IH]; intros b0 k Hk; [done|].
  destruct k as [|k]; simpl in *.
  - injection Hk as ->. by rewrite Qcplus_0_r.
  - rewrite (IH _ _ Hk). do 3 f_equal. ring.
Qed.

(** C2, as the code has it, for every engine: the two series have equal
    length, with one point per transaction whose amount is not NaN (a
    transaction with a NaN amount is skipped in both), whatever the types;
    the points follow the order of the sorted copy, and point [k] carries
    the date of the [k]-th kept transaction of that copy and the balance
    accumulated up to and including it. *)
Theorem netAssetData_points (transactions : list Transaction) :
  let kept := filter hasAmount (sortedTransactions transactions) in
  let '(wealth, investments) := netAssetData (sortedTransactions transactions) in
  length wealth = length investments /\
  length wealth = length (filter hasAmount transactions) /\
  kept ≡ₚ filter hasAmount transactions /\
  (forall (k : nat) (tx : Transaction),
     kept !! k = Some tx ->
     wealth !! k = Some (Point (tx_date tx) (Num (wealthAfter (take (S k) kept)))) /\
     investments !! k
       = Some (Point (tx_date tx) (Num (investmentAfter (take (S k) kept))))).
Proof.
  unfold netAssetData, zero. rewrite netAssetStep_fold.
  cbn [wealthData investmentData app].
  set (kept := filter hasAmount (sortedTransactions transactions)).
  assert (Hp : kept ≡ₚ filter hasAmount transactions).
  { unfold kept. by rewrite sortedTransactions_perm. }
  cbv zeta. split_and!.
  - by rewrite !runningPoints_length.
  - by rewrite runningPoints_length, Hp.
  - done.
  - intros k tx Hk. rewrite !(runningPoints_lookup _ _ _ _ _ Hk).
    unfold wealthAfter, investmentAfter. by rewrite !Qcplus_0_l.
Qed.

End NetAssetFacts.

(** ** Insertion-ordered maps *)

Section MapFacts.
Context {V : Type}.

Lemma mapGet_tabulate (g : string -> V) (ks : list string)
  (k : string) :
  mapGet k (tabulate g ks) = if decide (k ∈ ks) then Some (g k) else None.
Proof.
  unfold tabulate. induction ks as [|k' ks IH]; cbn [mapGet mapSet map].
  - destruct (decide (k ∈ [])) as [H|]; [by apply elem_of_nil in H|done].
  - destruct (decide (k' = k)) as [->|Hne].
    + rewrite decide_True by left. done.
    + rewrite IH. destruct (decide (k ∈ ks)) as [Hin|Hin].
      * rewrite decide_True by (by right). done.
      * rewrite decide_False; [done|].
        intros [->|?]%elem_of_cons; done.
Qed.

Lemma mapSet_tabulate_in (g : string -> V) (ks : list string)
  (k : string) (v : V) :
  NoDup ks -> k ∈ ks ->
  mapSet k v (tabulate g ks)
  = tabulate (fun k' => if decide (k' = k) then v else g k') ks.
Proof.
  unfold tabulate.
  induction ks as [|k' ks IH]; intros Hnd Hin; [by apply elem_of_nil in Hin|].
  apply NoDup_cons in Hnd as [Hk' Hnd]. cbn [mapGet mapSet map].
  destruct (decide (k' = k)) as [->|Hne].
  - f_equal. apply map_ext_in. intros a Ha%list_elem_of_In.
    rewrite decide_False; [done|]. by intros ->.
  - f_equal. apply IH; [done|].
    apply elem_of_cons in Hin as [->|]; done.
Qed.

Lemma mapSet_tabulate_new (g : string -> V) (ks : list string)
  (k : string) :
  mapSet k (g k) (tabulate g ks)
  = tabulate g (if decide (k ∈ ks) then ks else ks ++ [k]).
Proof.
  unfold tabulate. induction ks as [|k' ks IH]; cbn [mapGet mapSet map].
  - rewrite decide_False by apply not_elem_of_nil. done.
  - destruct (decide (k' = k)) as [->|Hne].
    + rewrite decide_True by left. done.
    + rewrite IH. destruct (decide (k ∈ ks)) as [Hin|Hin].
      * rewrite decide_True by (by right). done.
      * rewrite decide_False; [done|].
        intros [->|?]%elem_of_cons; done.
Qed.

Lemma axisLabels_step_NoDup (labels ks : list string) :
  NoDup ks ->
  NoDup (fold_left (fun ks k => if decide (k ∈ ks) then ks else ks ++ [k]) labels ks).
Proof.
  revert ks. induction labels as [|l labels IH]; intros ks Hnd; simpl; [done|].
  apply IH. destruct (decide (l ∈ ks)); [done|].
  apply NoDup_app. split_and!; [done| |apply NoDup_singleton].
  intros x Hx ->%list_elem_of_singleton. done.
Qed.

Lemma axisLabels_NoDup (labels : list string) : NoDup (axisLabels labels).
Proof. apply axisLabels_step_NoDup, NoDup_nil_2. Qed.

Lemma axisLabels_step_elem (labels ks : list string) (k : string) :
  k ∈ fold_left (fun ks k => if decide (k ∈ ks) then ks else ks ++ [k]) labels ks
  <-> k ∈ ks \/ k ∈ labels.
Proof.
  revert ks. induction labels as [|l labels IH]; intros ks; simpl.
  - split; [by left|]. intros [?|H]; [done|by apply elem_of_nil in H].
  - rewrite IH. destruct (decide (l ∈ ks)) as [Hin|Hin].
    + rewrite elem_of_cons. split; [tauto|]. intros [?|[->|?]]; tauto.
    + rewrite elem_of_app, list_elem_of_singleton, elem_of_cons. tauto.
Qed.

Lemma axisLabels_elem (labels : list string) (k : string) :
  k ∈ axisLabels labels <-> k ∈ labels.
Proof.
  unfold axisLabels. rewrite axisLabels_step_elem.
  split; [|by right]. intros [H|?]; [by apply elem_of_nil in H|done].
Qed.

End MapFacts.

(** ** Spending analysis *)

Section SpendingFacts.
Import Statistics.
Context {lib : DateLib}.

Lemma seedFold_tabulate (formatLabel : time -> string) (dataPoints : list time)
  (ks : list string) :
  fold_left (fun m p => mapSet (formatLabel p) (newEntry (formatLabel p)) m)
            dataPoints (tabulate newEntry ks)
  = tabulate newEntry
      (fold_left (fun ks k => if decide (k ∈ ks) then ks else ks ++ [k])
                 (map formatLabel dataPoints) ks).
Proof.
  revert ks. induction dataPoints as [|p pts IH]; intros ks; simpl; [done|].
  rewrite mapSet_tabulate_new. apply IH.
Qed.

Lemma seedDataMap_closed (formatLabel : time -> string) (dataPoints : list time) :
  seedDataMap formatLabel dataPoints
  = tabulate newEntry (axisLabels (map formatLabel dataPoints)).
Proof. apply (seedFold_tabulate formatLabel dataPoints []). Qed.

Lemma spendingStep_tabulate (formatLabel : time -> string)
  (g : string -> gmap string value) (ks : list string) (tx : Transaction) :
  NoDup ks ->
  spendingStep formatLabel (tabulate g ks) tx
  = tabulate (fun k => if decide (labelOf formatLabel tx = Some k)
                       then bumpEntry tx (g k) else g k) ks.
Proof.
  intros Hnd. unfold spendingStep, labelOf.
  destruct (dateParse (tx_date tx)) as [d|]; cbn [fmap option_fmap option_map].
  - rewrite mapGet_tabulate. destruct (decide (formatLabel d ∈ ks)) as [Hin|Hin].
    + rewrite mapSet_tabulate_in by done. unfold tabulate.
      apply map_ext. intros k.
      destruct (decide (k = formatLabel d)) as [->|Hne].
      * by rewrite decide_True.
      * rewrite decide_False; [done|]. intros [= H]. done.
    + unfold tabulate. apply map_ext_in. intros k Hk%list_elem_of_In.
      rewrite decide_False; [done|]. intros [= H]. by subst.
  - unfold tabulate. apply map_ext. intros k. by rewrite decide_False.
Qed.

Lemma spendingFold_tabulate (formatLabel : time -> string)
  (txs : list Transaction) (g : string -> gmap string value) (ks : list string) :
  NoDup ks ->
  fold_left (spendingStep formatLabel) txs (tabulate g ks)
  = tabulate (fun k => fold_left
                (fun e tx => if decide (labelOf formatLabel tx = Some k)
                             then bumpEntry tx e else e) txs (g k)) ks.
Proof.
  intros Hnd. revert g. induction txs as [|tx txs IH]; intros g; simpl; [done|].
  rewrite spendingStep_tabulate by done. by rewrite IH.
Qed.

(** The chart data in closed form: one entry per axis label, in axis order. *)
Lemma spendingChartData_closed (period : Period) (now : time) (dateOffset : Z)
  (sorted : list Transaction) (s e : time) (dataPoints : list time)
  (formatLabel : time -> string) :
  resolvePeriod period now dateOffset = Some (s, e, dataPoints, formatLabel) ->
  spendingChartData period now dateOffset sorted
  = map (entryOf formatLabel (filter (fun tx => isRelevant s e tx = true) sorted))
        (axisLabels (map formatLabel dataPoints)).
Proof.
  intros Hr. unfold spendingChartData. rewrite Hr.
  rewrite seedDataMap_closed, spendingFold_tabulate by apply axisLabels_NoDup.
  unfold tabulate. rewrite map_map. reflexivity.
Qed.

(** The three charted periods resolve to an interval and an axis; the
    month view has no chart data. *)
Lemma resolvePeriod_charted (period : Period) (now : time) (dateOffset : Z) :
  match period with
  | M => resolvePeriod period now dateOffset = None /\
         forall sorted, spendingChartData period now dateOffset sorted = []
  | _ => exists s e dataPoints formatLabel,
           resolvePeriod period now dateOffset = Some (s, e, dataPoints, formatLabel)
  end.
Proof. destruct period; cbn; eauto 10. Qed.

Lemma entryOf_untouched (formatLabel : time -> string) (txs : list Transaction)
  (k : string) :
  (forall tx, tx ∈ txs -> labelOf formatLabel tx <> Some k) ->
  entryOf formatLabel txs k = newEntry k.
Proof.
  unfold entryOf. generalize (newEntry k) as e0.
  induction txs as [|tx txs IH]; intros e0 H; simpl; [done|].
  rewrite decide_False by (apply H; left).
  apply IH. intros tx' Htx'. apply H. by right.
Qed.

(** C4, as the code has it: for the periods W, 6M and Y every bucket label
    of the axis gets exactly one entry, in axis order, before any
    transaction is folded in; the entry of a bucket that no relevant
    transaction falls into is still in the output and is the bare object
    [{ name: label }]: it stores no total and no per-category field, and
    read through the [|| 0] default the total and every field that
    [Object.prototype] does not name give 0. *)
Theorem empty_buckets_stay (period : Period) (now : time) (dateOffset : Z)
  (sorted : list Transaction) (s e : time) (dataPoints : list time)
  (formatLabel : time -> string) :
  resolvePeriod period now dateOffset = Some (s, e, dataPoints, formatLabel) ->
  let labels := axisLabels (map formatLabel dataPoints) in
  let out := spendingChartData period now dateOffset sorted in
  NoDup labels /\
  (forall p, p ∈ dataPoints -> formatLabel p ∈ labels) /\
  length out = length labels /\
  (forall (i : nat) (k : string),
     labels !! i = Some k ->
     (forall tx, tx ∈ sorted -> isRelevant s e tx = true ->
                 labelOf formatLabel tx <> Some k) ->
     out !! i = Some (newEntry k)) /\
  (forall k : string,
     newEntry k !! "name"%string = Some (VStr k []) /\
     newEntry k !! "total"%string = None /\
     forall field : string, field <> "name"%string ->
       newEntry k !! field = None /\
       (~ inherited field -> orZero (readProp (newEntry k) field) = VNum zero)).
Proof.
  intros Hr labels out. unfold out.
  rewrite (spendingChartData_closed _ _ _ _ _ _ _ _ Hr). fold labels.
  split_and!.
  - apply axisLabels_NoDup.
  - intros p Hp. apply axisLabels_elem, list_elem_of_fmap. eauto.
  - by rewrite length_map.
  - intros i k Hk Hno.
    change (map ?f ?l) with (fmap (M:=list) f l).
    rewrite list_lookup_fmap, Hk. cbn [fmap option_fmap option_map]. f_equal.
    apply entryOf_untouched. intros tx [Htx Hrel]%list_elem_of_filter.
    by apply Hno.
  - intros k. unfold newEntry. split_and!.
    + apply lookup_singleton_eq.
    + by apply lookup_singleton_ne.
    + intros field Hf. rewrite lookup_singleton_ne by done.
      split; [done|]. intros Hi. rewrite readProp_own by done.
      by rewrite lookup_singleton_ne.
Qed.

End SpendingFacts.

(** ** Sum of the categories against the total *)

Section SumFacts.
Import Statistics.
Context {lib : DateLib}.

Lemma add_left_comm (a b y : num) : add a (add b y) = add b (add a y).
Proof.
  destruct a as [|a], b as [|b], y as [|y]; simpl; try done.
  f_equal. ring.
Qed.

Lemma fieldSum_insert (m : gmap string value) (k : string) (v : value) :
  m !! k = None -> fieldSum (<[k := v]> m) = add (valueNum v) (fieldSum m).
Proof.
  intros Hk. unfold fieldSum.
  apply (map_fold_insert_L (fun _ v acc => add (valueNum v) acc)); [|done].
  intros. apply add_left_comm.
Qed.

Lemma fieldSum_delete (m : gmap string value) (k : string) (v : value) :
  m !! k = Some v -> fieldSum m = add (valueNum v) (fieldSum (delete k m)).
Proof.
  intros Hk. unfold fieldSum.
  apply (map_fold_delete_L (fun _ v acc => add (valueNum v) acc)); [|done].
  intros. apply add_left_comm.
Qed.

Lemma fieldSum_update (m : gmap string value) (k : string) (v : value) :
  fieldSum (<[k := v]> m) = add (valueNum v) (fieldSum (delete k m)).
Proof.
  rewrite <- (insert_delete_eq m k v). apply fieldSum_insert, lookup_delete_eq.
Qed.

Lemma orZero_finite (q : Qc) : orZero (Some (VNum (Num q))) = VNum (Num q).
Proof.
  unfold orZero, truthyValue, truthy. destruct (decide (q = 0%Qc)) as [->|Hq].
  - by rewrite bool_decide_eq_false_2 by (intros H; by apply H).
  - by rewrite bool_decide_eq_true_2.
Qed.

Lemma newEntry_sumMatchesTotal (k : string) : sumMatchesTotal (newEntry k).
Proof.
  exists 0%Qc. unfold categorySum, categoryFields, newEntry. split.
  - rewrite (delete_id _ "total"%string) by (by apply lookup_singleton_ne).
    rewrite delete_singleton_eq. reflexivity.
  - rewrite lookup_singleton_ne by done. reflexivity.
Qed.

Lemma bumpEntry_sumMatchesTotal (tx : Transaction) (e : gmap string value) :
  plainTx tx -> sumMatchesTotal e -> sumMatchesTotal (bumpEntry tx e).
Proof.
  intros (Hn & Ht & Hi & Ha) (t & Hsum & Htot).
  destruct (tx_amount tx) as [|q] eqn:Hq; [done|].
  unfold bumpEntry. rewrite (addTo_own "total") by apply not_inherited_total.
  rewrite addTo_own by done. rewrite Hq. cbn [abs].
  set (a := Qcabs q). set (c := tx_category tx) in *.
  rewrite (lookup_insert_ne _ c "total"%string) by done. rewrite Htot.
  cbn [plus plusValue add].
  assert (Hcat : exists c0 r : Qc,
             orZero (e !! c) = VNum (Num c0) /\
             fieldSum (delete c (categoryFields e)) = Num r /\ (c0 + r = t)%Qc).
  { unfold categorySum in Hsum. fold (fieldSum (categoryFields e)) in Hsum.
    assert (Hlk : categoryFields e !! c = e !! c).
    { unfold categoryFields. by rewrite !lookup_delete_ne. }
    destruct (e !! c) as [v|] eqn:Hv.
    - rewrite (fieldSum_delete _ c v) in Hsum by done.
      destruct v as [[|qv]|ps|k']; try done.
      destruct (fieldSum (delete c (categoryFields e))) as [|r]; [done|].
      exists qv, r. rewrite orZero_finite. split_and!; try done.
      by injection Hsum.
    - exists 0%Qc, t. split_and!; try done.
      + by rewrite delete_id.
      + ring. }
  destruct Hcat as (c0 & r & -> & Hr & Hc0r). cbn [plus plusValue add].
  exists (t + a)%Qc. split.
  - unfold categorySum, categoryFields.
    rewrite delete_insert_eq.
    rewrite (delete_insert_ne _ "total"%string c), (delete_insert_ne _ "name"%string c)
      by done.
    fold (categoryFields e). fold (fieldSum (<[c:=VNum (Num (c0 + a))]> (categoryFields e))).
    rewrite fieldSum_update, Hr. cbn [valueNum add]. f_equal.
    rewrite <- Hc0r. ring.
  - rewrite lookup_insert_eq. apply orZero_finite.
Qed.

Lemma entryOf_sumMatchesTotal (formatLabel : time -> string)
  (txs : list Transaction) (k : string) :
  Forall plainTx txs -> sumMatchesTotal (entryOf formatLabel txs k).
Proof.
  intros Hp. unfold entryOf.
  generalize (newEntry_sumMatchesTotal k). generalize (newEntry k) as e0.
  induction Hp as [|tx txs Htx Hp IH]; intros e0 He0; simpl; [done|].
  apply IH. destruct (decide (labelOf formatLabel tx = Some k)); [|done].
  by apply bumpEntry_sumMatchesTotal.
Qed.

(** The invariant the update aims at: when no relevant transaction uses
    [name], [total] or a name of [Object.prototype] as its category and
    their amounts are numbers, each entry's per-category totals sum to its
    total (an absent total reading as 0). *)
Lemma relevant_category_sum_is_total (period : Period) (now : time)
  (dateOffset : Z) (sorted : list Transaction) (s en : time)
  (pts : list time) (f : time -> string) (e : gmap string value) :
  resolvePeriod period now dateOffset = Some (s, en, pts, f) ->
  (forall tx, tx ∈ sorted -> isRelevant s en tx = true -> plainTx tx) ->
  e ∈ spendingChartData period now dateOffset sorted ->
  sumMatchesTotal e.
Proof.
  intros Hr Hp He.
  rewrite (spendingChartData_closed _ _ _ _ _ _ _ _ Hr) in He.
  apply list_elem_of_fmap in He as (k & -> & _).
  apply entryOf_sumMatchesTotal.
  apply Forall_forall. intros tx [Hrel Htx]%list_elem_of_filter.
  by apply Hp.
Qed.

Lemma category_sum_is_total (period : Period) (now : time) (dateOffset : Z)
  (sorted : list Transaction) (e : gmap string value) :
  Forall plainTx sorted ->
  e ∈ spendingChartData period now dateOffset sorted ->
  sumMatchesTotal e.
Proof.
  intros Hp He.
  destruct (resolvePeriod period now dateOffset) as [[[[s en] pts] f]|] eqn:Hr.
  - eapply relevant_category_sum_is_total; [exact Hr| |exact He].
    intros tx Htx _. by apply (proj1 (Forall_forall _ _) Hp).
  - unfold spendingChartData in He. rewrite Hr in He. by apply elem_of_nil in He.
Qed.

End SumFacts.

(** ** Monthly flow *)

Section FlowFacts.
Import Statistics.
Context {lib : DateLib}.

Lemma seedFlow_tabulate (points : list time) (ks : list string) :
  fold_left (fun m p => mapSet (formatMMM p) (FlowEntry (formatMMM p) zero zero zero) m)
            points (tabulate (fun k => FlowEntry k zero zero zero) ks)
  = tabulate (fun k => FlowEntry k zero zero zero)
      (fold_left (fun ks k => if decide (k ∈ ks) then ks else ks ++ [k])
                 (map formatMMM points) ks).
Proof.
  revert ks. induction points as [|p pts IH]; intros ks; simpl; [done|].
  rewrite (mapSet_tabulate_new (fun k => FlowEntry k zero zero zero)). apply IH.
Qed.

Lemma flowStep_thrown (txs : list Transaction) : fold_left flowStep txs None = None.
Proof. induction txs; simpl; auto. Qed.

Lemma flowFold_tabulate (txs : list Transaction) (g : string -> flowEntry)
  (ks : list string) :
  NoDup ks ->
  Forall (fun tx => is_Some (dateParse (tx_date tx))) txs ->
  fold_left flowStep txs (Some (tabulate g ks))
  = Some (tabulate (fun k => fold_left
                      (fun e tx => if decide (labelOf formatMMM tx = Some k)
                                   then bumpFlow tx e else e) txs (g k)) ks).
Proof.
  intros Hnd Hv. revert g. induction Hv as [|tx txs [d Hd] Hv IH]; intros g; [done|].
  cbn [fold_left]. unfold flowStep at 2. rewrite Hd, mapGet_tabulate.
  destruct (decide (formatMMM d ∈ ks)) as [Hin|Hin].
  - rewrite mapSet_tabulate_in by done. rewrite IH. f_equal.
    unfold tabulate. apply map_ext. intros k. f_equal.
    unfold labelOf. rewrite Hd. cbn [fmap option_fmap option_map].
    destruct (decide (k = formatMMM d)) as [->|Hne].
    + by rewrite decide_True.
    + rewrite decide_False; [done|]. intros [= H]. done.
  - rewrite IH. f_equal. unfold tabulate. apply map_ext_in.
    intros k Hk%list_elem_of_In. f_equal.
    unfold labelOf. rewrite Hd. cbn [fmap option_fmap option_map].
    rewrite decide_False; [done|]. intros [= H]. by subst.
Qed.

(** The flow data in closed form.  The entry of a month is fed by every
    transaction whose date formats to that month's label; the year of the
    date takes no part. *)
Lemma flowOverTimeData_closed (now : time) (sorted : list Transaction) :
  Forall (fun tx => is_Some (dateParse (tx_date tx))) sorted ->
  flowOverTimeData now sorted
  = Some (map (flowEntryOf sorted)
            (axisLabels (map formatMMM
               (eachMonthOfInterval (startOfYear now) (endOfYear now))))).
Proof.
  intros Hv. unfold flowOverTimeData, seedFlowMap.
  rewrite (seedFlow_tabulate _ []).
  rewrite flowFold_tabulate by (apply axisLabels_NoDup || done).
  cbn [option_map]. unfold tabulate. by rewrite map_map.
Qed.

(** An Invalid Date anywhere in the list makes [format] throw. *)
Lemma flowOverTimeData_throws (now : time) (sorted : list Transaction) (tx : Transaction) :
  tx ∈ sorted -> dateParse (tx_date tx) = None ->
  flowOverTimeData now sorted = None.
Proof.
  intros Hin Hd. unfold flowOverTimeData.
  generalize (Some (seedFlowMap now)) as m.
  induction sorted as [|x l IH]; intros m; [by apply elem_of_nil in Hin|].
  apply elem_of_cons in Hin as [<-|Hin]; cbn [fold_left].
  - assert (flowStep m tx = None) as ->.
    { unfold flowStep. destruct m; [by rewrite Hd|done]. }
    by rewrite flowStep_thrown.
  - by apply IH.
Qed.

(** Each update changes one field, chosen by the type. *)
Lemma bumpFlow_one_field (curr : Transaction) (e : flowEntry) :
  flow_name (bumpFlow curr e) = flow_name e /\
  match tx_type curr with
  | income =>
      flow_income (bumpFlow curr e) = add (flow_income e) (tx_amount curr) /\
      flow_expense (bumpFlow curr e) = flow_expense e /\
      flow_investment (bumpFlow curr e) = flow_investment e
  | expense =>
      flow_income (bumpFlow curr e) = flow_income e /\
      flow_expense (bumpFlow curr e) = add (flow_expense e) (abs (tx_amount curr)) /\
      flow_investment (bumpFlow curr e) = flow_investment e
  | investment =>
      flow_income (bumpFlow curr e) = flow_income e /\
      flow_expense (bumpFlow curr e) = flow_expense e /\
      flow_investment (bumpFlow curr e)
        = add (flow_investment e) (abs (tx_amount curr))
  end.
Proof. unfold bumpFlow. destruct (tx_type curr); done. Qed.

End FlowFacts.

(** ** The UTC calendar: the week axis *)

Lemma utc_week_first_day (w : time) :
  dayOf (utc_startOfWeek w) = dayOf w - weekdayOf w.
Proof. unfold utc_startOfWeek, dayOf at 1. apply Z.div_mul. done. Qed.

Lemma utc_week_last_day (w : time) :
  dayOf (utc_endOfWeek w) = dayOf w - weekdayOf w + 6.
Proof.
  unfold utc_endOfWeek, dayOf at 1, msPerDay.
  generalize (dayOf w - weekdayOf w) as x. intros x.
  symmetry. apply (Z.div_unique _ _ _ 86399999); lia.
Qed.

Lemma utc_weekday_in_week (w : time) (k : Z) :
  0 <= k < 7 ->
  weekdayOf ((dayOf w - weekdayOf w + k) * msPerDay) = k.
Proof.
  intros Hk. unfold weekdayOf at 1. unfold dayOf at 1.
  rewrite Z.div_mul by done. unfold weekdayOf.
  generalize (dayOf w) as d. intros d.
  pose proof (Z.mod_pos_bound (d + 4) 7 ltac:(lia)) as Hb.
  pose proof (Z.div_mod (d + 4) 7 ltac:(lia)) as Hd.
  symmetry. apply (Z.mod_unique _ _ ((d + 4) / 7)); lia.
Qed.

(** Under the UTC calendar the week axis is Sunday to Saturday, whatever the
    current date and the offset. *)
Lemma utc_week_axis (w : time) :
  map utc_formatEEE (utc_eachDayOfInterval (utc_startOfWeek w) (utc_endOfWeek w))
  = weekdayNames.
Proof.
  unfold utc_eachDayOfInterval.
  rewrite utc_week_last_day, utc_week_first_day.
  replace (dayOf w - weekdayOf w + 6 - (dayOf w - weekdayOf w) + 1) with 7 by lia.
  change (seq 0 (Z.to_nat 7)) with [0; 1; 2; 3; 4; 5; 6]%nat.
  unfold utc_formatEEE. cbn [map].
  change (Z.of_nat 0) with 0. change (Z.of_nat 1) with 1.
  change (Z.of_nat 2) with 2. change (Z.of_nat 3) with 3.
  change (Z.of_nat 4) with 4. change (Z.of_nat 5) with 5.
  change (Z.of_nat 6) with 6.
  rewrite !utc_weekday_in_week by lia.
  reflexivity.
Qed.

(** The Week scenario: with no transactions the chart has the seven weekday
    entries, each the bare [{ name }] object. *)
Corollary utc_week_without_transactions (now : time) (dateOffset : Z) :
  Statistics.spendingChartData (lib:=utc) Statistics.W now dateOffset []
  = map Statistics.newEntry weekdayNames.
Proof.
  rewrite (spendingChartData_closed (lib:=utc) Statistics.W now dateOffset []
             _ _ _ _ eq_refl).
  cbn [formatEEE eachDayOfInterval startOfWeek endOfWeek addWeeks utc].
  rewrite utc_week_axis. reflexivity.
Qed.

(** ** The caller's array is left as it was *)

Section StoreFacts.
Import Statistics Store.
Context {lib : DateLib} {engine : SortEngine}.

(** C10: computing the three series leaves the caller's array, and every
    other array already in the store, as it was: the sort runs on a fresh
    copy.  The series are those of the sorted contents. *)
Theorem computeSeries_leaves_input (h : gmap nat (list Transaction))
  (transactions : ref) (l : list Transaction)
  (period : Period) (dateOffset : Z) (now : time) :
  h !! transactions = Some l ->
  let '(result, h') := computeSeries transactions period dateOffset now h in
  h' !! transactions = Some l /\
  (forall r : ref, is_Some (h !! r) -> h' !! r = h !! r) /\
  result = Series (netAssetData (sortedTransactions l))
                  (spendingChartData period now dateOffset (sortedTransactions l))
                  (flowOverTimeData now (sortedTransactions l)).
Proof.
  intros Hl.
  unfold computeSeries, sortedTransactionsRef, bind, spread, sortInPlace,
    contents, ret.
  rewrite Hl. cbn [default].
  set (c := fresh (dom h)).
  assert (Hc : h !! c = None).
  { apply not_elem_of_dom. apply is_fresh. }
  assert (Hother : forall r : ref, is_Some (h !! r) ->
            alter engineSort c (<[c:=l]> h) !! r = h !! r).
  { intros r [x Hr]. assert (c <> r) by (intros ->; congruence).
    by rewrite lookup_alter_ne, lookup_insert_ne. }
  split_and!.
  - rewrite Hother by eauto. done.
  - done.
  - rewrite lookup_alter_eq, lookup_insert_eq. reflexivity.
Qed.

End StoreFacts.

(** ** The chat-completion call *)

Section OpenRouterFacts.
Import OpenRouter.

(** C8: when the API key is absent (unset, or empty) the call throws at once
    and causes no event, so no request is sent; and with a key, when [fetch]
    resolves to a response whose status is outside 200-299, the call throws:
    the API error built from the status and the body text, or whatever
    reading the body text rejected with. *)
Theorem callOpenRouter_failures (w : World) (msgs : list OpenRouterMessage)
  (options : Options) :
  (keyMissing (apiKey w) = true ->
     callOpenRouter w msgs options = ([], Throws KeyNotConfigured)) /\
  (apiKey w = None -> keyMissing (apiKey w) = true) /\
  (forall response : HttpResponse,
     keyMissing (apiKey w) = false ->
     (forall call, fetch w call = Returns response) ->
     ok response = false ->
     exists e : Error,
       snd (callOpenRouter w msgs options) = Throws e /\
       (forall errorText, text response = Returns errorText ->
                          e = ApiError (status response) errorText) /\
       (forall e', text response = Throws e' -> e = e')).
Proof.
  split_and!.
  - intros Hk. unfold callOpenRouter. by rewrite Hk.
  - by intros ->.
  - intros response Hk Hf Hok. unfold callOpenRouter.
    rewrite Hk, Hf, Hok. cbn [negb].
    destruct (text response) as [e|errorText]; cbn [snd].
    + exists e. split_and!; congruence.
    + exists (ApiError (status response) errorText). split_and!; congruence.
Qed.

(** Any failure after the key check is logged and rethrown. *)
Lemma callOpenRouter_throws_or_fetches (w : World) (msgs : list OpenRouterMessage)
  (options : Options) (e : Error) :
  snd (callOpenRouter w msgs options) = Throws e ->
  fst (callOpenRouter w msgs options) = [] /\ e = KeyNotConfigured \/
  exists call, fst (callOpenRouter w msgs options)
               = [Fetched call; ConsoleError "OpenRouter API call failed:" e].
Proof.
  unfold callOpenRouter. destruct (keyMissing (apiKey w)).
  - intros [= <-]. by left.
  - destruct (fetch w _) as [e1|response]; cbn [snd fst].
    + intros [= <-]. right. eauto.
    + destruct (negb (ok response)).
      * destruct (text response); cbn [snd fst]; intros [= <-]; right; eauto.
      * destruct (json response); cbn [snd fst]; [|done].
        intros [= <-]. right. eauto.
Qed.

End OpenRouterFacts.

(** ** The processing flag *)

Section AiToolsFacts.
Import OpenRouter AiTools.

Lemma finally_clears_flag {A : Type} (body : M A) (handler : Error -> M A)
  (s : State) :
  isProcessing (snd (tryCatchFinally body handler (setIsProcessing false) s))
  = false.
Proof.
  unfold tryCatchFinally.
  destruct (body s) as [[e|a] s1].
  - destruct (handler e s1) as [r s2]. reflexivity.
  - reflexivity.
Qed.

Lemma set_then_finally {A : Type} (body : M A) (handler : Error -> M A)
  (s : State) :
  isProcessing
    (snd (bind (setIsProcessing true)
               (fun _ => tryCatchFinally body handler (setIsProcessing false)) s))
  = false.
Proof. unfold bind. cbn [setIsProcessing]. apply finally_clears_flag. Qed.

Lemma notification_keeps_flag (msg : string) (s : State) :
  isProcessing (snd (onShowNotification msg s)) = isProcessing s.
Proof. reflexivity. Qed.

(** C9: each of the three handlers either returns before touching the flag
    (its guard: no transactions, a blank statement, a blank question),
    leaving it as it was, or sets it and then ends with the flag cleared,
    whatever the API call, the JSON parse and the response shape turn out
    to be. *)
Theorem processing_flag_cleared (env : Env) (transactions : list Transaction)
  (incomeCategories expenseCategories investmentCategories : list string)
  (s : State) :
  isProcessing (snd (handleAnalyzeTransactions env transactions incomeCategories
                       expenseCategories investmentCategories s))
    = (if decide (length transactions = 0%nat) then isProcessing s else false) /\
  isProcessing (snd (handleParseStatement env s))
    = (if blank (statementText s) then isProcessing s else false) /\
  isProcessing (snd (handleAskQuestion env transactions s))
    = (if blank (aiQuery s) then isProcessing s else false).
Proof.
  split_and!.
  - unfold handleAnalyzeTransactions.
    destruct (decide (length transactions = 0%nat)); [reflexivity|].
    apply set_then_finally.
  - unfold handleParseStatement, bind at 1, get.
    destruct (blank (statementText s)); [reflexivity|].
    apply set_then_finally.
  - unfold handleAskQuestion, bind at 1, get.
    destruct (blank (aiQuery s)); [reflexivity|].
    apply set_then_finally.
Qed.

(** No handler lets an exception escape: the catch block handles it. *)
Lemma handlers_return (env : Env) (transactions : list Transaction)
  (incomeCategories expenseCategories investmentCategories : list string)
  (s : State) :
  fst (handleAnalyzeTransactions env transactions incomeCategories
         expenseCategories investmentCategories s) = Returns tt /\
  fst (handleParseStatement env s) = Returns tt /\
  fst (handleAskQuestion env transactions s) = Returns tt.
Proof.
  split_and!.
  - unfold handleAnalyzeTransactions.
    destruct (decide (length transactions = 0%nat)); [reflexivity|].
    unfold bind at 1. cbn [setIsProcessing]. unfold tryCatchFinally.
    match goal with |- context [bind ?m ?k ?st] => destruct (bind m k st) as [[e|[]] s1] end;
      reflexivity.
  - unfold handleParseStatement, bind at 1, get.
    destruct (blank (statementText s)); [reflexivity|].
    unfold bind at 1. cbn [setIsProcessing]. unfold tryCatchFinally.
    match goal with |- context [bind ?m ?k ?st] => destruct (bind m k st) as [[e|[]] s1] end;
      reflexivity.
  - unfold handleAskQuestion, bind at 1, get.
    destruct (blank (aiQuery s)); [reflexivity|].
    unfold bind at 1. cbn [setIsProcessing]. unfold tryCatchFinally.
    match goal with |- context [bind ?m ?k ?st] => destruct (bind m k st) as [[e|[]] s1] end;
      reflexivity.
Qed.

End AiToolsFacts.

(** ** Sample runs *)

Section SampleRuns.
Import Statistics Samples.

Example now0_is_a_Wednesday :
  utc_dateParse "2024-06-12" = Some now0 /\ utc_formatEEE now0 = "Wed"%string /\
  civilFromDays (dayOf now0) = (2024, 6, 12).
Proof. split_and!; reflexivity. Qed.

(** A transaction whose amount is NaN gets no point in either series: one
    input transaction, no points. *)
Lemma netAssetData_skips_NaN :
  netAssetData (sortedTransactions (lib:=utc) [txNaN]) = ([], []) /\
  length [txNaN] = 1%nat.
Proof. split; reflexivity. Qed.

(** On an array with an invalid date the order is the engine's: the two
    engines above return different permutations of it. *)
Example engines_differ_on_invalid_date :
  let bad := mkTx "t9" "last Tuesday" (amt (-5)) "Food" expense None in
  sortedTransactions (lib:=utc) (engine:=stableEngine) [bad; txFood; txSalary]
    = [bad; txSalary; txFood] /\
  sortedTransactions (lib:=utc) (engine:=lazyEngine) [bad; txFood; txSalary]
    = [bad; txFood; txSalary] /\
  sortedTransactions (lib:=utc) (engine:=lazyEngine) [txFood; txSalary]
    = sortedTransactions (lib:=utc) (engine:=stableEngine) [txFood; txSalary].
Proof. split_and!; reflexivity. Qed.

(** A mixed list: three transactions with amounts and one without give
    three points per series, in date order. *)
Example netAssetData_mixed :
  netAssetData (sortedTransactions (lib:=utc) [txFood; txNaN; txFund; txSalary])
  = ([Point "2024-06-03" (amt 2000); Point "2024-06-05" (amt 2000);
      Point "2024-06-12" (amt 1970)],
     [Point "2024-06-03" (amt 0); Point "2024-06-05" (amt 500);
      Point "2024-06-12" (amt 500)]).
Proof. compute_done. Qed.

(** In the week of [now0], with no transactions, no entry stores a total:
    the field is absent, not 0. *)
Lemma empty_week_has_no_total_field :
  map (fun e : gmap string value => e !! "total"%string)
      (spendingChartData (lib:=utc) W now0 0 [])
  = replicate 7 None.
Proof. compute_done. Qed.

(** The month axes at [now0]: January to June for 6M, the twelve months
    for Y. *)
Example month_axes_at_now0 :
  spendingChartData (lib:=utc) SixM now0 0 []
    = map newEntry ["Jan"; "Feb"; "Mar"; "Apr"; "May"; "Jun"]%string /\
  spendingChartData (lib:=utc) Y now0 0 [] = map newEntry monthNames /\
  spendingChartData (lib:=utc) M now0 0 [txFood] = [].
Proof. split_and!; compute_done. Qed.

Lemma empty_buckets_stay_witness :
  resolvePeriod (lib:=utc) W now0 0
    = Some (utc_startOfWeek now0, utc_endOfWeek now0,
            utc_eachDayOfInterval (utc_startOfWeek now0) (utc_endOfWeek now0),
            utc_formatEEE) /\
  let labels := axisLabels
      (map utc_formatEEE
         (utc_eachDayOfInterval (utc_startOfWeek now0) (utc_endOfWeek now0))) in
  let out := spendingChartData (lib:=utc) W now0 0 [txFood] in
  NoDup labels /\
  (forall p, p ∈ utc_eachDayOfInterval (utc_startOfWeek now0) (utc_endOfWeek now0) ->
             utc_formatEEE p ∈ labels) /\
  length out = length labels /\
  (forall (i : nat) (k : string),
     labels !! i = Some k ->
     (forall tx, tx ∈ [txFood] ->
        isRelevant (lib:=utc) (utc_startOfWeek now0) (utc_endOfWeek now0) tx = true ->
        labelOf (lib:=utc) utc_formatEEE tx <> Some k) ->
     out !! i = Some (newEntry k)) /\
  (forall k : string,
     newEntry k !! "name"%string = Some (VStr k []) /\
     newEntry k !! "total"%string = None /\
     forall field : string, field <> "name"%string ->
       newEntry k !! field = None /\
       (~ inherited field -> orZero (readProp (newEntry k) field) = VNum zero)).
Proof.
  split; [reflexivity|].
  apply (empty_buckets_stay (lib:=utc) W now0 0 [txFood] _ _ _ _ eq_refl).
Defined.

(** C1 at a failing input: two expenses on the Wednesday of the current
    week, 50 in a category named [total] and 30 in [Food].  The first
    assignment of the update stores 50 under the key [total], the second
    reads that 50 back as the running total and stores 100; after the second
    transaction the entry is [{ name: 'Wed', Food: 30, total: 130 }].  The
    per-category totals stored in the bucket sum to 30 (to 160 if the field
    [total] is itself counted as the category of that name), the total field
    is 130, and 80 was spent. *)
Theorem category_named_total_breaks_sum :
  spendingChartData (lib:=utc) W now0 0
    (sortedTransactions (lib:=utc) [txTotal; txFood]) !! 3%nat
  = Some {[ "name"%string := VStr "Wed" [];
            "Food"%string := VNum (amt 30);
            "total"%string := VNum (amt 130) ]}
  /\ categorySum {[ "name"%string := VStr "Wed" [];
                    "Food"%string := VNum (amt 30);
                    "total"%string := VNum (amt 130) ]} = amt 30
  /\ add (abs (tx_amount txTotal)) (abs (tx_amount txFood)) = amt 80.
Proof. split_and!; compute_done. Qed.

(** The same week without the reserved name: the sum of the categories is
    the total. *)
Example ordinary_categories_sum_to_total :
  spendingChartData (lib:=utc) W now0 0
    (sortedTransactions (lib:=utc) [txFood; txFood]) !! 3%nat
  = Some {[ "name"%string := VStr "Wed" [];
            "Food"%string := VNum (amt 60);
            "total"%string := VNum (amt 60) ]}.
Proof. compute_done. Qed.

(** C3 at a failing input: with the current date in June 2024, an income
    dated 2020-03-15 is added to the March entry of the current year. *)
Theorem flow_counts_other_years :
  option_map (fun l => l !! 2%nat)
    (flowOverTimeData (lib:=utc) now0 (sortedTransactions (lib:=utc) [txOldSalary]))
  = Some (Some (FlowEntry "Mar" (amt 100) (amt 0) (amt 0)))
  /\ option_map yearOf (utc_dateParse (tx_date txOldSalary)) = Some 2020
  /\ yearOf now0 = 2024.
Proof. split_and!; compute_done. Qed.

(** The seeding of the flow map: twelve zeroed month entries. *)
Example flow_seeds_twelve_months :
  flowOverTimeData (lib:=utc) now0 []
  = Some (map (fun m => FlowEntry m (amt 0) (amt 0) (amt 0)) monthNames).
Proof. compute_done. Qed.

(** Inside the current year each transaction feeds one field of its month. *)
Example flow_current_year :
  option_map (fun l => l !! 5%nat)
    (flowOverTimeData (lib:=utc) now0
       (sortedTransactions (lib:=utc) [txFood; txFund; txSalary]))
  = Some (Some (FlowEntry "Jun" (amt 2000) (amt 30) (amt 500))).
Proof. compute_done. Qed.

Lemma computeSeries_leaves_input_witness :
  store0 !! 0%nat = Some [txFood; txSalary] /\
  let '(result, h') := Store.computeSeries (lib:=utc) 0%nat W 0 now0 store0 in
  h' !! 0%nat = Some [txFood; txSalary] /\
  (forall r : Store.ref, is_Some (store0 !! r) -> h' !! r = store0 !! r) /\
  result = Store.Series
             (netAssetData (sortedTransactions (lib:=utc) [txFood; txSalary]))
             (spendingChartData (lib:=utc) W now0 0
                (sortedTransactions (lib:=utc) [txFood; txSalary]))
             (flowOverTimeData (lib:=utc) now0
                (sortedTransactions (lib:=utc) [txFood; txSalary])).
Proof.
  split; [reflexivity|].
  apply (computeSeries_leaves_input (lib:=utc) store0 0%nat [txFood; txSalary]
           W 0 now0).
  reflexivity.
Defined.

(** The copy is what protects the caller: the same sort applied to the
    array itself reorders it. *)
Example sort_without_copy_reorders :
  snd (Store.sortedWithoutCopy (lib:=utc) 0%nat store0) !! 0%nat
    = Some [txSalary; txFood] /\
  snd (Store.sortedTransactionsRef (lib:=utc) 0%nat store0) !! 0%nat
    = Some [txFood; txSalary] /\
  snd (Store.sortedTransactionsRef (lib:=utc) 0%nat store0) !! 1%nat
    = Some [txSalary; txFood].
Proof. split_and!; compute_done. Qed.

Lemma callOpenRouter_failures_witness :
  OpenRouter.callOpenRouter worldNoKey [] OpenRouter.noOptions
    = ([], OpenRouter.Throws OpenRouter.KeyNotConfigured) /\
  snd (OpenRouter.callOpenRouter world401 [] OpenRouter.noOptions)
    = OpenRouter.Throws (OpenRouter.ApiError 401 "Unauthorized").
Proof.
  split.
  - apply (callOpenRouter_failures worldNoKey [] OpenRouter.noOptions).
    reflexivity.
  - destruct (callOpenRouter_failures world401 [] OpenRouter.noOptions)
      as (_ & _ & H).
    destruct (H (OpenRouter.Http 401 (OpenRouter.Returns "Unauthorized")
                   (OpenRouter.Throws (OpenRouter.Rejected "Unexpected token")))
                eq_refl (fun _ => eq_refl) eq_refl)
      as (e & He & Htext & _).
    rewrite He. f_equal. apply Htext. reflexivity.
Defined.

(** The request that is sent when a key is configured. *)
Example callOpenRouter_request :
  fst (OpenRouter.callOpenRouter (worldOk "Spend less.")
         [OpenRouter.Message OpenRouter.user (OpenRouter.Text "Hello")]
         OpenRouter.noOptions)
  = [OpenRouter.Fetched
       (OpenRouter.Fetch "https://openrouter.ai/api/v1/chat/completions"
          "sk-or-test" "http://localhost:3000/"
          (OpenRouter.Request "amazon/nova-2-lite-v1:free"
             [OpenRouter.Message OpenRouter.user (OpenRouter.Text "Hello")]
             (Num (Qc_of_Z 4000)) (Num (Q2Qc (7 # 10))) false))].
Proof. reflexivity. Qed.

(** The missing-key scenario: asking a question without an API key ends
    with the flag cleared, one notification, one console error and no
    request. *)
Example ask_without_key :
  let s := snd (AiTools.handleAskQuestion (envOf worldNoKey) [txFood] state0) in
  AiTools.isProcessing s = false /\
  AiTools.notifications s = ["Failed to get answer"%string] /\
  AiTools.events s
    = [OpenRouter.ConsoleError "AI query failed:" OpenRouter.KeyNotConfigured] /\
  AiTools.aiQuery s = AiTools.aiQuery state0.
Proof. split_and!; reflexivity. Qed.

(** A successful question: the answer is shown and the query is cleared. *)
Example ask_with_answer :
  let s := snd (AiTools.handleAskQuestion (envOf (worldOk "Spend less."))
                  [txFood] state0) in
  AiTools.isProcessing s = false /\
  AiTools.aiInsights s = "Spend less."%string /\
  AiTools.notifications s = ["Answer received"%string] /\
  AiTools.aiQuery s = EmptyString.
Proof. split_and!; reflexivity. Qed.

(** The statement scenario: one transaction in the response gives one
    extracted item with those fields. *)
Example parse_one_transaction :
  let s := snd (AiTools.handleParseStatement
                  (envOf (worldOk "one-dining-transaction")) state0) in
  AiTools.isProcessing s = false /\
  AiTools.notifications s = ["Found 1 transactions"%string] /\
  AiTools.statementText s = EmptyString /\
  AiTools.foundTransactions s
    = [AiTools.mkFound (now0, 0%nat)
         (Some (AiTools.JString "2024-01-05"))
         (Some (AiTools.JNumber (Num (Q2Qc (-25 # 2)))))
         (Some (AiTools.JString "Dining"))
         (Some (AiTools.JString "Cafe"))
         (Some (AiTools.JString "expense"))
         "PDF file"].
Proof. split_and!; reflexivity. Qed.

(** A response that is not JSON: the parse throws, the flag is cleared. *)
Example parse_malformed_response :
  let s := snd (AiTools.handleParseStatement
                  (envOf (worldOk "Sorry, I cannot help.")) state0) in
  AiTools.isProcessing s = false /\
  AiTools.notifications s = ["Failed to parse statement"%string] /\
  AiTools.foundTransactions s = [] /\
  AiTools.statementText s = AiTools.statementText state0.
Proof. split_and!; reflexivity. Qed.

End SampleRuns.

(* ===================================================================== *)
(** * Further vocabulary                                                  *)
(* ===================================================================== *)

Module SpecMore.
Import JS Calendar CalendarFields Types Statistics Spec.

(** The absolute rational amount of a transaction. *)
Definition absAmountQ (tx : Transaction) : Qc := Qcabs (amountQ tx).

(** The number a field of an entry reads as through [|| 0]. *)
Definition numOf (e : gmap string value) (c : string) : Qc :=
  match orZero (e !! c) with
  | VNum (Num q) => q
  | _ => 0%Qc
  end.

Section WithDates.
Context {lib : DateLib}.

(** The transactions of bucket [k]: the relevant ones whose date formats
    to [k]. *)
Definition bucketOf (formatLabel : time -> string) (s e : time) (k : string)
  (sorted : list Transaction) : list Transaction :=
  filter (fun tx => labelOf formatLabel tx = Some k)
         (filter (fun tx => isRelevant s e tx = true) sorted).

(** The transactions whose date formats to the month label [k]. *)
Definition monthOf' (k : string) (sorted : list Transaction) : list Transaction :=
  filter (fun tx => labelOf formatMMM tx = Some k) sorted.

End WithDates.

End SpecMore.

(* ===================================================================== *)
(** * Further results                                                     *)
(* ===================================================================== *)

(** ** The sorted copy *)

Section SortMore.
Import Statistics Samples.
Context {lib : DateLib} {engine : SortEngine}.

Lemma sortInsert_ties (x : Transaction) (l : list Transaction) (t : time) :
  filter (fun tx => dateParse (tx_date tx) = Some t) (sortInsert x l)
  = filter (fun tx => dateParse (tx_date tx) = Some t) (x :: l).
Proof.
  induction l as [|y l IH]; [done|]. cbn [sortInsert].
  destruct (sortsAfter x y) eqn:Hxy; [|done].
  rewrite filter_cons, IH, !filter_cons.
  unfold sortsAfter, compareByDate in Hxy.
  destruct (dateParse (tx_date x)) as [tx|]; [|done].
  destruct (dateParse (tx_date y)) as [ty|]; [|done].
  apply Z.ltb_lt in Hxy.
  repeat case_decide; simplify_eq; try done; lia.
Qed.

Lemma sortByDate_ties (l : list Transaction) (t : time) :
  filter (fun tx => dateParse (tx_date tx) = Some t) (sortByDate l)
  = filter (fun tx => dateParse (tx_date tx) = Some t) l.
Proof.
  induction l as [|x l IH]; [done|]. cbn [sortByDate].
  by rewrite sortInsert_ties, !filter_cons, IH.
Qed.

(** X1: when every date parses, the sorted copy holds exactly the
    transactions of the input (none lost, none duplicated), and
    transactions with the same date stay in the order they had in the
    input, whatever the engine. *)
Theorem sorted_copy_is_stable_permutation (transactions : list Transaction) :
  Forall (fun tx => is_Some (dateParse (tx_date tx))) transactions ->
  sortedTransactions transactions ≡ₚ transactions /\
  forall t : time,
    filter (fun tx => dateParse (tx_date tx) = Some t) (sortedTransactions transactions)
    = filter (fun tx => dateParse (tx_date tx) = Some t) transactions.
Proof.
  intros Hl. split; [apply sortedTransactions_perm|].
  intros t. unfold sortedTransactions.
  rewrite (engineSort_consistent _ Hl). apply sortByDate_ties.
Qed.

(** X2: when every date parses, the sorted copy is in ascending date order:
    each transaction is dated no later than all that follow it. *)
Theorem sorted_copy_is_ascending (transactions : list Transaction) :
  Forall (fun tx => is_Some (dateParse (tx_date tx))) transactions ->
  StronglySorted notLater (sortedTransactions transactions).
Proof. apply sortedTransactions_sorted. Qed.

End SortMore.

Lemma sorted_copy_is_stable_permutation_witness :
  Forall (fun tx => is_Some (utc_dateParse (tx_date tx)))
         [Samples.txFund; Samples.txFood; Samples.txFood; Samples.txSalary] /\
  Statistics.sortedTransactions (lib:=utc) (engine:=lazyEngine)
    [Samples.txFund; Samples.txFood; Samples.txFood; Samples.txSalary]
  ≡ₚ [Samples.txFund; Samples.txFood; Samples.txFood; Samples.txSalary] /\
  forall t : time,
    filter (fun tx => utc_dateParse (tx_date tx) = Some t)
      (Statistics.sortedTransactions (lib:=utc) (engine:=lazyEngine)
         [Samples.txFund; Samples.txFood; Samples.txFood; Samples.txSalary])
    = filter (fun tx => utc_dateParse (tx_date tx) = Some t)
        [Samples.txFund; Samples.txFood; Samples.txFood; Samples.txSalary].
Proof.
  assert (H : Forall (fun tx => is_Some (utc_dateParse (tx_date tx)))
                [Samples.txFund; Samples.txFood; Samples.txFood; Samples.txSalary]).
  { repeat constructor; by eexists. }
  split; [exact H|].
  exact (sorted_copy_is_stable_permutation (lib:=utc)
           (engine:=lazyEngine) _ H).
Defined.

Lemma sorted_copy_is_ascending_witness :
  Forall (fun tx => is_Some (utc_dateParse (tx_date tx)))
         [Samples.txFood; Samples.txFund; Samples.txSalary] /\
  StronglySorted (notLater (lib:=utc))
    (Statistics.sortedTransactions (lib:=utc)
       [Samples.txFood; Samples.txFund; Samples.txSalary]).
Proof.
  assert (H : Forall (fun tx => is_Some (utc_dateParse (tx_date tx)))
                [Samples.txFood; Samples.txFund; Samples.txSalary]).
  { repeat constructor; by eexists. }
  split; [exact H|].
  apply (sorted_copy_is_ascending (lib:=utc) _ H).
Defined.

(** ** The investment series *)

Section InvestmentMore.
Import Statistics.
Context {lib : DateLib} {engine : SortEngine}.

Lemma investmentDelta_nonneg (tx : Transaction) : (0 <= investmentDelta tx)%Qc.
Proof.
  unfold investmentDelta. destruct (tx_type tx); try done. apply Qcabs_nonneg.
Qed.

Lemma sumQc_app (l1 l2 : list Qc) : sumQc (l1 ++ l2) = (sumQc l1 + sumQc l2)%Qc.
Proof.
  induction l1 as [|q l1 IH]; simpl; [by rewrite Qcplus_0_l|].
  rewrite IH. ring.
Qed.

Lemma sumQc_nonneg (l : list Qc) : Forall (fun q => (0 <= q)%Qc) l -> (0 <= sumQc l)%Qc.
Proof.
  induction 1 as [|q l Hq Hl IH]; simpl; [done|].
  by apply Qcplus_nonneg_nonneg.
Qed.

Lemma runningPoints_lookup_inv (delta : Transaction -> Qc) (l : list Transaction)
  (b0 : Qc) (k : nat) (p : point) :
  runningPoints delta b0 l !! k = Some p ->
  exists tx, l !! k = Some tx /\
    p = Point (tx_date tx) (Num (b0 + sumQc (map delta (take (S k) l)))%Qc).
Proof.
  intros Hp.
  assert (Hk : (k < length l)%nat).
  { apply lookup_lt_Some in Hp. by rewrite runningPoints_length in Hp. }
  destruct (lookup_lt_is_Some_2 l k Hk) as [tx Htx].
  exists tx. split; [done|].
  rewrite (runningPoints_lookup _ _ _ _ _ Htx) in Hp. by injection Hp.
Qed.

(** X3: the investment balances are never negative and never decrease from
    one point to the next, whatever the signs of the amounts: each
    investment adds the absolute value of its amount. *)
Theorem investment_series_never_decreases (transactions : list Transaction)
  (k : nat) (p p' : point) :
  let investments := snd (netAssetData (sortedTransactions transactions)) in
  investments !! k = Some p -> investments !! S k = Some p' ->
  exists b b' : Qc,
    balance p = Num b /\ balance p' = Num b' /\ (0 <= b)%Qc /\ (b <= b')%Qc.
Proof.
  unfold netAssetData, zero. rewrite netAssetStep_fold.
  cbn [investmentData snd app].
  set (kept := filter hasAmount (sortedTransactions transactions)).
  intros (tx & Htx & ->)%runningPoints_lookup_inv
         (tx' & Htx' & ->)%runningPoints_lookup_inv.
  eexists _, _. split_and!; [reflexivity|reflexivity| |].
  - rewrite Qcplus_0_l. apply sumQc_nonneg, Forall_forall.
    intros q (y & -> & _)%list_elem_of_fmap. apply investmentDelta_nonneg.
  - rewrite (take_S_r _ _ _ Htx'), map_app, sumQc_app. cbn [map sumQc foldr].
    rewrite Qcplus_0_r, !Qcplus_0_l.
    rewrite <- (Qcplus_0_r (sumQc _)) at 1.
    apply Qcplus_le_mono_l, investmentDelta_nonneg.
Qed.

End InvestmentMore.

Lemma investment_series_never_decreases_witness :
  let investments :=
    snd (Statistics.netAssetData
           (Statistics.sortedTransactions (lib:=utc)
              [Samples.txFood; Samples.txFund; Samples.txSalary])) in
  investments !! 1%nat = Some (Statistics.Point "2024-06-05" (Samples.amt 500)) /\
  investments !! 2%nat = Some (Statistics.Point "2024-06-12" (Samples.amt 500)) /\
  exists b b' : Qc,
    Statistics.balance (Statistics.Point "2024-06-05" (Samples.amt 500)) = Num b /\
    Statistics.balance (Statistics.Point "2024-06-12" (Samples.amt 500)) = Num b' /\
    (0 <= b)%Qc /\ (b <= b')%Qc.
Proof.
  assert (H1 : snd (Statistics.netAssetData
           (Statistics.sortedTransactions (lib:=utc)
              [Samples.txFood; Samples.txFund; Samples.txSalary])) !! 1%nat
          = Some (Statistics.Point "2024-06-05" (Samples.amt 500))) by compute_done.
  assert (H2 : snd (Statistics.netAssetData
           (Statistics.sortedTransactions (lib:=utc)
              [Samples.txFood; Samples.txFund; Samples.txSalary])) !! 2%nat
          = Some (Statistics.Point "2024-06-12" (Samples.amt 500))) by compute_done.
  split_and!; [exact H1|exact H2|].
  exact (investment_series_never_decreases (lib:=utc) _ 1%nat _ _ H1 H2).
Defined.

(** ** Spending analysis: what each bucket holds *)

Section SpendingMore.
Import Statistics SpecMore.
Context {lib : DateLib}.

Lemma sumQc_map_if {A : Type} (P : A -> Prop) `{!forall x, Decision (P x)}
  (g : A -> Qc) (l : list A) :
  sumQc (map (fun x => if decide (P x) then g x else 0%Qc) l)
  = sumQc (map g (filter P l)).
Proof.
  induction l as [|x l IH]; [done|]. rewrite filter_cons. cbn [map sumQc foldr].
  fold (sumQc (map (fun x => if decide (P x) then g x else 0%Qc) l)). rewrite IH.
  destruct (decide (P x)); [done|]. by rewrite Qcplus_0_l.
Qed.

(** Every field but [name] reads as a number. *)
Definition numericEntry (k : string) (e : gmap string value) : Prop :=
  e !! "name"%string = Some (VStr k []) /\
  forall c : string, c <> "name"%string -> exists q : Qc, orZero (e !! c) = VNum (Num q).

Lemma numOf_numeric (e : gmap string value) (c : string) (q : Qc) :
  orZero (e !! c) = VNum (Num q) -> numOf e c = q.
Proof. unfold numOf. by intros ->. Qed.

Lemma newEntry_numeric (k : string) : numericEntry k (newEntry k).
Proof.
  split; [apply lookup_singleton_eq|].
  intros c Hc. exists 0%Qc. unfold newEntry. by rewrite lookup_singleton_ne.
Qed.

Lemma bumpEntry_numeric (k : string) (tx : Transaction) (e : gmap string value) :
  plainTx tx -> numericEntry k e ->
  numericEntry k (bumpEntry tx e) /\
  forall c : string, c <> "name"%string ->
    numOf (bumpEntry tx e) c
    = (numOf e c + (if decide (c = "total"%string \/ c = tx_category tx)
                    then absAmountQ tx else 0))%Qc.
Proof.
  intros (Hn & Ht & Hi & Ha) (Hname & Hnum).
  unfold absAmountQ, amountQ.
  destruct (tx_amount tx) as [|q] eqn:Hq; [done|].
  set (a := Qcabs q). set (tc := tx_category tx) in *.
  destruct (Hnum tc Hn) as (q0 & Hq0).
  destruct (Hnum "total"%string ltac:(done)) as (t0 & Ht0).
  assert (Hb : bumpEntry tx e
      = <["total"%string := VNum (Num (t0 + a))]> (<[tc := VNum (Num (q0 + a))]> e)).
  { unfold bumpEntry. rewrite (addTo_own "total") by apply not_inherited_total.
    rewrite addTo_own by done. fold tc. rewrite Hq. cbn [abs]. fold a.
    rewrite (lookup_insert_ne _ tc "total"%string) by done.
    rewrite Hq0, Ht0. reflexivity. }
  rewrite Hb. split; [split|].
  - by rewrite !lookup_insert_ne.
  - intros c Hc. destruct (decide (c = "total"%string)) as [->|Hct].
    { rewrite lookup_insert_eq, orZero_finite. eauto. }
    rewrite lookup_insert_ne by done.
    destruct (decide (c = tc)) as [->|Hctc].
    { rewrite lookup_insert_eq, orZero_finite. eauto. }
    rewrite lookup_insert_ne by done. by apply Hnum.
  - intros c Hc. destruct (decide (c = "total"%string)) as [->|Hct].
    { rewrite decide_True by (by left). unfold numOf at 1.
      rewrite lookup_insert_eq, orZero_finite.
      by rewrite (numOf_numeric _ _ _ Ht0). }
    destruct (decide (c = tc)) as [->|Hctc].
    { rewrite decide_True by (by right). unfold numOf at 1.
      rewrite lookup_insert_ne, lookup_insert_eq, orZero_finite by done.
      by rewrite (numOf_numeric _ _ _ Hq0). }
    rewrite decide_False by (intros [?|?]; done). unfold numOf.
    rewrite !lookup_insert_ne by done. by rewrite Qcplus_0_r.
Qed.

Lemma entryFold_numeric (formatLabel : time -> string) (k : string)
  (txs : list Transaction) (e0 : gmap string value) :
  Forall plainTx txs -> numericEntry k e0 ->
  let e := fold_left (fun e tx => if decide (labelOf formatLabel tx = Some k)
                                  then bumpEntry tx e else e) txs e0 in
  numericEntry k e /\
  forall c : string, c <> "name"%string ->
    numOf e c
    = (numOf e0 c
       + sumQc (map (fun tx =>
           if decide (labelOf formatLabel tx = Some k /\
                      (c = "total"%string \/ c = tx_category tx))
           then absAmountQ tx else 0) txs))%Qc.
Proof.
  intros Hp. revert e0. induction Hp as [|tx txs Htx Hp IH]; intros e0 He0.
  - cbn. split; [done|]. intros c _. by rewrite Qcplus_0_r.
  - cbn [fold_left map].
    assert (Hcons : forall q l, sumQc (q :: l) = (q + sumQc l)%Qc) by done.
    setoid_rewrite Hcons.
    destruct (decide (labelOf formatLabel tx = Some k)) as [Hl|Hl].
    + destruct (bumpEntry_numeric k tx e0 Htx He0) as [He1 Hn1].
      destruct (IH _ He1) as [He Hn]. split; [done|].
      intros c Hc. rewrite (Hn c Hc), (Hn1 c Hc).
      destruct (decide (c = "total"%string \/ c = tx_category tx)) as [Hc'|Hc'].
      * rewrite (decide_True (P:=_ /\ _)) by done. ring.
      * rewrite (decide_False (P:=_ /\ _)) by (intros [_ ?]; done). ring.
    + destruct (IH _ He0) as [He Hn]. split; [done|].
      intros c Hc. rewrite (Hn c Hc).
      rewrite (decide_False (P:=_ /\ _)) by (intros [? _]; done). ring.
Qed.

(** X4: when the relevant transactions have numeric amounts and none uses
    [name], [total] or a name of [Object.prototype] as its category, the
    entry of each bucket still carries its label, its total is the sum of
    the absolute amounts of the bucket's transactions, and the field of each
    category that [Object.prototype] does not name is the sum of the
    absolute amounts of the bucket's transactions of that category (fields
    read through [|| 0]). *)
Theorem bucket_fields_are_sums (period : Period) (now : time) (dateOffset : Z)
  (sorted : list Transaction) (s e : time) (dataPoints : list time)
  (formatLabel : time -> string) (i : nat) (k : string) :
  resolvePeriod period now dateOffset = Some (s, e, dataPoints, formatLabel) ->
  (forall tx, tx ∈ sorted -> isRelevant s e tx = true -> plainTx tx) ->
  axisLabels (map formatLabel dataPoints) !! i = Some k ->
  exists entry : gmap string value,
    spendingChartData period now dateOffset sorted !! i = Some entry /\
    readProp entry "name" = Some (VStr k []) /\
    orZero (readProp entry "total")
      = VNum (Num (sumQc (map absAmountQ (bucketOf formatLabel s e k sorted)))) /\
    forall c : string, c <> "name"%string -> c <> "total"%string ->
      ~ inherited c ->
      orZero (readProp entry c)
      = VNum (Num (sumQc (map absAmountQ
                     (filter (fun tx => tx_category tx = c)
                             (bucketOf formatLabel s e k sorted))))).
Proof.
  intros Hr Hplain Hk.
  rewrite (spendingChartData_closed _ _ _ _ _ _ _ _ Hr).
  change (map ?f ?l) with (fmap (M:=list) f l) at 1.
  rewrite list_lookup_fmap, Hk. cbn [fmap option_fmap option_map].
  eexists. split; [reflexivity|].
  set (txs := filter (fun tx => isRelevant s e tx = true) sorted).
  assert (Hp : Forall plainTx txs).
  { apply Forall_forall. intros tx [Hrel Hin]%list_elem_of_filter. by apply Hplain. }
  destruct (entryFold_numeric formatLabel k txs (newEntry k) Hp (newEntry_numeric k))
    as [[Hname Hnum] Hsum].
  fold (entryOf formatLabel txs k) in Hname, Hnum, Hsum.
  assert (Hzero : forall c, c <> "name"%string -> numOf (newEntry k) c = 0%Qc).
  { intros c Hc. unfold numOf, newEntry. by rewrite lookup_singleton_ne. }
  split_and!; [by rewrite readProp_own by apply not_inherited_name| |].
  - rewrite readProp_own by apply not_inherited_total.
    destruct (Hnum "total"%string ltac:(done)) as (q & Hq). rewrite Hq.
    do 2 f_equal. rewrite <- (numOf_numeric _ _ _ Hq), Hsum, Hzero by done.
    rewrite Qcplus_0_l, (sumQc_map_if _ absAmountQ). unfold bucketOf. fold txs.
    f_equal. f_equal. apply list_filter_iff. intros tx. split; [by intros [? _]|].
    intros ?. split; [done|by left].
  - intros c Hcn Hct Hci. rewrite readProp_own by done.
    destruct (Hnum c Hcn) as (q & Hq). rewrite Hq.
    do 2 f_equal. rewrite <- (numOf_numeric _ _ _ Hq), Hsum, Hzero by done.
    rewrite Qcplus_0_l, (sumQc_map_if _ absAmountQ). unfold bucketOf. fold txs.
    rewrite list_filter_filter. f_equal. f_equal. apply list_filter_iff.
    intros tx. split.
    + intros [? [?|?]]; done.
    + intros [? ?]. split; [done|by right].
Qed.

(** X5: under the same conditions on the relevant transactions, in every
    entry of the chart the per-category totals stored in the entry sum to
    the entry's total (an absent total reading as 0). *)
Theorem bucket_categories_sum_to_total (period : Period) (now : time)
  (dateOffset : Z) (sorted : list Transaction) (s e : time)
  (dataPoints : list time) (formatLabel : time -> string)
  (entry : gmap string value) :
  resolvePeriod period now dateOffset = Some (s, e, dataPoints, formatLabel) ->
  (forall tx, tx ∈ sorted -> isRelevant s e tx = true -> plainTx tx) ->
  entry ∈ spendingChartData period now dateOffset sorted ->
  exists t : Qc,
    categorySum entry = Num t /\ orZero (readProp entry "total") = VNum (Num t).
Proof.
  intros Hr Hplain He.
  rewrite readProp_own by apply not_inherited_total.
  by eapply relevant_category_sum_is_total.
Qed.

(** X6: an income, an investment, or a transaction whose date is empty or
    does not parse never changes the spending chart, wherever it stands in
    the list. *)
Theorem spending_chart_ignores_other_transactions (period : Period) (now : time)
  (dateOffset : Z) (before after : list Transaction) (tx : Transaction) :
  tx_type tx <> expense \/ tx_date tx = EmptyString \/ dateParse (tx_date tx) = None ->
  spendingChartData period now dateOffset (before ++ tx :: after)
  = spendingChartData period now dateOffset (before ++ after).
Proof.
  intros Htx. unfold spendingChartData.
  destruct (resolvePeriod period now dateOffset) as [[[[s e] pts] f]|]; [|done].
  assert (Hrel : isRelevant s e tx <> true).
  { unfold isRelevant. destruct (decide (tx_date tx = EmptyString)); [done|].
    destruct (dateParse (tx_date tx)) as [d|]; [|done].
    destruct Htx as [Ht|[?|?]]; try done.
    rewrite bool_decide_eq_false_2 by done.
    by rewrite andb_false_r. }
  by rewrite !filter_app, filter_cons, decide_False.
Qed.

End SpendingMore.

Section SpendingMoreRuns.
Import Statistics SpecMore Samples.

Lemma bucket_fields_are_sums_witness :
  exists entry : gmap string value,
    spendingChartData (lib:=utc) W now0 0 [txSalary; txFood; txFood] !! 3%nat
      = Some entry /\
    readProp entry "name" = Some (VStr "Wed" []) /\
    orZero (readProp entry "total")
      = VNum (Num (sumQc (map absAmountQ
           (bucketOf (lib:=utc) utc_formatEEE (utc_startOfWeek now0)
              (utc_endOfWeek now0) "Wed" [txSalary; txFood; txFood])))) /\
    forall c : string, c <> "name"%string -> c <> "total"%string ->
      ~ inherited c ->
      orZero (readProp entry c)
      = VNum (Num (sumQc (map absAmountQ
                     (filter (fun tx => tx_category tx = c)
                        (bucketOf (lib:=utc) utc_formatEEE (utc_startOfWeek now0)
                           (utc_endOfWeek now0) "Wed"
                           [txSalary; txFood; txFood]))))).
Proof.
  apply (bucket_fields_are_sums (lib:=utc) W now0 0 [txSalary; txFood; txFood]
           _ _ _ _ 3%nat "Wed" eq_refl).
  - intros tx Hin _.
    repeat (apply elem_of_cons in Hin as [->|Hin]);
      [| | |by apply elem_of_nil in Hin];
      (split_and!; [done|done|not_inherited|done]).
  - reflexivity.
Defined.

Lemma bucket_categories_sum_to_total_witness :
  exists t : Qc,
    categorySum {[ "name"%string := VStr "Wed" [];
                   "Food"%string := VNum (amt 60);
                   "total"%string := VNum (amt 60) ]} = Num t /\
    orZero (readProp ({[ "name"%string := VStr "Wed" [];
                         "Food"%string := VNum (amt 60);
                         "total"%string := VNum (amt 60) ]} : gmap string value)
              "total") = VNum (Num t).
Proof.
  apply (bucket_categories_sum_to_total (lib:=utc) W now0 0
           [txOldSalary; txFood; txFood] _ _ _ _ _ eq_refl).
  - intros tx Hin Hrel.
    repeat (apply elem_of_cons in Hin as [->|Hin]);
      [discriminate Hrel| | |by apply elem_of_nil in Hin];
      (split_and!; [done|done|not_inherited|done]).
  - apply list_elem_of_lookup. exists 3%nat. compute_done.
Defined.

Lemma spending_chart_ignores_other_transactions_witness :
  spendingChartData (lib:=utc) W now0 0 ([txFood] ++ txSalary :: [txFood])
  = spendingChartData (lib:=utc) W now0 0 ([txFood] ++ [txFood]).
Proof.
  apply (spending_chart_ignores_other_transactions (lib:=utc)).
  left. done.
Defined.

End SpendingMoreRuns.

(** ** Monthly flow: what each month holds *)

Section FlowMore.
Import Statistics SpecMore.
Context {lib : DateLib}.

Lemma flowFold_sums (k : string) (txs : list Transaction) (a b c : Qc) :
  Forall hasAmount txs ->
  fold_left (fun e tx => if decide (labelOf formatMMM tx = Some k)
                         then bumpFlow tx e else e)
            txs (FlowEntry k (Num a) (Num b) (Num c))
  = FlowEntry k
      (Num (a + sumQc (map (fun tx =>
          if decide (labelOf formatMMM tx = Some k /\ tx_type tx = income)
          then amountQ tx else 0) txs))%Qc)
      (Num (b + sumQc (map (fun tx =>
          if decide (labelOf formatMMM tx = Some k /\ tx_type tx = expense)
          then absAmountQ tx else 0) txs))%Qc)
      (Num (c + sumQc (map (fun tx =>
          if decide (labelOf formatMMM tx = Some k /\ tx_type tx = investment)
          then absAmountQ tx else 0) txs))%Qc).
Proof.
  intros Hp. revert a b c. induction Hp as [|tx txs Htx Hp IH]; intros a b c.
  - cbn. by rewrite !Qcplus_0_r.
  - cbn [fold_left map].
    assert (Hcons : forall q l, sumQc (q :: l) = (q + sumQc l)%Qc) by done.
    rewrite !Hcons.
    unfold hasAmount in Htx.
    destruct (decide (labelOf formatMMM tx = Some k)) as [Hl|Hl].
    + destruct (tx_amount tx) as [|q] eqn:Hq; [done|].
      assert (HaQ : amountQ tx = q) by (unfold amountQ; by rewrite Hq).
      assert (HabsQ : absAmountQ tx = Qcabs q) by (unfold absAmountQ; by rewrite HaQ).
      unfold bumpFlow. rewrite Hq, HaQ, HabsQ.
      destruct (tx_type tx) eqn:Hty;
        cbn [flow_name flow_income flow_expense flow_investment add abs];
        rewrite IH.
      * rewrite (decide_True (P:=_ /\ income = income)) by done.
        rewrite !(decide_False (P:=_ /\ _ = _)) by (intros [_ ?]; done).
        by rewrite !Qcplus_0_l, !Qcplus_assoc.
      * rewrite (decide_True (P:=_ /\ expense = expense)) by done.
        rewrite !(decide_False (P:=_ /\ _ = _)) by (intros [_ ?]; done).
        by rewrite !Qcplus_0_l, !Qcplus_assoc.
      * rewrite (decide_True (P:=_ /\ investment = investment)) by done.
        rewrite !(decide_False (P:=_ /\ _ = _)) by (intros [_ ?]; done).
        by rewrite !Qcplus_0_l, !Qcplus_assoc.
    + rewrite IH.
      rewrite !(decide_False (P:=_ /\ _)) by (intros [? _]; done).
      by rewrite !Qcplus_0_l.
Qed.

(** X7: when every date parses and every amount is a number, the flow data
    has one entry per month label of the current year's axis, and the
    entry of a label holds the sum of the amounts of the incomes, of the
    absolute amounts of the expenses and of the absolute amounts of the
    investments whose date formats to that label, the year of the date
    playing no part. *)
Theorem flow_entries_are_sums (now : time) (sorted : list Transaction) :
  Forall (fun tx => is_Some (dateParse (tx_date tx))) sorted ->
  Forall hasAmount sorted ->
  flowOverTimeData now sorted
  = Some (map (fun k =>
       FlowEntry k
         (Num (sumQc (map amountQ
            (filter (fun tx => tx_type tx = income) (monthOf' k sorted)))))
         (Num (sumQc (map absAmountQ
            (filter (fun tx => tx_type tx = expense) (monthOf' k sorted)))))
         (Num (sumQc (map absAmountQ
            (filter (fun tx => tx_type tx = investment) (monthOf' k sorted))))))
       (axisLabels (map formatMMM
          (eachMonthOfInterval (startOfYear now) (endOfYear now))))).
Proof.
  intros Hv Ha. rewrite (flowOverTimeData_closed _ _ Hv). f_equal.
  apply map_ext. intros k. unfold flowEntryOf, zero.
  rewrite (flowFold_sums k sorted _ _ _ Ha), !Qcplus_0_l.
  rewrite (sumQc_map_if _ amountQ), !(sumQc_map_if _ absAmountQ).
  unfold monthOf'. rewrite !list_filter_filter.
  f_equal; do 3 f_equal; apply list_filter_iff; intros tx; tauto.
Qed.

(** X8: one transaction whose date does not parse makes the whole flow
    computation throw (date-fns [format] rejects an Invalid Date), wherever
    it stands in the list. *)
Theorem flow_throws_on_invalid_date (now : time) (sorted : list Transaction)
  (tx : Transaction) :
  tx ∈ sorted -> dateParse (tx_date tx) = None ->
  flowOverTimeData now sorted = None.
Proof. apply flowOverTimeData_throws. Qed.

End FlowMore.

Section FlowMoreRuns.
Import Statistics SpecMore Samples.

Lemma flow_entries_are_sums_witness :
  flowOverTimeData (lib:=utc) now0 [txOldSalary; txSalary; txFund; txFood]
  = Some (map (fun k =>
       FlowEntry k
         (Num (sumQc (map amountQ
            (filter (fun tx => tx_type tx = income)
               (monthOf' (lib:=utc) k [txOldSalary; txSalary; txFund; txFood])))))
         (Num (sumQc (map absAmountQ
            (filter (fun tx => tx_type tx = expense)
               (monthOf' (lib:=utc) k [txOldSalary; txSalary; txFund; txFood])))))
         (Num (sumQc (map absAmountQ
            (filter (fun tx => tx_type tx = investment)
               (monthOf' (lib:=utc) k [txOldSalary; txSalary; txFund; txFood]))))))
       (axisLabels (map utc_formatMMM
          (utc_eachMonthOfInterval (utc_startOfYear now0) (utc_endOfYear now0))))).
Proof.
  apply (flow_entries_are_sums (lib:=utc) now0).
  - repeat constructor; by eexists.
  - repeat constructor.
Defined.

Lemma flow_throws_on_invalid_date_witness :
  flowOverTimeData (lib:=utc) now0
    [txSalary; mkTx "t9" "last Tuesday" (amt (-5)) "Food" expense None]
  = None.
Proof.
  apply (flow_throws_on_invalid_date (lib:=utc) now0 _
           (mkTx "t9" "last Tuesday" (amt (-5)) "Food" expense None)).
  - right. left.
  - reflexivity.
Defined.

End FlowMoreRuns.

(** ** Shades and category colours *)

Section ShadeMore.
Import Statistics Charts.

(** The alpha before the floor is applied: [1 - i * 0.1]. *)
Definition shadeFactor (i : Z) : Qc := (1 - Qc_of_Z i * Q2Qc (1 # 10))%Qc.

Lemma shadeFactor_strict (i j : Z) : i < j -> (shadeFactor j < shadeFactor i)%Qc.
Proof.
  intros Hij. unfold shadeFactor, Qcminus.
  apply Qcplus_lt_mono_l.
  assert (H : (Qc_of_Z i * Q2Qc (1 # 10) < Qc_of_Z j * Q2Qc (1 # 10))%Qc).
  { apply Qcmult_lt_mono_pos_r; [by vm_compute|].
    exact (proj1 (Z2Qc_inj_lt i j) Hij). }
  apply Qclt_minus_iff. rewrite Qcopp_involutive, Qcplus_comm.
  exact (proj1 (Qclt_minus_iff _ _) H).
Qed.

Lemma shadeFactor_8 : shadeFactor 8 = Q2Qc (2 # 10).
Proof. apply Qc_is_canon. reflexivity. Qed.

Lemma shadeAlpha_cases (i : Z) :
  shadeAlpha i = if decide (i <= 8) then shadeFactor i else Q2Qc (2 # 10).
Proof.
  unfold shadeAlpha. fold (shadeFactor i). unfold Qcmax.
  destruct (decide (i <= 8)) as [Hi|Hi].
  - destruct (decide (i = 8)) as [->|Hne].
    + rewrite shadeFactor_8. by rewrite decide_False by (by vm_compute).
    + rewrite decide_True; [done|].
      rewrite <- shadeFactor_8. apply shadeFactor_strict. lia.
  - rewrite decide_False; [done|].
    apply Qcle_not_lt, Qclt_le_weak. rewrite <- shadeFactor_8.
    apply shadeFactor_strict. lia.
Qed.

(** X9: the first nine shades have nine different alphas, falling from 1
    to 0.2 in steps of 0.1, and every shade after the ninth is equal to
    the ninth. *)
Theorem shades_distinct_then_equal (hexColor : string) (count : Z)
  (i j : nat) (s t : rgba) :
  let shades := generateShades hexColor count in
  shades !! i = Some s -> shades !! j = Some t -> (i < j)%nat ->
  ((j <= 8)%nat -> exists a a' : Qc,
      alpha s = Num a /\ alpha t = Num a' /\ (a' < a)%Qc /\
      a = shadeFactor (Z.of_nat i)) /\
  ((8 <= i)%nat -> s = t /\ alpha s = Num (Q2Qc (2 # 10))).
Proof.
  unfold generateShades. destruct (hexChannels hexColor) as [[r g] b].
  rewrite shadesFrom_closed. cbn [app].
  set (f := fun k : nat => Rgba r g b (Num (shadeAlpha (0 + Z.of_nat k)))).
  change (map f) with (fmap (M:=list) f). cbv zeta.
  rewrite !list_lookup_fmap.
  intros Hs Ht Hij.
  destruct (seq 0 (Z.to_nat count) !! i) as [i'|] eqn:Hi; [|done].
  destruct (seq 0 (Z.to_nat count) !! j) as [j'|] eqn:Hj; [|done].
  apply lookup_seq in Hi as [-> _]. apply lookup_seq in Hj as [-> _].
  cbn in Hs, Ht. injection Hs as <-. injection Ht as <-.
  unfold f. cbn [alpha]. rewrite !Z.add_0_l, !shadeAlpha_cases. split.
  - intros Hj8. rewrite !decide_True by lia.
    eexists _, _. split_and!; [reflexivity|reflexivity| |reflexivity].
    apply shadeFactor_strict. lia.
  - intros Hi8. destruct (decide (i = 8%nat)) as [->|Hne].
    + rewrite decide_True, decide_False by lia.
      change (Z.of_nat 8) with 8. by rewrite shadeFactor_8.
    + by rewrite !decide_False by lia.
Qed.

Lemma shades_distinct_then_equal_witness :
  (exists a a' : Qc,
      Num (Q2Qc (8 # 10)) = Num a /\ Num (Q2Qc (7 # 10)) = Num a' /\ (a' < a)%Qc /\
      a = shadeFactor (Z.of_nat 2)) /\
  (Rgba (Num (Qc_of_Z 239)) (Num (Qc_of_Z 68)) (Num (Qc_of_Z 68)) (Num (Q2Qc (2 # 10)))
   = Rgba (Num (Qc_of_Z 239)) (Num (Qc_of_Z 68)) (Num (Qc_of_Z 68)) (Num (Q2Qc (2 # 10)))
   /\ alpha (Rgba (Num (Qc_of_Z 239)) (Num (Qc_of_Z 68)) (Num (Qc_of_Z 68))
               (Num (Q2Qc (2 # 10)))) = Num (Q2Qc (2 # 10))).
Proof.
  assert (H2 : generateShades "#EF4444" 12 !! 2%nat
    = Some (Rgba (Num (Qc_of_Z 239)) (Num (Qc_of_Z 68)) (Num (Qc_of_Z 68))
              (Num (Q2Qc (8 # 10))))) by compute_done.
  assert (H3 : generateShades "#EF4444" 12 !! 3%nat
    = Some (Rgba (Num (Qc_of_Z 239)) (Num (Qc_of_Z 68)) (Num (Qc_of_Z 68))
              (Num (Q2Qc (7 # 10))))) by compute_done.
  assert (H9 : generateShades "#EF4444" 12 !! 9%nat
    = Some (Rgba (Num (Qc_of_Z 239)) (Num (Qc_of_Z 68)) (Num (Qc_of_Z 68))
              (Num (Q2Qc (2 # 10))))) by compute_done.
  assert (H11 : generateShades "#EF4444" 12 !! 11%nat
    = Some (Rgba (Num (Qc_of_Z 239)) (Num (Qc_of_Z 68)) (Num (Qc_of_Z 68))
              (Num (Q2Qc (2 # 10))))) by compute_done.
  split.
  - apply (shades_distinct_then_equal "#EF4444" 12 2 3 _ _ H2 H3); lia.
  - apply (shades_distinct_then_equal "#EF4444" 12 9 11 _ _ H9 H11); lia.
Defined.

Lemma assignColors_absent (colors : list rgba) (cats : list string) (i : nat)
  (m : gmap string (option rgba)) (cat : string) :
  cat ∉ cats -> assignColors colors i cats m !! cat = m !! cat.
Proof.
  revert i m. induction cats as [|x cats IH]; intros i m Hin; [done|].
  apply not_elem_of_cons in Hin as [Hne Hin]. cbn [assignColors].
  rewrite IH by done.
  destruct (decide (x = "__proto__"%string)); [done|by rewrite lookup_insert_ne].
Qed.

Lemma assignColors_proto (colors : list rgba) (cats : list string) (i : nat)
  (m : gmap string (option rgba)) :
  assignColors colors i cats m !! "__proto__"%string = m !! "__proto__"%string.
Proof.
  revert i m. induction cats as [|x cats IH]; intros i m; [done|].
  cbn [assignColors]. rewrite IH.
  destruct (decide (x = "__proto__"%string)); [done|by rewrite lookup_insert_ne].
Qed.

Lemma assignColors_last (colors : list rgba) (cats : list string) (i j : nat)
  (m : gmap string (option rgba)) (cat : string) :
  cats !! j = Some cat ->
  (forall j', (j < j')%nat -> cats !! j' <> Some cat) ->
  cat <> "__proto__"%string ->
  assignColors colors i cats m !! cat = Some (colors !! (i + j)%nat).
Proof.
  revert i j m. induction cats as [|x cats IH]; intros i j m Hj Hlast Hc; [done|].
  cbn [assignColors]. destruct j as [|j].
  - injection Hj as ->. rewrite Nat.add_0_r. rewrite decide_False by done.
    rewrite assignColors_absent; [apply lookup_insert_eq|].
    intros (j' & Hj')%list_elem_of_lookup.
    apply (Hlast (S j')); [lia|done].
  - rewrite <- Nat.add_succ_comm. apply (IH (S i) j); [done| |done].
    intros j' Hj'. apply (Hlast (S j')). lia.
Qed.

(** X10: the bars are drawn for the listed categories.  For a listed
    category whose last position in the list is [i], and which is not
    [__proto__], the colour map holds the [i]-th shade of [#EF4444], that is
    red 239, green 68, blue 68 with alpha [max(0.2, 1 - i * 0.1)], and the
    bar is filled with it; for a listed [__proto__] nothing is stored and
    the fill is the object the colour map inherits under that name.  The
    grey default is never used for a listed category. *)
Theorem expenseColors_by_position (expenseCategories : list string) (cat : string)
  (i : nat) :
  expenseCategories !! i = Some cat ->
  (forall j, (i < j)%nat -> expenseCategories !! j <> Some cat) ->
  let shade := Rgba (Num (Qc_of_Z 239)) (Num (Qc_of_Z 68)) (Num (Qc_of_Z 68))
                    (Num (shadeAlpha (Z.of_nat i))) in
  (cat <> "__proto__"%string ->
     expenseColors expenseCategories !! cat = Some (Some shade) /\
     barFill expenseCategories cat = Shade shade) /\
  (cat = "__proto__"%string ->
     expenseColors expenseCategories !! cat = None /\
     barFill expenseCategories cat = Builtin "__proto__") /\
  barFill expenseCategories cat <> Grey.
Proof.
  intros Hi Hlast shade.
  assert (Hshade : cat <> "__proto__"%string ->
            expenseColors expenseCategories !! cat = Some (Some shade)).
  { intros Hc. unfold expenseColors.
    rewrite (assignColors_last _ _ 0 i) by done. f_equal.
    assert (Hlt : (i < length expenseCategories)%nat) by (by eapply lookup_lt_Some).
    unfold generateShades.
    assert (Hch : hexChannels "#EF4444"
              = (Num (Qc_of_Z 239), Num (Qc_of_Z 68), Num (Qc_of_Z 68)))
      by compute_done.
    rewrite Hch, shadesFrom_closed. cbn [app Nat.add].
    change (map ?f ?l) with (fmap (M:=list) f l).
    rewrite list_lookup_fmap, lookup_seq_lt by lia.
    cbn. by rewrite Z.add_0_l. }
  assert (Hproto : cat = "__proto__"%string ->
            expenseColors expenseCategories !! cat = None).
  { intros ->. unfold expenseColors. by rewrite assignColors_proto. }
  split_and!.
  - intros Hc. split; [by apply Hshade|]. unfold barFill. by rewrite Hshade.
  - intros Hc. split; [by apply Hproto|]. unfold barFill. rewrite Hproto by done.
    subst cat. by rewrite decide_True by apply inherited_proto.
  - unfold barFill. destruct (decide (cat = "__proto__"%string)) as [Hc|Hc].
    + rewrite Hproto by done. subst cat.
      by rewrite decide_True by apply inherited_proto.
    + by rewrite Hshade.
Qed.

Lemma expenseColors_by_position_witness :
  (expenseColors ["Food"; "Rent"; "Food"]%string !! "Food"%string
     = Some (Some (Rgba (Num (Qc_of_Z 239)) (Num (Qc_of_Z 68)) (Num (Qc_of_Z 68))
                        (Num (shadeAlpha (Z.of_nat 2))))) /\
   barFill ["Food"; "Rent"; "Food"]%string "Food"
     = Shade (Rgba (Num (Qc_of_Z 239)) (Num (Qc_of_Z 68)) (Num (Qc_of_Z 68))
                   (Num (shadeAlpha (Z.of_nat 2))))) /\
  (expenseColors ["Food"; "__proto__"]%string !! "__proto__"%string = None /\
   barFill ["Food"; "__proto__"]%string "__proto__" = Builtin "__proto__").
Proof.
  split.
  - refine (proj1 (expenseColors_by_position ["Food"; "Rent"; "Food"]%string
                     "Food" 2%nat eq_refl _) _); [|done].
    intros [|[|[|j]]] Hj; try lia; done.
  - refine (proj1 (proj2 (expenseColors_by_position ["Food"; "__proto__"]%string
                            "__proto__" 1%nat eq_refl _)) eq_refl).
    intros [|[|j]] Hj; try lia; done.
Defined.

End ShadeMore.

(** ** Decoding a hex colour *)

Section HexMore.
Import Statistics.

(** X11: for a colour written with six hexadecimal digits, with or without
    the leading [#], each channel is sixteen times its first digit plus its
    second, an integer between 0 and 255. *)
Theorem hexChannels_six_digits (c1 c2 c3 c4 c5 c6 : ascii)
  (d1 d2 d3 d4 d5 d6 : Z) :
  hexDigit c1 = Some d1 -> hexDigit c2 = Some d2 -> hexDigit c3 = Some d3 ->
  hexDigit c4 = Some d4 -> hexDigit c5 = Some d5 -> hexDigit c6 = Some d6 ->
  let digits :=
    String c1 (String c2 (String c3 (String c4 (String c5 (String c6 EmptyString))))) in
  let channels := (Num (Qc_of_Z (16 * d1 + d2)), Num (Qc_of_Z (16 * d3 + d4)),
                   Num (Qc_of_Z (16 * d5 + d6))) in
  hexChannels (String "#" digits) = channels /\
  hexChannels digits = channels /\
  0 <= 16 * d1 + d2 <= 255 /\ 0 <= 16 * d3 + d4 <= 255 /\ 0 <= 16 * d5 + d6 <= 255.
Proof.
  intros H1 H2 H3 H4 H5 H6 digits channels.
  pose proof (parseInt16_two_digits _ _ _ _ H1 H2) as P1.
  pose proof (parseInt16_two_digits _ _ _ _ H3 H4) as P2.
  pose proof (parseInt16_two_digits _ _ _ _ H5 H6) as P3.
  destruct (hexDigit_chars _ _ H1) as [Hc1 ?], (hexDigit_chars _ _ H2) as [_ ?],
    (hexDigit_chars _ _ H3) as [_ ?], (hexDigit_chars _ _ H4) as [_ ?],
    (hexDigit_chars _ _ H5) as [_ ?], (hexDigit_chars _ _ H6) as [_ ?].
  split_and!; try lia.
  - unfold hexChannels, digits, channels. cbn [startsWithHash].
    cbv [substring String.length Nat.min Nat.sub String.substring].
    by rewrite P1, P2, P3.
  - assert (Hh : startsWithHash digits = false).
    { unfold hexChars in Hc1. cbn [list_ascii_of_string In] in Hc1.
      unfold digits.
      repeat (destruct Hc1 as [<-|Hc1]); try reflexivity. destruct Hc1. }
    unfold hexChannels. rewrite Hh. unfold digits, channels.
    cbv [substring String.length Nat.min Nat.sub String.substring].
    by rewrite P1, P2, P3.
Qed.

Lemma hexChannels_six_digits_witness :
  hexChannels "#EF4444"
    = (Num (Qc_of_Z (16 * 14 + 15)), Num (Qc_of_Z (16 * 4 + 4)),
       Num (Qc_of_Z (16 * 4 + 4))) /\
  hexChannels "EF4444"
    = (Num (Qc_of_Z (16 * 14 + 15)), Num (Qc_of_Z (16 * 4 + 4)),
       Num (Qc_of_Z (16 * 4 + 4))) /\
  0 <= 16 * 14 + 15 <= 255 /\ 0 <= 16 * 4 + 4 <= 255 /\ 0 <= 16 * 4 + 4 <= 255.
Proof.
  apply (hexChannels_six_digits "E" "F" "4" "4" "4" "4" 14 15 4 4 4 4);
    reflexivity.
Defined.

End HexMore.

(** ** The tooltip's breakdown *)

Section TooltipMore.
Import Statistics Charts.
Variable stringToNumber : list piece -> num.

(** The number an item is ranked by (0 if its value is not a number). *)
Definition itemQ (p : TooltipItem) : Qc :=
  match toNumber stringToNumber (item_value p) with
  | Num q => q
  | NaN => 0%Qc
  end.

(** An item that passes the filter [p.value > 0]. *)
Definition isPositive (p : TooltipItem) : Prop :=
  gt (toNumber stringToNumber (item_value p)) zero = true.

(** [a] is ranked at least as high as [b]. *)
Definition ranksFirst (a b : TooltipItem) : Prop := (itemQ b <= itemQ a)%Qc.

Lemma isPositive_itemQ (p : TooltipItem) :
  isPositive p ->
  toNumber stringToNumber (item_value p) = Num (itemQ p) /\ (0 < itemQ p)%Qc.
Proof.
  unfold isPositive, itemQ, gt, zero.
  destruct (toNumber stringToNumber (item_value p)); [done|].
  intros H%bool_decide_eq_true. done.
Qed.

Lemma sortsBelow_positive (a b : TooltipItem) :
  isPositive a -> isPositive b ->
  sortsBelow stringToNumber a b = bool_decide (itemQ a < itemQ b)%Qc.
Proof.
  intros [Ha _]%isPositive_itemQ [Hb _]%isPositive_itemQ.
  unfold sortsBelow. rewrite Ha, Hb. cbn [sub gt zero].
  apply bool_decide_ext. unfold Qcminus.
  rewrite (Qclt_minus_iff (itemQ a) (itemQ b)). done.
Qed.

Lemma insertBy_perm {A : Type} (after : A -> A -> bool) (x : A) (l : list A) :
  insertBy after x l ≡ₚ x :: l.
Proof.
  induction l as [|y l IH]; cbn [insertBy]; [done|].
  destruct (after x y); [|done]. rewrite IH. apply Permutation_swap.
Qed.

Lemma sortBy_perm {A : Type} (after : A -> A -> bool) (l : list A) :
  sortBy after l ≡ₚ l.
Proof.
  induction l as [|x l IH]; cbn [sortBy]; [done|].
  by rewrite insertBy_perm, IH.
Qed.

Lemma insertBy_ranked (x : TooltipItem) (l : list TooltipItem) :
  isPositive x -> Forall isPositive l ->
  StronglySorted ranksFirst l ->
  StronglySorted ranksFirst (insertBy (sortsBelow stringToNumber) x l).
Proof.
  intros Hx Hl Hs. induction Hs as [|y l Hs IH Hy]; cbn [insertBy].
  - repeat constructor.
  - apply Forall_cons in Hl as [Hpy Hl].
    rewrite sortsBelow_positive by done. case_bool_decide as Hc.
    + constructor; [by apply IH|].
      apply Forall_forall. intros z Hz. rewrite insertBy_perm in Hz.
      apply elem_of_cons in Hz as [->|Hz].
      * unfold ranksFirst. by apply Qclt_le_weak.
      * by apply (proj1 (Forall_forall _ _) Hy).
    + apply Qcnot_lt_le in Hc. constructor; [by constructor|].
      constructor; [done|].
      eapply Forall_impl; [exact Hy|]. intros z Hz. unfold ranksFirst in *.
      by etrans.
Qed.

Lemma sortBy_ranked (l : list TooltipItem) :
  Forall isPositive l ->
  StronglySorted ranksFirst (sortBy (sortsBelow stringToNumber) l).
Proof.
  induction 1 as [|x l Hx Hl IH]; cbn [sortBy]; [constructor|].
  apply insertBy_ranked; [done| |done].
  apply Forall_forall. intros z Hz. rewrite sortBy_perm in Hz.
  by apply (proj1 (Forall_forall _ _) Hl).
Qed.

Lemma StronglySorted_take_drop (R : TooltipItem -> TooltipItem -> Prop)
  (l : list TooltipItem) (n : nat) (p p' : TooltipItem) :
  StronglySorted R l -> p ∈ take n l -> p' ∈ drop n l -> R p p'.
Proof.
  intros Hs. revert n. induction Hs as [|x l Hs IH Hx]; intros n Hp Hp'.
  - rewrite take_nil in Hp. by apply elem_of_nil in Hp.
  - destruct n as [|n]; [by apply elem_of_nil in Hp|].
    cbn in Hp, Hp'. apply elem_of_cons in Hp as [->|Hp].
    + apply (proj1 (Forall_forall _ _) Hx).
      apply list_elem_of_lookup in Hp' as [i Hi]. rewrite lookup_drop in Hi.
      by eapply list_elem_of_lookup_2.
    + by apply (IH n).
Qed.

(** X12: the tooltip's breakdown lists exactly the listed categories whose
    value in the hovered entry is greater than 0, each with that value, in
    descending order of value; the tooltip shows at most five of them, and
    none of those left out has a larger value than one that is shown. *)
Theorem breakdown_ranked (expenseCategories : list string)
  (entry : gmap string value) :
  let all := breakdown stringToNumber expenseCategories entry in
  (forall p : TooltipItem,
     p ∈ all <->
     item_name p ∈ expenseCategories /\
     item_value p = orZero (entry !! item_name p) /\ isPositive p) /\
  StronglySorted ranksFirst all /\
  (length (take 5 all) <= 5)%nat /\
  (forall p p' : TooltipItem, p ∈ take 5 all -> p' ∈ drop 5 all -> ranksFirst p p').
Proof.
  cbv zeta. unfold breakdown.
  set (items := map (fun cat => Item cat (orZero (entry !! cat))) expenseCategories).
  assert (Hsorted : StronglySorted ranksFirst
            (sortBy (sortsBelow stringToNumber) (filter isPositive items))).
  { apply sortBy_ranked, Forall_forall. by intros p [? _]%list_elem_of_filter. }
  split_and!.
  - intros p. rewrite sortBy_perm, list_elem_of_filter. unfold items.
    change (map ?f ?l) with (fmap (M:=list) f l). rewrite list_elem_of_fmap.
    split.
    + intros [Hp (cat & -> & Hcat)]. done.
    + intros (Hn & Hv & Hp). split; [done|]. exists (item_name p).
      split; [|done]. destruct p as [n v]. cbn in *. by rewrite Hv.
  - exact Hsorted.
  - rewrite length_take. lia.
  - intros p p'. by apply StronglySorted_take_drop.
Qed.

End TooltipMore.

(** ** Totals accumulated by key *)

Section AccumulateMore.
Context {A : Type}.
Variable key : A -> option string.
Variable val : A -> num.

(** The shape shared by the month's spend and the daily totals:
    [m[k] = (m[k] || 0) + v] for each element that has a key. *)
Definition accumulateStep (m : gmap string num) (x : A) : gmap string num :=
  match key x with
  | Some k => <[ k := add (getOrZero m k) (val x) ]> m
  | None => m
  end.

(** The rational an element contributes. *)
Definition valQ (x : A) : Qc :=
  match val x with
  | Num q => q
  | NaN => 0%Qc
  end.

Lemma accumulate_entryQ (l : list A) (m : gmap string num) (k : string) :
  (forall x, x ∈ l -> is_Some (key x) -> isNaN (val x) = false) ->
  entryQ (fold_left accumulateStep l m) k
  = (entryQ m k + sumQc (map valQ (filter (fun x => key x = Some k) l)))%Qc.
Proof.
  revert m. induction l as [|x l IH]; intros m Hfin.
  - cbn. by rewrite Qcplus_0_r.
  - cbn [fold_left]. rewrite IH by (intros y Hy; apply Hfin; by right).
    rewrite filter_cons. unfold accumulateStep.
    destruct (key x) as [kx|] eqn:Hkx.
    + assert (Hv : isNaN (val x) = false) by (apply Hfin; [left|by rewrite Hkx]).
      unfold valQ at 2. destruct (val x) as [|q] eqn:Hq; [done|].
      rewrite getOrZero_entryQ. cbn [add].
      destruct (decide (Some kx = Some k)) as [[= ->]|Hne].
      * unfold entryQ at 1. rewrite lookup_insert_eq. cbn [map].
        assert (Hcons : forall q l', sumQc (q :: l') = (q + sumQc l')%Qc) by done.
        rewrite Hcons. unfold valQ at 1. rewrite Hq. ring.
      * unfold entryQ at 1. rewrite lookup_insert_ne by congruence. done.
    + rewrite decide_False by done. done.
Qed.

Lemma accumulate_absent (l : list A) (m : gmap string num) (k : string) :
  m !! k = None -> (forall x, x ∈ l -> key x <> Some k) ->
  fold_left accumulateStep l m !! k = None.
Proof.
  revert m. induction l as [|x l IH]; intros m Hm Hl; [done|].
  cbn [fold_left]. apply IH; [|intros y Hy; apply Hl; by right].
  unfold accumulateStep. destruct (key x) as [kx|] eqn:Hkx; [|done].
  rewrite lookup_insert_ne; [done|]. intros ->. by apply (Hl x); [left|].
Qed.

End AccumulateMore.

(** ** The month's spend by category *)

Section MonthlySpendMore.
Import CalendarFields MonthlySpend.
Context {lib : DateLib} {fields : DateFields}.

(** A transaction dated in the month and year of [now]. *)
Definition inMonthOf (now : time) (t : Transaction) : Prop :=
  exists d, dateParse (tx_date t) = Some d /\
            getMonth d = getMonth now /\ getFullYear d = getFullYear now.

Global Instance inMonthOf_dec (now : time) (t : Transaction) :
  Decision (inMonthOf now t).
Proof.
  unfold inMonthOf. destruct (dateParse (tx_date t)) as [d|].
  - destruct (decide (getMonth d = getMonth now /\ getFullYear d = getFullYear now))
      as [H|H]; [left; eauto|right].
    intros (d' & [= <-] & ?). done.
  - right. by intros (d & ? & _).
Defined.

(** The key under which the reducer files a transaction, if any. *)
Definition spendKey (now : time) (t : Transaction) : option string :=
  if decide (inMonthOf now t) then Some (tx_category t) else None.

Lemma spendingStep_in (now : time) (acc : gmap string value) (t : Transaction) :
  inMonthOf now t ->
  spendingStep now acc t
  = writeProp (tx_category t)
      (plus (orZero (readProp acc (tx_category t))) (tx_amount t)) acc.
Proof.
  intros (d & Hd & Hm & Hy). unfold spendingStep.
  by rewrite Hd, Hm, Hy, !Z.eqb_refl.
Qed.

Lemma spendingStep_skip (now : time) (acc : gmap string value) (t : Transaction) :
  ~ inMonthOf now t -> spendingStep now acc t = acc.
Proof.
  intros Hn. unfold spendingStep.
  destruct (dateParse (tx_date t)) as [d|] eqn:Hd; [|done].
  destruct ((getMonth d =? getMonth now) && (getFullYear d =? getFullYear now))
    eqn:Hc; [|done].
  apply andb_true_iff in Hc as [Hm%Z.eqb_eq Hy%Z.eqb_eq].
  exfalso. apply Hn. by exists d.
Qed.

Lemma writeProp_other (k k' : string) (v : value) (o : gmap string value) :
  k <> k' -> writeProp k' v o !! k = o !! k.
Proof.
  intros Hne. unfold writeProp.
  destruct (decide (k' = "__proto__"%string /\ o !! k' = None)); [done|].
  by rewrite lookup_insert_ne.
Qed.

(** What the reducer leaves under a name [k] that [Object.prototype] does
    not define: a number, the sum of the month's amounts filed under [k]. *)
Lemma spendingFold_at (now : time) (l : list Transaction) (m : gmap string value)
  (k : string) :
  ~ inherited k ->
  (forall v, m !! k = Some v -> exists x, v = VNum x) ->
  (forall t, t ∈ l -> inMonthOf now t -> isNaN (tx_amount t) = false) ->
  let m' := fold_left (spendingStep now) l m in
  (forall v, m' !! k = Some v -> exists x, v = VNum x) /\
  heldQ m' k
  = (heldQ m k
     + sumQc (map amountQ
         (filter (fun t => inMonthOf now t /\ tx_category t = k) l)))%Qc.
Proof.
  intros Hk. revert m. induction l as [|t l IH]; intros m Hm Hfin.
  - cbn. split; [done|]. by rewrite Qcplus_0_r.
  - cbn [fold_left]. rewrite filter_cons.
    assert (Hl : forall t', t' ∈ l -> inMonthOf now t' -> isNaN (tx_amount t') = false)
      by (intros t' Ht'; apply Hfin; by right).
    destruct (decide (inMonthOf now t)) as [Hin|Hout].
    + rewrite spendingStep_in by done.
      destruct (decide (tx_category t = k)) as [Hc|Hc].
      * rewrite decide_True by done. rewrite Hc.
        assert (Ha : isNaN (tx_amount t) = false) by (apply Hfin; [left|done]).
        rewrite (read_numeric m k) by done.
        rewrite writeProp_insert by done.
        destruct (tx_amount t) as [|q] eqn:Hq; [done|]. cbn [plus plusValue add].
        destruct (IH (<[k := VNum (Num (heldQ m k + q))]> m)) as [IH1 IH2];
          [|done|].
        { intros v. rewrite lookup_insert_eq. intros [= <-]. eauto. }
        split; [exact IH1|]. rewrite IH2. cbn [map].
        assert (Hcons : forall q l', sumQc (q :: l') = (q + sumQc l')%Qc) by done.
        rewrite Hcons. unfold heldQ at 1. rewrite lookup_insert_eq.
        unfold amountQ at 2. rewrite Hq. ring.
      * rewrite decide_False by (intros [_ ?]; done).
        set (m1 := writeProp (tx_category t) _ m).
        assert (H1 : m1 !! k = m !! k) by (apply writeProp_other; congruence).
        destruct (IH m1) as [IH1 IH2]; [by rewrite H1|done|].
        split; [exact IH1|]. rewrite IH2. unfold heldQ. by rewrite H1.
    + rewrite spendingStep_skip by done.
      rewrite decide_False by (intros [? _]; done). by apply IH.
Qed.

Lemma spendingFold_absent (now : time) (l : list Transaction)
  (m : gmap string value) (k : string) :
  m !! k = None ->
  (forall t, t ∈ l -> inMonthOf now t -> tx_category t <> k) ->
  fold_left (spendingStep now) l m !! k = None.
Proof.
  revert m. induction l as [|t l IH]; intros m Hm Hl; [done|].
  cbn [fold_left]. apply IH; [|intros y Hy; apply Hl; by right].
  destruct (decide (inMonthOf now t)) as [Hin|Hout].
  - rewrite spendingStep_in by done. rewrite writeProp_other; [done|].
    intros ->. apply (Hl t); [left|done|done].
  - by rewrite spendingStep_skip.
Qed.

(** X13: for a category that [Object.prototype] does not name, when the
    amounts of this month's transactions are numbers, the budget table's
    tracked figure is the sum of the signed amounts of the transactions of
    that category dated in the current month and year; a category with no
    such transaction has no entry at all (and so tracks 0). *)
Theorem tracked_is_this_months_sum (stringToNumber : list piece -> num)
  (now : time) (transactions : list Transaction)
  (categoryBudgets : gmap string value) (cat : string) :
  ~ inherited cat ->
  (forall t, t ∈ transactions -> inMonthOf now t -> isNaN (tx_amount t) = false) ->
  let spending := spendingByCategory now transactions in
  Budgeting.row_tracked
    (Budgeting.renderRow stringToNumber spending categoryBudgets cat)
    = VNum (Num (sumQc (map amountQ
             (filter (fun t => inMonthOf now t /\ tx_category t = cat) transactions))))
  /\
  ((forall t, t ∈ transactions -> inMonthOf now t -> tx_category t <> cat) ->
   spending !! cat = None).
Proof.
  intros Hcat Hfin. cbv zeta. unfold spendingByCategory. split.
  - cbn [Budgeting.renderRow Budgeting.row_tracked].
    destruct (spendingFold_at now transactions ∅ cat Hcat) as [Hnum Hsum];
      [by intros v; rewrite lookup_empty|done|].
    rewrite read_numeric by done. rewrite Hsum.
    unfold heldQ at 1. by rewrite lookup_empty, Qcplus_0_l.
  - intros Hno. by apply spendingFold_absent; [apply lookup_empty|].
Qed.

(** X14: a transaction dated outside the current month, or whose date does
    not parse, never changes the month's spend, wherever it stands in the
    list. *)
Theorem monthly_spend_ignores_other_months (now : time)
  (before after : list Transaction) (t : Transaction) :
  ~ inMonthOf now t ->
  spendingByCategory now (before ++ t :: after)
  = spendingByCategory now (before ++ after).
Proof.
  intros Hn. unfold spendingByCategory.
  rewrite !fold_left_app. cbn [fold_left]. f_equal.
  by apply spendingStep_skip.
Qed.

End MonthlySpendMore.

Section MonthlySpendRuns.
Import CalendarFields MonthlySpend Samples.

Lemma tracked_is_this_months_sum_witness :
  let spending :=
    spendingByCategory (lib:=utc) (fields:=utcFields) now0
      [txFood; txOldSalary; txSalary; txFood] in
  Budgeting.row_tracked
    (Budgeting.renderRow (fun _ => NaN) spending budgets0 "Food")
    = VNum (Num (sumQc (map amountQ
             (filter (fun t => inMonthOf (lib:=utc) (fields:=utcFields) now0 t
                               /\ tx_category t = "Food"%string)
                     [txFood; txOldSalary; txSalary; txFood]))))
  /\
  ((forall t, t ∈ [txFood; txOldSalary; txSalary; txFood] ->
      inMonthOf (lib:=utc) (fields:=utcFields) now0 t ->
      tx_category t <> "Food"%string) ->
   spending !! "Food"%string = None).
Proof.
  apply (tracked_is_this_months_sum (lib:=utc) (fields:=utcFields)
           (fun _ => NaN) now0
           [txFood; txOldSalary; txSalary; txFood] budgets0 "Food").
  - not_inherited.
  - intros t Ht _.
    repeat (apply elem_of_cons in Ht as [->|Ht]); try reflexivity.
    by apply elem_of_nil in Ht.
Defined.

(** The spec's scenario in June 2024: two food expenses of 30 track -60; the
    salary of 2020 is not counted. *)
Example monthly_spend_at_now0 :
  spendingByCategory (lib:=utc) (fields:=utcFields) now0
    [txFood; txOldSalary; txSalary; txFood]
  = {[ "Food"%string := VNum (amt (-60)); "Salary"%string := VNum (amt 2000) ]}.
Proof. compute_done. Qed.

Lemma monthly_spend_ignores_other_months_witness :
  spendingByCategory (lib:=utc) (fields:=utcFields) now0
    ([txFood] ++ txOldSalary :: [txSalary])
  = spendingByCategory (lib:=utc) (fields:=utcFields) now0 ([txFood] ++ [txSalary]).
Proof.
  apply (monthly_spend_ignores_other_months (lib:=utc) (fields:=utcFields)).
  intros (d & Hd & Hm & Hy). vm_compute in Hd. injection Hd as <-.
  vm_compute in Hy. discriminate Hy.
Defined.

End MonthlySpendRuns.

(** ** The calendar view *)

Section CalendarMore.
Import CalendarFields Charts SpecMore.
Context {lib : DateLib} {fields : DateFields}.

(** The day-of-month label of a transaction. *)
Definition dayLabel (tx : Transaction) : option string :=
  formatD <$> dateParse (tx_date tx).

Lemma dailyStep_accumulate (l : list Transaction) (m : gmap string num) :
  fold_left dailyStep l m
  = fold_left (accumulateStep dayLabel (fun tx => abs (tx_amount tx))) l m.
Proof.
  revert m. induction l as [|tx l IH]; intros m; [done|].
  cbn [fold_left]. rewrite <- IH. f_equal.
  unfold dailyStep, accumulateStep, dayLabel.
  by destruct (dateParse (tx_date tx)).
Qed.

Lemma valQ_abs (tx : Transaction) :
  valQ (fun tx => abs (tx_amount tx)) tx = absAmountQ tx.
Proof.
  unfold valQ, absAmountQ, amountQ. destruct (tx_amount tx); [|done].
  cbn. symmetry. by apply Qcabs_pos.
Qed.

(** X15: when the amounts of the month's expenses are numbers, the total
    shown in a day's cell is the sum of the absolute amounts of the expenses
    dated in the displayed month whose day of month is that cell's; incomes,
    investments and other months never count, and a day without such an
    expense has no total. *)
Theorem daily_total_is_the_days_sum (transactions : list Transaction)
  (baseDate : time) (day : string) :
  (forall tx, tx ∈ transactions -> inCalendarMonth baseDate tx = true ->
              isNaN (tx_amount tx) = false) ->
  getOrZero (dailyTotals transactions baseDate) day
    = Num (sumQc (map absAmountQ
             (filter (fun tx => inCalendarMonth baseDate tx = true /\
                                dayLabel tx = Some day) transactions)))
  /\
  ((forall tx, tx ∈ transactions -> inCalendarMonth baseDate tx = true ->
               dayLabel tx <> Some day) ->
   dailyTotals transactions baseDate !! day = None).
Proof.
  intros Hfin. unfold dailyTotals. rewrite dailyStep_accumulate. split.
  - rewrite getOrZero_entryQ, accumulate_entryQ.
    + unfold entryQ at 1. rewrite lookup_empty, Qcplus_0_l.
      rewrite list_filter_filter. do 2 f_equal.
      rewrite (map_ext _ _ valQ_abs). f_equal.
      apply list_filter_iff. intros tx. tauto.
    + intros tx [Hin Htx]%list_elem_of_filter _.
      specialize (Hfin tx Htx Hin). by destruct (tx_amount tx).
  - intros Hno. apply accumulate_absent; [apply lookup_empty|].
    intros tx [Hin Htx]%list_elem_of_filter. by apply Hno.
Qed.

(** X16: when [getDay] of the month's first day is a weekday number from 0
    (Sunday) to 6, the grid starts with [(getDay + 6) mod 7] blank cells,
    between 0 and 6 of them, so that the first day falls in the column of
    its weekday in a week that starts on Monday; the cell of the [j]-th day
    follows at position blanks + j and shows that day's total. *)
Theorem calendar_grid_alignment (transactions : list Transaction) (baseDate : time) :
  0 <= getDay (startOfMonth baseDate) <= 6 ->
  let blanks := startingDayIndex baseDate in
  blanks = (getDay (startOfMonth baseDate) + 6) mod 7 /\
  0 <= blanks <= 6 /\
  (forall i : nat, Z.of_nat i < blanks ->
     calendarCells transactions baseDate !! i = Some None) /\
  (forall (j : nat) (d : time),
     Charts.daysInMonth baseDate !! j = Some d ->
     calendarCells transactions baseDate !! (Z.to_nat blanks + j)%nat
       = Some (Some (formatD d, dailyTotals transactions baseDate !! formatD d))).
Proof.
  intros Hg. cbv zeta.
  assert (Hb : startingDayIndex baseDate
               = (getDay (startOfMonth baseDate) + 6) mod 7).
  { unfold startingDayIndex. revert Hg.
    generalize (getDay (startOfMonth baseDate)). intros g Hg.
    destruct (g =? 0) eqn:Hz.
    - apply Z.eqb_eq in Hz. by rewrite Hz.
    - apply Z.eqb_neq in Hz. apply (Z.mod_unique _ _ 1); lia. }
  assert (Hr : 0 <= startingDayIndex baseDate <= 6).
  { rewrite Hb. generalize (getDay (startOfMonth baseDate)). intros g.
    pose proof (Z.mod_pos_bound (g + 6) 7 ltac:(lia)). lia. }
  unfold calendarCells. revert Hb Hr.
  generalize (startingDayIndex baseDate). intros blanks Hb Hr.
  split_and!; [done|lia|lia| |].
  - intros i Hi. rewrite lookup_app_l by (rewrite length_replicate; lia).
    apply lookup_replicate_2. lia.
  - intros j d Hj.
    rewrite lookup_app_r by (rewrite length_replicate; lia).
    rewrite length_replicate.
    replace (Z.to_nat blanks + j - Z.to_nat blanks)%nat with j by lia.
    change (map ?f ?l) with (fmap (M:=list) f l).
    by rewrite list_lookup_fmap, Hj.
Qed.

End CalendarMore.

Section CalendarRuns.
Import CalendarFields Charts SpecMore Samples.

Lemma daily_total_is_the_days_sum_witness :
  getOrZero (dailyTotals (lib:=utc) (fields:=utcFields)
               [txFood; txSalary; txFood; txOldSalary] now0) "12"
    = Num (sumQc (map absAmountQ
             (filter (fun tx =>
                        inCalendarMonth (lib:=utc) (fields:=utcFields) now0 tx = true /\
                        dayLabel (lib:=utc) (fields:=utcFields) tx = Some "12"%string)
                     [txFood; txSalary; txFood; txOldSalary])))
  /\
  ((forall tx, tx ∈ [txFood; txSalary; txFood; txOldSalary] ->
      inCalendarMonth (lib:=utc) (fields:=utcFields) now0 tx = true ->
      dayLabel (lib:=utc) (fields:=utcFields) tx <> Some "12"%string) ->
   dailyTotals (lib:=utc) (fields:=utcFields)
     [txFood; txSalary; txFood; txOldSalary] now0 !! "12"%string = None).
Proof.
  apply (daily_total_is_the_days_sum (lib:=utc) (fields:=utcFields)
           [txFood; txSalary; txFood; txOldSalary] now0 "12").
  intros tx Ht _.
  repeat (apply elem_of_cons in Ht as [->|Ht]); try reflexivity.
  by apply elem_of_nil in Ht.
Defined.

(** June 2024: the two food expenses of the 12th total 60; the salary of
    the 3rd is no expense and the 3rd stays empty. *)
Example daily_totals_at_now0 :
  dailyTotals (lib:=utc) (fields:=utcFields)
    [txFood; txSalary; txFood; txOldSalary] now0
  = {[ "12"%string := amt 60 ]}.
Proof. compute_done. Qed.

Lemma calendar_grid_alignment_witness :
  startingDayIndex (lib:=utc) (fields:=utcFields) now0 = 5 /\
  calendarCells (lib:=utc) (fields:=utcFields) [txFood] now0 !! 4%nat = Some None /\
  calendarCells (lib:=utc) (fields:=utcFields) [txFood] now0 !! (5 + 11)%nat
    = Some (Some ("12"%string, Some (amt 30))).
Proof.
  assert (Hg : 0 <= getDay (DateFields:=utcFields) (startOfMonth (DateLib:=utc) now0) <= 6)
    by (vm_compute; split; discriminate).
  destruct (calendar_grid_alignment (lib:=utc) (fields:=utcFields) [txFood] now0 Hg)
    as (Hb & _ & Hblank & Hday).
  split_and!.
  - rewrite Hb. reflexivity.
  - apply Hblank. rewrite Hb. vm_compute. reflexivity.
  - assert (Hd : Charts.daysInMonth (lib:=utc) now0 !! 11%nat = Some now0)
      by reflexivity.
    specialize (Hday 11%nat now0 Hd). rewrite Hb in Hday.
    etrans; [exact Hday|]. compute_done.
Defined.

End CalendarRuns.

(** ** The chat-completion call: requests and defaults *)

Section OpenRouterMore.
Import OpenRouter.

(** X17: with an API key configured the call sends exactly one request, to
    the chat-completions endpoint, with the key as bearer token and the
    messages unchanged; either it returns the parsed JSON body and writes
    nothing to the console, or it writes the error once to the console and
    throws that same error. *)
Theorem callOpenRouter_one_request (w : World) (msgs : list OpenRouterMessage)
  (options : Options) (key : string) :
  apiKey w = Some key -> key <> EmptyString ->
  exists call : FetchCall,
    url call = "https://openrouter.ai/api/v1/chat/completions"%string /\
    bearer call = key /\ messages (body call) = msgs /\
    ((exists r, callOpenRouter w msgs options = ([Fetched call], Returns r)) \/
     (exists e, callOpenRouter w msgs options
                = ([Fetched call; ConsoleError "OpenRouter API call failed:" e],
                   Throws e))).
Proof.
  intros Hk Hne. unfold callOpenRouter. rewrite Hk. cbn [keyMissing default].
  rewrite bool_decide_eq_false_2 by done.
  exists (Fetch "https://openrouter.ai/api/v1/chat/completions" key
            (strOr (Some (href w)) "http://localhost:3000")
            (Request (strOr (opt_model options) "amazon/nova-2-lite-v1:free") msgs
               (numOr (opt_max_tokens options) (Num (Qc_of_Z 4000)))
               (numOr (opt_temperature options) (Num (Q2Qc (7 # 10))))
               (default false (opt_stream options)))).
  split_and!; [reflexivity|reflexivity|reflexivity|].
  destruct (fetch w _) as [e|response]; [right; eauto|].
  destruct (negb (ok response)).
  - destruct (text response); right; eauto.
  - destruct (json response); [right|left]; eauto.
Qed.

(** X18: with a key, a response in the 200 range whose JSON body reads
    without error is returned as it is, after a single request. *)
Theorem callOpenRouter_returns_body (w : World) (msgs : list OpenRouterMessage)
  (options : Options) (response : HttpResponse) (r : OpenRouterResponse) :
  keyMissing (apiKey w) = false ->
  (forall call, fetch w call = Returns response) ->
  ok response = true -> json response = Returns r ->
  exists call, callOpenRouter w msgs options = ([Fetched call], Returns r).
Proof.
  intros Hk Hf Hok Hj. unfold callOpenRouter.
  rewrite Hk, Hf, Hok, Hj. cbn [negb]. eauto.
Qed.

(** X19: the request never carries a falsy setting: an empty model name is
    replaced by the default model, a [max_tokens] of 0 or NaN by 4000 and a
    [temperature] of 0 or NaN by 0.7, so that a temperature of 0 cannot be
    requested; a non-zero setting is sent as given. *)
Theorem callOpenRouter_defaults (w : World) (msgs : list OpenRouterMessage)
  (options : Options) (call : FetchCall) :
  Fetched call ∈ fst (callOpenRouter w msgs options) ->
  model (body call) <> EmptyString /\
  truthy (max_tokens (body call)) = true /\
  truthy (temperature (body call)) = true /\
  (opt_temperature options = Some (Num 0%Qc) ->
     temperature (body call) = Num (Q2Qc (7 # 10))) /\
  (opt_max_tokens options = Some (Num 0%Qc) ->
     max_tokens (body call) = Num (Qc_of_Z 4000)) /\
  (forall t, opt_temperature options = Some t -> truthy t = true ->
     temperature (body call) = t) /\
  (forall n, opt_max_tokens options = Some n -> truthy n = true ->
     max_tokens (body call) = n) /\
  (forall m, opt_model options = Some m -> m <> EmptyString ->
     model (body call) = m).
Proof.
  intros Hin.
  assert (Hcall : body call = Request
      (strOr (opt_model options) "amazon/nova-2-lite-v1:free") msgs
      (numOr (opt_max_tokens options) (Num (Qc_of_Z 4000)))
      (numOr (opt_temperature options) (Num (Q2Qc (7 # 10))))
      (default false (opt_stream options))).
  { unfold callOpenRouter in Hin. destruct (keyMissing (apiKey w)).
    - by apply elem_of_nil in Hin.
    - destruct (fetch w _) as [e|response]; cbn [fst] in Hin.
      + apply elem_of_cons in Hin as [[= ->]|Hin]; [done|].
        apply list_elem_of_singleton in Hin. done.
      + destruct (negb (ok response)).
        * destruct (text response); cbn [fst] in Hin;
            (apply elem_of_cons in Hin as [[= ->]|Hin]; [done|]);
            apply list_elem_of_singleton in Hin; done.
        * destruct (json response); cbn [fst] in Hin.
          -- apply elem_of_cons in Hin as [[= ->]|Hin]; [done|].
             apply list_elem_of_singleton in Hin. done.
          -- apply list_elem_of_singleton in Hin. by injection Hin as ->. }
  rewrite Hcall. cbn [model max_tokens temperature].
  split_and!.
  - unfold strOr. destruct (opt_model options) as [m|]; [|done].
    destruct (decide (m = EmptyString)); done.
  - unfold numOr. destruct (opt_max_tokens options) as [n|]; [|by vm_compute].
    destruct (truthy n) eqn:Hn; [done|by vm_compute].
  - unfold numOr. destruct (opt_temperature options) as [t|]; [|by vm_compute].
    destruct (truthy t) eqn:Ht; [done|by vm_compute].
  - intros ->. reflexivity.
  - intros ->. reflexivity.
  - intros t -> Ht. unfold numOr. by rewrite Ht.
  - intros n -> Hn. unfold numOr. by rewrite Hn.
  - intros m -> Hm. unfold strOr. by rewrite decide_False.
Qed.

End OpenRouterMore.

Section OpenRouterRuns.
Import OpenRouter Samples.

Lemma callOpenRouter_one_request_witness :
  exists call : FetchCall,
    url call = "https://openrouter.ai/api/v1/chat/completions"%string /\
    bearer call = "sk-or-test"%string /\ messages (body call) = [] /\
    ((exists r, callOpenRouter world401 [] noOptions = ([Fetched call], Returns r)) \/
     (exists e, callOpenRouter world401 [] noOptions
                = ([Fetched call; ConsoleError "OpenRouter API call failed:" e],
                   Throws e))).
Proof.
  apply (callOpenRouter_one_request world401 [] noOptions "sk-or-test");
    [reflexivity|done].
Defined.

Lemma callOpenRouter_returns_body_witness :
  exists call,
    callOpenRouter (worldOk "Spend less.") [] noOptions
    = ([Fetched call], Returns (Response ["Spend less."%string])).
Proof.
  apply (callOpenRouter_returns_body (worldOk "Spend less.") [] noOptions
           (Http 200 (Returns "Spend less.") (Returns (Response ["Spend less."%string]))));
    reflexivity || (intros; reflexivity).
Defined.

Lemma callOpenRouter_defaults_witness :
  fst (callOpenRouter (worldOk "Spend less.") []
         (mkOptions None (Some (Num 0%Qc)) (Some (Num 0%Qc)) None))
    = [Fetched
         (Fetch "https://openrouter.ai/api/v1/chat/completions" "sk-or-test"
            "http://localhost:3000/"
            (Request "amazon/nova-2-lite-v1:free" []
               (Num (Qc_of_Z 4000)) (Num (Q2Qc (7 # 10))) false))] /\
  temperature
    (body (Fetch "https://openrouter.ai/api/v1/chat/completions" "sk-or-test"
            "http://localhost:3000/"
            (Request "amazon/nova-2-lite-v1:free" []
               (Num (Qc_of_Z 4000)) (Num (Q2Qc (7 # 10))) false)))
  = Num (Q2Qc (7 # 10)).
Proof.
  split; [reflexivity|].
  assert (Hin : Fetched
    (Fetch "https://openrouter.ai/api/v1/chat/completions" "sk-or-test"
       "http://localhost:3000/"
       (Request "amazon/nova-2-lite-v1:free" []
          (Num (Qc_of_Z 4000)) (Num (Q2Qc (7 # 10))) false))
    ∈ fst (callOpenRouter (worldOk "Spend less.") []
             (mkOptions None (Some (Num 0%Qc)) (Some (Num 0%Qc)) None))).
  { left. }
  destruct (callOpenRouter_defaults _ _ _ _ Hin) as (_ & _ & _ & Ht & _).
  apply Ht. reflexivity.
Defined.

End OpenRouterRuns.

(** ** The three handlers: what each outcome leaves behind *)

Section HandlersMore.
Import OpenRouter AiTools.

(** The state after a failed operation: the flag cleared, the inputs and
    the shown insights kept, one notification and one console error added
    after the events of the call. *)
Definition afterFailure (s : State) (callEvents : list Event)
  (label msg : string) (e : Error) : State :=
  mkState (aiQuery s) false (aiInsights s) (statementText s)
          (foundTransactions s) (notifications s ++ [msg])
          (events s ++ callEvents ++ [ConsoleError label e]).

(** X20: none of the three handlers lets an exception escape, whatever the
    API call, the JSON parse and the shape of the response turn out to be:
    every failure ends in the catch block. *)
Theorem handlers_never_throw (env : Env) (transactions : list Transaction)
  (incomeCategories expenseCategories investmentCategories : list string)
  (s : State) :
  fst (handleAnalyzeTransactions env transactions incomeCategories
         expenseCategories investmentCategories s) = Returns tt /\
  fst (handleParseStatement env s) = Returns tt /\
  fst (handleAskQuestion env transactions s) = Returns tt.
Proof. apply handlers_return. Qed.

(** X21: asking a question.  When the call or the reading of its first
    choice fails, the question stays in the input, the insights shown
    before stay, one notification "Failed to get answer" is added and the
    error is logged once; when it succeeds, the first choice's content
    becomes the insights, "Answer received" is notified and the question is
    cleared.  Either way one call is made and the flag ends cleared. *)
Theorem ask_question_outcomes (env : Env) (transactions : list Transaction)
  (s : State) :
  blank (aiQuery s) = false ->
  let call := callOpenRouter (world env)
      [Message system
         (Text "You are a financial advisor helping with expense tracking.");
       Message user (QuestionPrompt (length transactions) (aiQuery s))]
      noOptions in
  snd (handleAskQuestion env transactions s)
  = match snd (andThenContent call) with
    | Returns answer =>
        mkState EmptyString false answer (statementText s) (foundTransactions s)
                (notifications s ++ ["Answer received"%string])
                (events s ++ fst call)
    | Throws e =>
        afterFailure s (fst call) "AI query failed:" "Failed to get answer" e
    end.
Proof.
  intros Hb. cbv zeta. unfold handleAskQuestion, bind at 1, get. rewrite Hb.
  unfold afterFailure, andThenContent.
  destruct (callOpenRouter _ _ _) as [evs [e|r]] eqn:Hcall.
  - cbn. by rewrite <- app_assoc.
  - cbn. destruct r as [[|c cs]]; cbn; [by rewrite <- app_assoc|done].
Qed.

(** X22: analysing the transactions.  At most the first 50 transactions
    are sent; on failure the insights shown before stay and "AI analysis
    failed" is notified once, with the error logged once; on success the
    first choice's content becomes the insights and "Analysis complete" is
    notified. *)
Theorem analyze_outcomes (env : Env) (transactions : list Transaction)
  (incomeCategories expenseCategories investmentCategories : list string)
  (s : State) :
  transactions <> [] ->
  let call := analyzeTransactionsWithAI (world env) (take 50 transactions)
      incomeCategories expenseCategories investmentCategories in
  snd (handleAnalyzeTransactions env transactions incomeCategories
         expenseCategories investmentCategories s)
  = match snd call with
    | Returns insights =>
        mkState (aiQuery s) false insights (statementText s) (foundTransactions s)
                (notifications s ++ ["Analysis complete"%string])
                (events s ++ fst call)
    | Throws e =>
        afterFailure s (fst call) "AI analysis failed:" "AI analysis failed" e
    end.
Proof.
  intros Hne. cbv zeta. unfold handleAnalyzeTransactions.
  rewrite decide_False by (by destruct transactions).
  unfold afterFailure.
  destruct (analyzeTransactionsWithAI _ _ _ _ _) as [evs [e|r]] eqn:Hcall.
  - cbn. by rewrite <- app_assoc.
  - cbn. done.
Qed.

End HandlersMore.

Section HandlersRuns.
Import OpenRouter AiTools Samples.

Lemma ask_question_outcomes_witness :
  snd (handleAskQuestion (envOf world401) [txFood] state0)
  = afterFailure state0
      (fst (callOpenRouter world401
              [Message system
                 (Text "You are a financial advisor helping with expense tracking.");
               Message user (QuestionPrompt 1 "How much did I spend?")]
              noOptions))
      "AI query failed:" "Failed to get answer" (ApiError 401 "Unauthorized").
Proof.
  exact (ask_question_outcomes (envOf world401) [txFood] state0 eq_refl).
Defined.

Lemma analyze_outcomes_witness :
  snd (handleAnalyzeTransactions (envOf (worldOk "Spend less.")) [txFood]
         ["Salary"%string] ["Food"%string] [] state0)
  = mkState (aiQuery state0) false "Spend less." (statementText state0) []
      ["Analysis complete"%string]
      (fst (analyzeTransactionsWithAI (worldOk "Spend less.") [txFood]
              ["Salary"%string] ["Food"%string] [])).
Proof.
  refine (analyze_outcomes (envOf (worldOk "Spend less.")) [txFood]
            ["Salary"%string] ["Food"%string] [] state0 _).
  discriminate.
Defined.

End HandlersRuns.

(** ** Parsing a statement *)

Section ParseMore.
Import OpenRouter AiTools.
Variable env : Env.

Lemma toFoundItem_object (index : nat) (tx : Json) :
  tx <> JNull ->
  exists d a c n t,
    getField "date" tx = Returns d /\ getField "amount" tx = Returns a /\
    getField "category" tx = Returns c /\ getField "note" tx = Returns n /\
    getField "type" tx = Returns t /\
    toFoundItem env index tx
      = Returns (mkFound (dateNow env index, index) d a c n t "PDF file").
Proof.
  intros Hn. destruct tx; try done; cbn; eauto 12.
Qed.

Lemma toFoundItems_null (items : list Json) (start : nat) :
  JNull ∈ items -> toFoundItems env start items = Throws TypeError.
Proof.
  revert start. induction items as [|tx items IH]; intros start Hin.
  - by apply elem_of_nil in Hin.
  - apply elem_of_cons in Hin.
    destruct tx; cbn [toFoundItems toFoundItem getField]; try done;
      (destruct Hin as [?|Hin]; [done|]; by rewrite IH).
Qed.

(** What an extracted item carries over from element [tx] at [index]. *)
Definition extractedFrom (index : nat) (tx : Json) (item : FoundItem) : Prop :=
  found_id item = (dateNow env index, index) /\
  found_source item = "PDF file"%string /\
  getField "date" tx = Returns (found_date item) /\
  getField "amount" tx = Returns (found_amount item) /\
  getField "category" tx = Returns (found_category item) /\
  getField "note" tx = Returns (found_note item) /\
  getField "type" tx = Returns (found_type item).

Lemma toFoundItems_ok (items : list Json) (start : nat) :
  JNull ∉ items ->
  exists l : list FoundItem,
    toFoundItems env start items = Returns l /\
    length l = length items /\
    forall (i : nat) (item : FoundItem), l !! i = Some item ->
      exists tx, items !! i = Some tx /\ extractedFrom (start + i) tx item.
Proof.
  revert start. induction items as [|tx items IH]; intros start Hin.
  - exists []. split_and!; [done|done|]. intros i item Hi. done.
  - apply not_elem_of_cons in Hin as [Hne Hin].
    destruct (toFoundItem_object start tx (not_eq_sym Hne))
      as (d & a & c & n & t & Hd & Ha & Hc & Hn & Ht & Hitem).
    destruct (IH (S start) Hin) as (l & Hl & Hlen & Hlk).
    exists (mkFound (dateNow env start, start) d a c n t "PDF file" :: l).
    cbn [toFoundItems]. rewrite Hitem, Hl. split_and!; [done|by cbn; rewrite Hlen|].
    intros [|i] item Hi.
    + injection Hi as <-. exists tx. rewrite Nat.add_0_r.
      split; [done|]. by split_and!.
    + destruct (Hlk i item Hi) as (tx' & Htx' & Hex). exists tx'.
      split; [done|]. by rewrite <- Nat.add_succ_comm.
Qed.

Lemma extracted_ids_distinct (items : list Json) (l : list FoundItem) :
  (forall (i : nat) (item : FoundItem), l !! i = Some item ->
     exists tx, items !! i = Some tx /\ extractedFrom (0 + i) tx item) ->
  NoDup (map found_id l).
Proof.
  intros Hlk. apply NoDup_alt. intros i j id Hi Hj.
  change (map ?f ?l) with (fmap (M:=list) f l) in Hi, Hj.
  rewrite list_lookup_fmap in Hi, Hj.
  destruct (l !! i) as [a|] eqn:Ha; [|done].
  destruct (l !! j) as [b|] eqn:Hb; [|done].
  destruct (Hlk i a Ha) as (_ & _ & Hia & _).
  destruct (Hlk j b Hb) as (_ & _ & Hib & _).
  cbn in Hi, Hj, Hia, Hib. congruence.
Qed.

Local Ltac run :=
  unfold tryCatchFinally, bind, await, liftOutcome; cbn [fst snd].

(** X23: parsing a statement fails, with the pasted statement and the
    items found earlier kept, one notification "Failed to parse statement"
    and the error logged once, in each of these cases: the call throws; the
    response is not JSON; the response is the JSON [null]; the transactions
    array holds a [null] element. *)
Theorem parse_statement_failures (s : State) :
  blank (statementText s) = false ->
  let call := parseStatementWithAI (world env) (statementText s) "bank statement" in
  let failed e :=
    snd (handleParseStatement env s)
    = afterFailure s (fst call) "Statement parsing failed:"
        "Failed to parse statement" e in
  (forall e, snd call = Throws e -> failed e) /\
  (forall response, snd call = Returns response ->
     jsonParse env response = None -> failed SyntaxError) /\
  (forall response, snd call = Returns response ->
     jsonParse env response = Some JNull -> failed TypeError) /\
  (forall response parsed items, snd call = Returns response ->
     jsonParse env response = Some parsed ->
     getField "transactions" parsed = Returns (Some (JArray items)) ->
     JNull ∈ items -> failed TypeError).
Proof.
  intros Hb. cbv zeta. unfold handleParseStatement, afterFailure. cbn.
  rewrite Hb.
  destruct (parseStatementWithAI _ _ _) as [evs res]. cbn [snd fst].
  split_and!.
  - intros e ->. cbn. by rewrite <- app_assoc.
  - intros response -> Hp. run. rewrite Hp. cbn. by rewrite <- app_assoc.
  - intros response -> Hp. run. rewrite Hp. cbn. by rewrite <- app_assoc.
  - intros response parsed items -> Hp Hf Hin. run. rewrite Hp. cbn.
    rewrite Hf. cbn. rewrite (toFoundItems_null items 0 Hin). cbn.
    by rewrite <- app_assoc.
Qed.

(** X24: when the response parses to a value whose [transactions] field is
    an array without [null] elements, one item is extracted per element, in
    order, each carrying the element's five fields, the source "PDF file"
    and an id built from the clock and the element's index, so that the ids
    are pairwise different; the items replace the found transactions,
    "Found n transactions" is notified with n the number of elements, and
    the pasted statement is cleared. *)
Theorem parse_statement_success (s : State) (response : string) (parsed : Json)
  (items : list Json) :
  blank (statementText s) = false ->
  let call := parseStatementWithAI (world env) (statementText s) "bank statement" in
  snd call = Returns response ->
  jsonParse env response = Some parsed ->
  getField "transactions" parsed = Returns (Some (JArray items)) ->
  JNull ∉ items ->
  exists found : list FoundItem,
    snd (handleParseStatement env s)
    = mkState (aiQuery s) false (aiInsights s) EmptyString found
        (notifications s ++ [foundMessage (length items)])
        (events s ++ fst call) /\
    length found = length items /\
    NoDup (map found_id found) /\
    forall (i : nat) (item : FoundItem), found !! i = Some item ->
      exists tx, items !! i = Some tx /\ extractedFrom i tx item.
Proof.
  intros Hb. cbv zeta. intros Hc Hp Hf Hnull.
  destruct (toFoundItems_ok items 0 Hnull) as (l & Hl & Hlen & Hlk).
  exists l. split_and!; [|done|by eapply extracted_ids_distinct|exact Hlk].
  unfold handleParseStatement. cbn. rewrite Hb.
  destruct (parseStatementWithAI _ _ _) as [evs res]. cbn [snd fst] in *.
  subst res. run. rewrite Hp. cbn. rewrite Hf. cbn. rewrite Hl. cbn.
  by rewrite Hlen.
Qed.

(** X25: when the response parses to a value that has no [transactions]
    array (the field is missing, or is not an array, or the value is not an
    object), the handler ends without any notification: the statement stays,
    the found transactions stay, and only the flag is cleared. *)
Theorem parse_statement_silent (s : State) (response : string) (parsed : Json)
  (field : option Json) :
  blank (statementText s) = false ->
  let call := parseStatementWithAI (world env) (statementText s) "bank statement" in
  snd call = Returns response ->
  jsonParse env response = Some parsed ->
  getField "transactions" parsed = Returns field ->
  (forall items, field <> Some (JArray items)) ->
  snd (handleParseStatement env s)
  = mkState (aiQuery s) false (aiInsights s) (statementText s)
      (foundTransactions s) (notifications s) (events s ++ fst call).
Proof.
  intros Hb. cbv zeta. intros Hc Hp Hf Hna.
  unfold handleParseStatement. cbn. rewrite Hb.
  destruct (parseStatementWithAI _ _ _) as [evs res]. cbn [snd fst] in *.
  subst res. run. rewrite Hp. cbn. rewrite Hf. cbn.
  destruct field as [[]|]; try done. by destruct (Hna items).
Qed.

End ParseMore.

Section ParseRuns.
Import OpenRouter AiTools Samples.

Lemma parse_statement_failures_witness :
  snd (handleParseStatement (envOf world401) state0)
  = afterFailure state0
      (fst (parseStatementWithAI world401 "05/01 CAFE 12.50" "bank statement"))
      "Statement parsing failed:" "Failed to parse statement"
      (ApiError 401 "Unauthorized").
Proof.
  exact (proj1 (parse_statement_failures (envOf world401) state0 eq_refl)
           (ApiError 401 "Unauthorized") eq_refl).
Defined.

(** The one element of the statement scenario. *)
Definition diningItem : Json :=
  JObject [("date"%string, JString "2024-01-05");
           ("amount"%string, JNumber (Num (Q2Qc (-25 # 2))));
           ("category"%string, JString "Dining");
           ("note"%string, JString "Cafe");
           ("type"%string, JString "expense")].

Lemma parse_statement_success_witness :
  exists found : list FoundItem,
    snd (handleParseStatement (envOf (worldOk "one-dining-transaction")) state0)
    = mkState (aiQuery state0) false (aiInsights state0) EmptyString found
        (notifications state0 ++ [foundMessage 1])
        (events state0
         ++ fst (parseStatementWithAI (worldOk "one-dining-transaction")
                   "05/01 CAFE 12.50" "bank statement")) /\
    length found = 1%nat /\
    NoDup (map found_id found) /\
    forall (i : nat) (item : FoundItem), found !! i = Some item ->
      exists tx, [diningItem] !! i = Some tx /\
        extractedFrom (envOf (worldOk "one-dining-transaction")) i tx item.
Proof.
  refine (parse_statement_success (envOf (worldOk "one-dining-transaction"))
            state0 "one-dining-transaction"
            (JObject [("transactions"%string, JArray [diningItem])])
            [diningItem] eq_refl eq_refl eq_refl eq_refl _).
  intros Hin. apply list_elem_of_singleton in Hin. discriminate Hin.
Defined.

Lemma parse_statement_silent_witness :
  snd (handleParseStatement
         (mkEnv (worldOk "[]") (fun _ => Some (JArray [])) (fun _ => now0))
         state0)
  = mkState (aiQuery state0) false (aiInsights state0) (statementText state0)
      (foundTransactions state0) (notifications state0)
      (events state0
       ++ fst (parseStatementWithAI (worldOk "[]") "05/01 CAFE 12.50"
                 "bank statement")).
Proof.
  refine (parse_statement_silent
            (mkEnv (worldOk "[]") (fun _ => Some (JArray [])) (fun _ => now0))
            state0 "[]" (JArray []) None eq_refl eq_refl eq_refl eq_refl _).
  intros items Hn. discriminate Hn.
Defined.

End ParseRuns.

(** ** Adding an extracted item to the tracker *)

Section TrackerMore.
Import AiTools Tracker.

Lemma same_id_same_item (found : list FoundItem) (a b : FoundItem) :
  NoDup (map found_id found) -> a ∈ found -> b ∈ found ->
  found_id a = found_id b -> a = b.
Proof.
  induction found as [|f found IH]; intros Hnd Ha Hb Hid.
  - by apply elem_of_nil in Ha.
  - cbn [map] in Hnd. apply NoDup_cons in Hnd as [Hf Hnd].
    assert (Hmem : forall x, x ∈ found -> found_id x ∈ map found_id found).
    { intros x Hx. change (map found_id found) with (found_id <$> found).
      by apply list_elem_of_fmap_2. }
    apply elem_of_cons in Ha as [->|Ha]; apply elem_of_cons in Hb as [->|Hb].
    + done.
    + destruct Hf. rewrite Hid. by apply Hmem.
    + destruct Hf. rewrite <- Hid. by apply Hmem.
    + by apply IH.
Qed.

Lemma filter_keeps_all {A : Type} (P : A -> Prop) `{!forall x, Decision (P x)}
  (l : list A) :
  Forall P l -> filter P l = l.
Proof.
  induction 1 as [|x l Hx Hl IH]; [done|].
  rewrite filter_cons_True by done. by rewrite IH.
Qed.

Lemma others_length (found : list FoundItem) (item : FoundItem) :
  NoDup (map found_id found) -> item ∈ found ->
  length found
  = S (length (filter (fun f => found_id f <> found_id item) found)).
Proof.
  induction found as [|f found IH]; intros Hnd Hin.
  - by apply elem_of_nil in Hin.
  - cbn [map] in Hnd. apply NoDup_cons in Hnd as [Hf Hnd].
    destruct (decide (found_id f = found_id item)) as [Heq|Hne].
    + rewrite filter_cons_False by (intros H; by apply H).
      cbn [length]. f_equal. f_equal. symmetry.
      apply filter_keeps_all. apply Forall_forall. intros x Hx Hid.
      apply Hf. rewrite Heq, <- Hid.
      change (map found_id found) with (found_id <$> found).
      by apply list_elem_of_fmap_2.
    + rewrite filter_cons_True by done. cbn [length]. f_equal.
      apply IH; [done|].
      apply elem_of_cons in Hin as [->|Hin]; [done|done].
Qed.

(** X26: "Add to Tracker" on an extracted item.  When the item's date,
    amount and category are truthy, the ids of the listed items are
    pairwise different and the item is listed, the click hands over a
    transaction with the item's five fields, notifies "Transaction added",
    and leaves the other items, in their order: exactly the clicked item is
    gone, so the list is one shorter.  When one of the three fields is
    falsy (missing, [null], an empty string, 0 or NaN) the click does
    nothing. *)
Theorem add_to_tracker_removes_clicked (now : Calendar.time)
  (found : list FoundItem) (item : FoundItem) :
  NoDup (map found_id found) ->
  item ∈ found ->
  if jsonTruthy (found_date item) && jsonTruthy (found_amount item)
     && jsonTruthy (found_category item)
  then exists rest : list FoundItem,
         addToTracker now found item
         = Some (mkNew now (found_date item) (found_amount item)
                   (found_category item) (found_note item) (found_type item),
                 rest, "Transaction added"%string) /\
         length found = S (length rest) /\
         rest `sublist_of` found /\
         forall f, f ∈ rest <-> f ∈ found /\ f <> item
  else addToTracker now found item = None.
Proof.
  intros Hnd Hin. unfold addToTracker.
  destruct (jsonTruthy (found_date item) && jsonTruthy (found_amount item)
            && jsonTruthy (found_category item)); [|done].
  eexists. split; [done|]. split_and!.
  - by apply others_length.
  - apply sublist_filter.
  - intros f. rewrite list_elem_of_filter. split.
    + intros [Hid Hf]. split; [done|]. by intros ->.
    + intros [Hf Hne]. split; [|done]. intros Hid. apply Hne.
      by eapply same_id_same_item.
Qed.

End TrackerMore.

Section TrackerRuns.
Import AiTools Tracker Samples.

(** Two extracted items, the second with the amount 0. *)
Definition dining0 : FoundItem :=
  mkFound (now0, 0%nat) (Some (JString "2024-01-05"))
    (Some (JNumber (Num (Q2Qc (-25 # 2))))) (Some (JString "Dining"))
    (Some (JString "Cafe")) (Some (JString "expense")) "PDF file".
Definition dining1 : FoundItem :=
  mkFound (now0, 1%nat) (Some (JString "2024-01-06"))
    (Some (JNumber (Num 0%Qc))) (Some (JString "Dining"))
    None (Some (JString "expense")) "PDF file".
Definition found0 : list FoundItem := [dining0; dining1].

Lemma add_to_tracker_removes_clicked_witness :
  (exists rest : list FoundItem,
     addToTracker now0 found0 dining0
     = Some (mkNew now0 (Some (JString "2024-01-05"))
               (Some (JNumber (Num (Q2Qc (-25 # 2))))) (Some (JString "Dining"))
               (Some (JString "Cafe")) (Some (JString "expense")),
             rest, "Transaction added"%string) /\
     length found0 = S (length rest) /\
     rest `sublist_of` found0 /\
     forall f, f ∈ rest <-> f ∈ found0 /\ f <> dining0) /\
  addToTracker now0 found0 dining1 = None.
Proof.
  assert (Hnd : NoDup (map found_id found0)).
  { cbn. apply NoDup_cons. split.
    - intros Hin. apply list_elem_of_singleton in Hin. discriminate Hin.
    - apply NoDup_singleton. }
  split.
  - exact (add_to_tracker_removes_clicked now0 found0 dining0 Hnd
             (list_elem_of_here _ _)).
  - exact (add_to_tracker_removes_clicked now0 found0 dining1 Hnd
             (list_elem_of_further _ _ _ (list_elem_of_here _ _))).
Defined.

End TrackerRuns.

(** ** The calendar's month navigation *)

Section CivilDates.
Import Calendar.
Local Open Scope Z_scope.

Local Ltac dlia := Z.to_euclidean_division_equations; lia.

Lemma yoe_recover (yoe doy : Z) :
  0 <= yoe < 400 -> 0 <= doy ->
  doy <= 364 + (if isLeap (yoe + 1) then 1 else 0) ->
  let doe := yoe * 365 + yoe / 4 - yoe / 100 + doy in
  (doe - doe / 1460 + doe / 36524 - doe / 146096) / 365 = yoe.
Proof.
  intros Hy Hd Hle doe. subst doe. unfold isLeap in Hle.
  destruct ((yoe + 1) mod 4 =? 0) eqn:E4;
    destruct ((yoe + 1) mod 100 =? 0) eqn:E100;
    destruct ((yoe + 1) mod 400 =? 0) eqn:E400; cbn in Hle; dlia.
Qed.

Lemma month_recover (mp d : Z) :
  0 <= mp <= 11 -> 1 <= d ->
  d <= (if mp =? 11 then 29 else (153 * (mp + 1) + 2) / 5 - (153 * mp + 2) / 5) ->
  (5 * ((153 * mp + 2) / 5 + d - 1) + 2) / 153 = mp.
Proof.
  intros Hmp Hd Hle.
  assert (mp = 0 \/ mp = 1 \/ mp = 2 \/ mp = 3 \/ mp = 4 \/ mp = 5 \/ mp = 6
          \/ mp = 7 \/ mp = 8 \/ mp = 9 \/ mp = 10 \/ mp = 11) as Hc by lia.
  repeat (destruct Hc as [->|Hc]); try subst mp;
    simpl (_ =? _) in Hle; cbv iota in Hle; dlia.
Qed.

(** The two civil-date conversions of the UTC instance are inverse on
    calendar dates. *)
Lemma civil_roundtrip (y m d : Z) :
  1 <= m <= 12 -> 1 <= d <= daysInMonth y m ->
  civilFromDays (daysFromCivil y m d) = (y, m, d).
Proof.
  intros Hm Hd.
  unfold daysFromCivil, civilFromDays. cbv zeta.
  set (y' := if m <=? 2 then y - 1 else y).
  set (mp := if 2 <? m then m - 3 else m + 9).
  set (era := y' / 400). set (yoe := y' - era * 400).
  set (doy := (153 * mp + 2) / 5 + d - 1).
  set (doe := yoe * 365 + yoe / 4 - yoe / 100 + doy).
  assert (Hmp : 0 <= mp <= 11) by (subst mp; destruct (2 <? m) eqn:E; lia).
  assert (Hyoe : 0 <= yoe < 400) by (subst yoe era; dlia).
  assert (Hlen : d <= (if mp =? 11 then 29
                       else (153 * (mp + 1) + 2) / 5 - (153 * mp + 2) / 5)).
  { unfold daysInMonth in Hd. subst mp.
    assert (m = 1 \/ m = 2 \/ m = 3 \/ m = 4 \/ m = 5 \/ m = 6 \/ m = 7 \/ m = 8
            \/ m = 9 \/ m = 10 \/ m = 11 \/ m = 12) as Hc by lia.
    destruct (isLeap y);
      repeat (destruct Hc as [->|Hc]); try subst m;
      match type of Hd with
      | _ <= _ <= ?k => let k' := eval vm_compute in k in change (1 <= d <= k') in Hd
      end;
      match goal with
      | |- _ <= ?k => let k' := eval vm_compute in k in change (d <= k')
      end; lia. }
  assert (Hdoy : 0 <= doy <= 364 + (if isLeap (yoe + 1) then 1 else 0)).
  { assert (mp = 11 -> d = 29 -> isLeap (yoe + 1) = true) as Hleap.
    { intros Hmp11 Hd29. unfold daysInMonth in Hd.
      assert (m = 2) as -> by (subst mp; destruct (2 <? m) eqn:E; lia).
      change (2 =? 2) with true in Hd. cbv iota in Hd.
      destruct (isLeap y) eqn:El; [|lia].
      unfold isLeap in El |- *. subst yoe era y'.
      change (2 <=? 2) with true. cbv iota.
      replace ((y - 1 - (y - 1) / 400 * 400 + 1) mod 4) with (y mod 4) by dlia.
      replace ((y - 1 - (y - 1) / 400 * 400 + 1) mod 100) with (y mod 100) by dlia.
      replace ((y - 1 - (y - 1) / 400 * 400 + 1) mod 400) with (y mod 400) by dlia.
      exact El. }
    subst doy. clearbody mp.
    destruct (Z.eq_dec mp 11) as [E|E].
    - replace (mp =? 11) with true in Hlen by lia.
      destruct (Z.eq_dec d 29) as [Hd29|Hd29].
      + rewrite (Hleap E Hd29). dlia.
      + destruct (isLeap (yoe + 1)); dlia.
    - replace (mp =? 11) with false in Hlen by lia.
      destruct (isLeap (yoe + 1)); dlia. }
  assert (Hmonth : (5 * doy + 2) / 153 = mp).
  { subst doy. apply month_recover; [exact Hmp|lia|exact Hlen]. }
  assert (Hdoe : 0 <= doe <= 146096).
  { subst doe. clearbody doy yoe. destruct (isLeap (yoe + 1)); dlia. }
  assert (Hyear : (doe - doe / 1460 + doe / 36524 - doe / 146096) / 365 = yoe).
  { subst doe. apply yoe_recover; [exact Hyoe|lia|lia]. }
  replace (era * 146097 + doe - 719468 + 719468) with (era * 146097 + doe) by lia.
  assert (Hera : (era * 146097 + doe) / 146097 = era) by (clearbody doe era; dlia).
  rewrite Hera.
  replace (era * 146097 + doe - era * 146097) with doe by lia.
  rewrite Hyear.
  replace (doe - (365 * yoe + yoe / 4 - yoe / 100)) with doy by (subst doe; lia).
  rewrite Hmonth.
  assert (Hm' : (if mp <? 10 then mp + 3 else mp - 9) = m).
  { subst mp. destruct (2 <? m) eqn:E1.
    - destruct (m - 3 <? 10) eqn:E2; lia.
    - destruct (m + 9 <? 10) eqn:E2; lia. }
  rewrite Hm'.
  f_equal; [f_equal|].
  - subst yoe era y'. destruct (m <=? 2); dlia.
  - subst doy. lia.
Qed.

Lemma monthIndex_eq (t : time) : monthIndex t = 12 * yearOf t + (monthOf t - 1).
Proof. reflexivity. Qed.

Lemma dateOf_positive (t : time) : 1 <= dateOf t.
Proof.
  unfold dateOf, civilFromDays. cbv zeta. cbn [snd].
  generalize (dayOf t + 719468 - (dayOf t + 719468) / 146097 * 146097).
  intros doe.
  generalize (doe - (365 * ((doe - doe / 1460 + doe / 36524 - doe / 146096) / 365)
                     + (doe - doe / 1460 + doe / 36524 - doe / 146096) / 365 / 4
                     - (doe - doe / 1460 + doe / 36524 - doe / 146096) / 365 / 100)).
  intros doy. dlia.
Qed.

Lemma daysInMonth_positive (y m : Z) : 28 <= daysInMonth y m.
Proof.
  unfold daysInMonth.
  destruct (m =? 2); [destruct (isLeap y); lia|].
  destruct ((m =? 4) || (m =? 6) || (m =? 9) || (m =? 11)); lia.
Qed.

(** [addMonths] of the UTC instance moves the month by the number asked. *)
Lemma utc_addMonths_monthIndex (t : time) (n : Z) :
  monthIndex (utc_addMonths t n) = monthIndex t + n.
Proof.
  unfold utc_addMonths. cbv zeta.
  set (mi := monthIndex t + n).
  set (d := Z.min (dateOf t) (daysInMonth (mi / 12) (mi mod 12 + 1))).
  assert (Hday : dayOf (daysFromCivil (mi / 12) (mi mod 12 + 1) d * msPerDay + msOfDay t)
                 = daysFromCivil (mi / 12) (mi mod 12 + 1) d).
  { unfold dayOf, msOfDay, msPerDay.
    generalize (daysFromCivil (mi / 12) (mi mod 12 + 1) d). intros z. dlia. }
  assert (Hciv : civilFromDays (daysFromCivil (mi / 12) (mi mod 12 + 1) d)
                 = (mi / 12, mi mod 12 + 1, d)).
  { apply civil_roundtrip; [dlia|].
    pose proof (dateOf_positive t).
    pose proof (daysInMonth_positive (mi / 12) (mi mod 12 + 1)).
    subst d. lia. }
  unfold monthIndex at 1, yearOf, monthOf. rewrite Hday, Hciv. cbn [fst snd].
  clearbody mi. dlia.
Qed.

End CivilDates.

Section NavigationMore.
Import Calendar CalendarFields Navigation.
Context {lib : DateLib} {fields : DateFields}.
Local Open Scope Z_scope.

(** Months counted from year 0, read with the engine's two getters. *)
Definition monthNumber (d : time) : Z := getFullYear d * 12 + getMonth d.

Lemma monthNumber_eq (d : time) :
  monthNumber d = getFullYear d * 12 + getMonth d.
Proof. reflexivity. Qed.

(** X27: when [addMonths] and [subMonths] move a date by the number of
    months asked, and the month has not changed between rendering the
    calendar and the click, the offset computed from the displayed month is
    the current offset, the [>] button sets it one higher and the [<]
    button one lower. *)
Theorem calendar_buttons_step_one (render click : time) (dateOffset : Z) :
  (forall d k, monthNumber (addMonths d k) = monthNumber d + k) ->
  (forall d k, monthNumber (subMonths d k) = monthNumber d - k) ->
  monthNumber render = monthNumber click ->
  setBaseDate click (baseDate render dateOffset) = dateOffset /\
  nextMonth render click dateOffset = dateOffset + 1 /\
  previousMonth render click dateOffset = dateOffset - 1.
Proof.
  intros Hadd Hsub Hsame.
  assert (Hset : forall d, setBaseDate click d = monthNumber d - monthNumber click)
    by (intros d; rewrite !monthNumber_eq; unfold setBaseDate; lia).
  unfold nextMonth, previousMonth, baseDate.
  rewrite !Hset, Hsub, !Hadd. lia.
Qed.

End NavigationMore.

Section NavigationRuns.
Import Calendar CalendarFields Navigation Samples.
Local Open Scope Z_scope.

Lemma getFullYear_utc (x : time) :
  getFullYear (DateFields:=utcFields) x = yearOf x.
Proof. reflexivity. Qed.

Lemma getMonth_utc (x : time) :
  getMonth (DateFields:=utcFields) x = monthOf x - 1.
Proof. reflexivity. Qed.

Lemma addMonths_utc (d : time) (k : Z) :
  addMonths (DateLib:=utc) d k = utc_addMonths d k.
Proof. reflexivity. Qed.

Lemma subMonths_utc (d : time) (k : Z) :
  subMonths (DateLib:=utc) d k = utc_addMonths d (- k).
Proof. reflexivity. Qed.

(** The UTC instance meets the two conditions on the date library. *)
Lemma utc_addMonths_monthNumber (d : time) (k : Z) :
  monthNumber (fields:=utcFields) (addMonths (DateLib:=utc) d k)
  = monthNumber (fields:=utcFields) d + k.
Proof.
  rewrite !monthNumber_eq, addMonths_utc.
  rewrite (getFullYear_utc d), (getFullYear_utc (utc_addMonths d k)).
  rewrite (getMonth_utc d), (getMonth_utc (utc_addMonths d k)).
  pose proof (utc_addMonths_monthIndex d k) as H.
  rewrite !monthIndex_eq in H. lia.
Qed.

Lemma utc_subMonths_monthNumber (d : time) (k : Z) :
  monthNumber (fields:=utcFields) (subMonths (DateLib:=utc) d k)
  = monthNumber (fields:=utcFields) d - k.
Proof.
  rewrite !monthNumber_eq, subMonths_utc.
  rewrite (getFullYear_utc d), (getFullYear_utc (utc_addMonths d (- k))).
  rewrite (getMonth_utc d), (getMonth_utc (utc_addMonths d (- k))).
  pose proof (utc_addMonths_monthIndex d (- k)) as H.
  rewrite !monthIndex_eq in H. lia.
Qed.

Lemma calendar_buttons_step_one_witness :
  setBaseDate (fields:=utcFields) now0 (baseDate (lib:=utc) now0 3) = 3 /\
  nextMonth (lib:=utc) (fields:=utcFields) now0 now0 3 = 4 /\
  previousMonth (lib:=utc) (fields:=utcFields) now0 now0 3 = 2.
Proof.
  exact (calendar_buttons_step_one (lib:=utc) (fields:=utcFields) now0 now0 3
           utc_addMonths_monthNumber utc_subMonths_monthNumber eq_refl).
Defined.

End NavigationRuns.

(** ** Guards of the handlers, and the section headers *)

Section GuardsMore.
Import OpenRouter AiTools.

(** The state after one notification and nothing else. *)
Definition notified (s : State) (msg : string) : State :=
  mkState (aiQuery s) (isProcessing s) (aiInsights s) (statementText s)
          (foundTransactions s) (notifications s ++ [msg]) (events s).

(** X28: the guards of the three handlers.  With no transactions, with a
    statement of blanks only, or with a question of blanks only, the handler
    returns after one notification: no request is sent and nothing is
    logged (the events are unchanged), and the processing flag, the
    insights, the texts and the found transactions are left as they are. *)
Theorem guards_send_no_request (env : Env) (transactions : list Types.Transaction)
  (incomeCategories expenseCategories investmentCategories : list string)
  (s : State) :
  (length transactions = 0%nat ->
     handleAnalyzeTransactions env transactions incomeCategories
       expenseCategories investmentCategories s
     = (Returns tt, notified s "No transactions to analyze")) /\
  (blank (statementText s) = true ->
     handleParseStatement env s
     = (Returns tt, notified s "Please paste statement text")) /\
  (blank (aiQuery s) = true ->
     handleAskQuestion env transactions s
     = (Returns tt, notified s "Please enter a question")).
Proof.
  split_and!.
  - intros Hlen. unfold handleAnalyzeTransactions.
    destruct (decide (length transactions = 0%nat)); done.
  - intros Hb. unfold handleParseStatement, bind, get. by rewrite Hb.
  - intros Hb. unfold handleAskQuestion, bind, get. by rewrite Hb.
Qed.

End GuardsMore.

Section SectionsMore.
Import Types MonthlySpend.

(** X29: the header of each of the three budget tables toggles the table's
    own section and no other: the three table types name three different
    sections, a click flips the visibility of the clicked table's section
    and keeps that of the two others, and a second click on the same header
    restores the sections. *)
Theorem header_toggles_own_section (type other : TxType) (prev : Sections) :
  isVisible (sectionKey type) (toggleSection (sectionKey type) prev)
  = negb (isVisible (sectionKey type) prev) /\
  (other <> type ->
     sectionKey other <> sectionKey type /\
     isVisible (sectionKey other) (toggleSection (sectionKey type) prev)
     = isVisible (sectionKey other) prev) /\
  toggleSection (sectionKey type) (toggleSection (sectionKey type) prev) = prev.
Proof.
  destruct prev as [i e v].
  destruct type, other; cbn; rewrite ?negb_involutive; split_and!; try done;
    intros Hne; by (split; [discriminate|reflexivity]).
Qed.

End SectionsMore.
